(** * HF-Doctor: the appointment-booking chat handlers

    A shallow embedding of [app-webhook.py] and [app-calendar.py]: the
    two-step intake dialogue kept in the attribute [generate_response.step],
    the duplicate check, the calendar insert and the confirmation webhook
    with its retry decorator.  Python values are modelled as the code has
    them: [str] as a sequence of code points, naive [datetime] as a count of
    microseconds, exceptions as an error type threaded through a state
    monad over the observable world (calendar contents, webhook posts,
    router calls, log, the step attribute). *)

From Stdlib Require Import String Ascii ZArith List Bool Lia.
Import ListNotations.
Open Scope Z_scope.

(** ** Python strings *)

Module Py.

(** A Python [str] is a sequence of Unicode code points. *)
Definition str := list Z.

(** The source files are UTF-8; [u "..."] reads a literal of the source as
    the code points Python sees. *)
Fixpoint utf8_decode_from (pending : Z) (need : nat) (s : string) : str :=
  match s with
  | EmptyString => []
  | String c rest =>
      let b := Z.of_N (N_of_ascii c) in
      match need with
      | O =>
          if b <? 128 then b :: utf8_decode_from 0 0 rest
          else if b <? 224 then utf8_decode_from (Z.land b 31) 1 rest
          else if b <? 240 then utf8_decode_from (Z.land b 15) 2 rest
          else utf8_decode_from (Z.land b 7) 3 rest
      | S k =>
          let acc := Z.lor (Z.shiftl pending 6) (Z.land b 63) in
          match k with
          | O => acc :: utf8_decode_from 0 0 rest
          | S _ => utf8_decode_from acc k rest
          end
      end
  end.

Definition u (s : string) : str := utf8_decode_from 0 0 s.

(** [str.lower()], on the Basic Latin, Latin-1 and Cyrillic capitals; other
    code points are left as they are. *)
Definition lower_cp (c : Z) : Z :=
  if (65 <=? c) && (c <=? 90) then c + 32
  else if (192 <=? c) && (c <=? 222) && negb (c =? 215) then c + 32
  else if (1040 <=? c) && (c <=? 1071) then c + 32
  else if (1024 <=? c) && (c <=? 1039) then c + 80
  else c.

Definition lower (s : str) : str := map lower_cp s.

Fixpoint startswith (p s : str) : bool :=
  match p, s with
  | [], _ => true
  | _ :: _, [] => false
  | a :: p', b :: s' => (a =? b) && startswith p' s'
  end.

(** [sub in s] *)
Fixpoint contains (sub s : str) : bool :=
  match s with
  | [] => startswith sub []
  | _ :: s' => startswith sub s || contains sub s'
  end.

(** [s.split(sep, 1)] for a one-character separator: the whole string when
    the separator does not occur, else the text before and after its first
    occurrence. *)
Fixpoint split1 (sep : Z) (s : str) : list str :=
  match s with
  | [] => [[]]
  | c :: s' =>
      if c =? sep then [[]; s']
      else match split1 sep s' with
           | [] => [[c]]
           | a :: rest => (c :: a) :: rest
           end
  end.

(** [str.isspace] for one character: the Unicode white space of Python. *)
Definition isspace (c : Z) : bool :=
  ((9 <=? c) && (c <=? 13)) || ((28 <=? c) && (c <=? 32))
  || (c =? 133) || (c =? 160) || (c =? 5760)
  || ((8192 <=? c) && (c <=? 8202))
  || (c =? 8232) || (c =? 8233) || (c =? 8239) || (c =? 8287) || (c =? 12288).

Fixpoint lstrip (s : str) : str :=
  match s with
  | [] => []
  | c :: s' => if isspace c then lstrip s' else s
  end.

Definition rstrip (s : str) : str := rev (lstrip (rev s)).

(** [s.strip()] *)
Definition strip (s : str) : str := rstrip (lstrip s).

(** Truth value of a string: the empty string is falsy. *)
Definition truthy (s : str) : bool :=
  match s with [] => false | _ :: _ => true end.

Definition comma : Z := 44.
Definition space : Z := 32.

End Py.

Notation "s1 +++ s2" := (@app Z s1 s2) (at level 60, right associativity).

(** ** Exceptions *)

Inductive exn : Type :=
| HttpError          (* googleapiclient.errors.HttpError *)
| RequestException   (* requests: connection error, timeout, HTTPError *)
| RetryError         (* tenacity.RetryError *)
| OverflowError      (* datetime arithmetic out of range *)
| OtherException.    (* any other subclass of Exception *)

Definition is_HttpError (e : exn) : bool :=
  match e with HttpError => true | _ => false end.

(** ** Naive datetimes *)

Module DateTime.

(** A naive [datetime]: microseconds since 0001-01-01T00:00:00. *)
Definition datetime := Z.
(** A [timedelta], in microseconds. *)
Definition timedelta := Z.

Definition microsecond : Z := 1.
Definition second : Z := 1000000.
Definition minutes (m : Z) : timedelta := m * 60 * second.
Definition hours (h : Z) : timedelta := h * 3600 * second.
Definition day : Z := 86400 * second.

(** [datetime.max] is 9999-12-31T23:59:59.999999, day 3652059 of the
    proleptic Gregorian calendar. *)
Definition MAX : datetime := 3652059 * day - 1.

(** [t + d]: raises [OverflowError] outside [datetime.min .. datetime.max]. *)
Definition add (t : datetime) (d : timedelta) : exn + datetime :=
  if (0 <=? t + d) && (t + d <=? MAX) then inr (t + d) else inl OverflowError.

(** Year, month and day of a day count from 0001-01-01 (day 0). *)
Definition civil (days : Z) : Z * Z * Z :=
  let z := days + 306 in
  let era := z / 146097 in
  let doe := z mod 146097 in
  let yoe := (doe - doe / 1460 + doe / 36524 - doe / 146096) / 365 in
  let doy := doe - (365 * yoe + yoe / 4 - yoe / 100) in
  let mp := (5 * doy + 2) / 153 in
  let d := doy - (153 * mp + 2) / 5 + 1 in
  let m := if mp <? 10 then mp + 3 else mp - 9 in
  let y := yoe + era * 400 + (if m <=? 2 then 1 else 0) in
  (y, m, d).

Definition digit (n : Z) : Z := 48 + n mod 10.
Definition two_digits (n : Z) : Py.str := [digit (n / 10); digit n].
Definition four_digits (n : Z) : Py.str :=
  [digit (n / 1000); digit (n / 100); digit (n / 10); digit n].

(** [t.strftime('%d.%m.%Y %H:%M')] *)
Definition strftime_dmY_HM (t : datetime) : Py.str :=
  let '(y, m, d) := civil (t / day) in
  let sod := (t mod day) / second in
  two_digits d +++ Py.u "." +++ two_digits m +++ Py.u "." +++ four_digits y
  +++ Py.u " " +++ two_digits (sod / 3600) +++ Py.u ":"
  +++ two_digits ((sod / 60) mod 60).

End DateTime.

Import DateTime.

(** ** The world the handlers run in *)

(** A calendar event as the code builds it.  The start and end are kept as
    datetimes; [isoformat()] only renders them for the wire. *)
Record Event : Type := mkEvent {
  summary : Py.str;
  description : Py.str;
  start_dateTime : datetime;
  end_dateTime : datetime;
  timeZone : Py.str;
  (* extendedProperties.private.requiresConfirmation = 'true' *)
  requiresConfirmation : bool
}.

(** The JSON body posted to the confirmation endpoint. *)
Record Payload : Type := mkPayload {
  event_id : Z;
  status : Py.str
}.

(** What one [requests.post] meets: no answer at all, or a response with
    its status code. *)
Inductive PostOutcome : Type :=
| NetworkError
| Response (status_code : Z).

Inductive LogRecord : Type :=
| LogInfo (msg : Py.str)
| LogWarning (msg : Py.str)
| LogError (msg : Py.str) (e : exn).

(** Configuration and collaborators: what the process reads from its
    environment and the services it calls.  [define_specialist] is the
    module [symptom_classifier]; the calendar service answers [list] with
    the events it holds and decides by [q_matches] which of them a free-text
    query selects. *)
Record Env : Type := mkEnv {
  WEBHOOK_URL : option Py.str;
  SYSTEM_PROMPT : Py.str;
  (* the n-th reading of datetime.now() *)
  clock : nat -> datetime;
  define_specialist : Py.str -> exn + Py.str;
  (* get_calendar_service() raising: missing or malformed credentials *)
  credentials_fault : option exn;
  (* events().list(...).execute() raising *)
  list_fault : option exn;
  (* events().insert(...).execute() raising *)
  insert_fault : option exn;
  q_matches : Py.str -> Event -> bool;
  (* the answer to the n-th POST sent to WEBHOOK_URL *)
  endpoint : nat -> PostOutcome;
  (* client.text_generation(prompt, stream=True): raises, or streams tokens
     and may raise after them *)
  text_generation : Py.str -> exn + (list Py.str * option exn);
  (* str(history), as the f-string of app-webhook.py renders it *)
  repr_history : list (Py.str * Py.str) -> Py.str
}.

(** The mutable state: the attribute [generate_response.step] (absent until
    first set), and what the outside has seen of the process. *)
Record World : Type := mkWorld {
  step : option Z;
  ticks : nat;
  events : list (Z * Event);
  posts : list Payload;
  slept : Z;
  routed : list Py.str;
  prompts : list Py.str;
  log : list LogRecord
}.

Definition set_step (v : option Z) (w : World) : World :=
  mkWorld v (ticks w) (events w) (posts w) (slept w) (routed w) (prompts w) (log w).
Definition set_ticks (n : nat) (w : World) : World :=
  mkWorld (step w) n (events w) (posts w) (slept w) (routed w) (prompts w) (log w).
Definition set_events (l : list (Z * Event)) (w : World) : World :=
  mkWorld (step w) (ticks w) l (posts w) (slept w) (routed w) (prompts w) (log w).
Definition set_posts (l : list Payload) (w : World) : World :=
  mkWorld (step w) (ticks w) (events w) l (slept w) (routed w) (prompts w) (log w).
Definition set_slept (s : Z) (w : World) : World :=
  mkWorld (step w) (ticks w) (events w) (posts w) s (routed w) (prompts w) (log w).
Definition set_routed (l : list Py.str) (w : World) : World :=
  mkWorld (step w) (ticks w) (events w) (posts w) (slept w) l (prompts w) (log w).
Definition set_prompts (l : list Py.str) (w : World) : World :=
  mkWorld (step w) (ticks w) (events w) (posts w) (slept w) (routed w) l (log w).
Definition set_log (l : list LogRecord) (w : World) : World :=
  mkWorld (step w) (ticks w) (events w) (posts w) (slept w) (routed w) (prompts w) l.

(** ** Computations that may raise *)

Definition M (A : Type) : Type := World -> (exn + A) * World.

Definition ret {A} (a : A) : M A := fun w => (inr a, w).
Definition raise {A} (e : exn) : M A := fun w => (inl e, w).
Definition bind {A B} (m : M A) (f : A -> M B) : M B :=
  fun w =>
    match m w with
    | (inr a, w') => f a w'
    | (inl e, w') => (inl e, w')
    end.
Definition lift {A} (r : exn + A) : M A := fun w => (r, w).
Definition modify (f : World -> World) : M unit := fun w => (inr tt, f w).

(** [try: m except ...: h]: the handler takes the exceptions it matches
    and lets the others through. *)
Definition try_except {A} (m : M A) (h : exn -> option (M A)) : M A :=
  fun w =>
    match m w with
    | (inr a, w') => (inr a, w')
    | (inl e, w') =>
        match h e with
        | Some k => k w'
        | None => (inl e, w')
        end
    end.

Notation "x <- m ;; k" := (bind m (fun x => k))
  (at level 61, m at next level, right associativity).
Notation "m ;;; k" := (bind m (fun _ => k))
  (at level 61, right associativity).

Definition logger (r : LogRecord) : M unit :=
  modify (fun w => set_log (log w ++ [r]) w).

(** ** The libraries the handlers call *)

(** [datetime.now()] *)
Definition now (env : Env) : M datetime :=
  fun w => (inr (clock env (ticks w)), set_ticks (S (ticks w)) w).

Definition dt_add (t : datetime) (d : timedelta) : M datetime :=
  lift (DateTime.add t d).

(** The calendar service.  [list] selects the events that overlap the open
    interval between [timeMin] and [timeMax] and match the query, at most
    [maxResults] of them; [insert] stores the event and returns its id. *)
Module CalendarService.

Definition overlaps (timeMin timeMax : datetime) (e : Event) : bool :=
  (timeMin <? end_dateTime e) && (start_dateTime e <? timeMax).

Definition events_list (env : Env) (timeMin timeMax : datetime) (q : Py.str)
    (maxResults : nat) : M (list (Z * Event)) :=
  fun w =>
    match list_fault env with
    | Some e => (inl e, w)
    | None =>
        (inr (firstn maxResults
                (filter (fun ie => overlaps timeMin timeMax (snd ie)
                                   && q_matches env q (snd ie))
                        (events w))), w)
    end.

Definition events_insert (env : Env) (body : Event) : M Z :=
  fun w =>
    match insert_fault env with
    | Some e => (inl e, w)
    | None =>
        let id := Z.of_nat (length (events w)) in
        (inr id, set_events (events w ++ [(id, body)]) w)
    end.

End CalendarService.

(** [requests]: a POST reaches the endpoint and is answered, or raises;
    [raise_for_status] raises on a 4xx or 5xx status. *)
Module Requests.

Definition post (env : Env) (json : Payload) : M Z :=
  fun w =>
    let w' := set_posts (posts w ++ [json]) w in
    match endpoint env (length (posts w)) with
    | NetworkError => (inl RequestException, w')
    | Response code => (inr code, w')
    end.

Definition raise_for_status (status_code : Z) : M unit :=
  if (400 <=? status_code) && (status_code <? 600)
  then raise RequestException else ret tt.

End Requests.

(** [tenacity.retry(stop=stop_after_attempt(n), wait=wait_fixed(s))]: the
    call is attempted; when it raises and fewer than [n] attempts were made
    the decorator sleeps and tries again, otherwise it raises
    [RetryError]. *)
Module Tenacity.

Fixpoint retrying {A} (retries_left : nat) (wait_fixed : Z) (f : M A) : M A :=
  fun w =>
    match f w with
    | (inr a, w') => (inr a, w')
    | (inl _, w') =>
        match retries_left with
        | O => (inl RetryError, w')
        | S k => retrying k wait_fixed f (set_slept (slept w' + wait_fixed) w')
        end
    end.

Definition retry {A} (stop_after_attempt : nat) (wait_fixed : Z) (f : M A) : M A :=
  retrying (stop_after_attempt - 1) wait_fixed f.

End Tenacity.

(** What a generator has produced once it is exhausted: the values it
    yielded, in order, and the value of its [return] (carried by
    StopIteration, not part of the sequence). *)
Record Generated : Type := mkGenerated {
  yielded : list Py.str;
  returned : option Py.str
}.

(** The streaming loop of both handlers:
    [for token in stream: full_response += token; yield full_response]. *)
Fixpoint stream_yields (full_response : Py.str) (tokens : list Py.str) : list Py.str :=
  match tokens with
  | [] => []
  | token :: rest =>
      let full_response := full_response +++ token in
      full_response :: stream_yields full_response rest
  end.

(** [x or default] for an optional string. *)
Definition or_else (x : option Py.str) (default : Py.str) : Py.str :=
  match x with
  | Some s => if Py.truthy s then s else default
  | None => default
  end.

(** ** app-webhook.py *)

Module Webhook.

Definition MAX_RETRIES : nat := 3.

Definition get_calendar_service (env : Env) : M unit :=
  match credentials_fault env with
  | Some e => raise e
  | None => ret tt
  end.

Definition DEFAULT_PROMPT : Py.str :=
  Py.u "Вы — система записи к врачу. Строго следуйте инструкциям.".

(** [load_system_prompt()]: the content of prompt-doctor.txt, stripped, or
    the default prompt when the file cannot be opened or read.
    [prompt_file] is what [open(...).read()] gives or raises. *)
Definition load_system_prompt (prompt_file : exn + Py.str) : M Py.str :=
  try_except
    (content <- lift prompt_file ;; ret (Py.strip content))
    (fun e => Some (logger (LogError (Py.u "Error loading prompt") e) ;;;
                    ret DEFAULT_PROMPT)).

(** [not WEBHOOK_URL]: the variable is unset or empty. *)
Definition webhook_unset (env : Env) : bool :=
  match WEBHOOK_URL env with
  | None => true
  | Some url => negb (Py.truthy url)
  end.

(** The body of [send_webhook_confirmation], one attempt. *)
Definition send_webhook_confirmation_wrapped (env : Env) (event_id : Z) : M unit :=
  if webhook_unset env then
    logger (LogWarning (Py.u "WEBHOOK_URL не настроен, пропускаем подтверждение"))
  else
    let payload := mkPayload event_id (Py.u "pending_confirmation") in
    try_except
      (response <- Requests.post env payload ;;
       Requests.raise_for_status response ;;;
       logger (LogInfo (Py.u "Webhook отправлен успешно для события")))
      (fun e => Some (logger (LogError (Py.u "Ошибка вебхука") e) ;;; raise e)).

(** [@retry(stop=stop_after_attempt(MAX_RETRIES), wait=wait_fixed(2))] *)
Definition send_webhook_confirmation (env : Env) (event_id : Z) : M unit :=
  Tenacity.retry MAX_RETRIES 2 (send_webhook_confirmation_wrapped env event_id).

Definition check_duplicate_event (env : Env) (name : Py.str) (time : datetime) : M bool :=
  try_except
    (get_calendar_service env ;;;
     timeMax <- dt_add time (minutes 30) ;;
     items <- CalendarService.events_list env time timeMax
                (Py.u "Прием: " +++ name) 1 ;;
     ret (Nat.ltb 0 (List.length items)))
    (fun e =>
       if is_HttpError e
       then Some (logger (LogError (Py.u "Ошибка проверки дубликатов") e) ;;;
                  ret false)
       else None).

(** The call [define_specialist(symptoms)], recorded in the world. *)
Definition route (env : Env) (symptoms : Py.str) : M Py.str :=
  fun w => (define_specialist env symptoms, set_routed (routed w ++ [symptoms]) w).

Definition DUPLICATE : Py.str :=
  Py.u "У вас уже есть активная запись. Пожалуйста, дождитесь подтверждения.".
Definition CONNECTION_ERROR : Py.str :=
  Py.u "Ошибка подключения к системе записи. Попробуйте позже.".
Definition PENDING (specialist : Py.str) (appointment_time : datetime) : Py.str :=
  Py.u "Предварительная запись к " +++ specialist +++ Py.u " на "
  +++ strftime_dmY_HM appointment_time
  +++ Py.u " создана. Ожидайте подтверждения.".

Definition schedule_appointment (env : Env) (name symptoms : Py.str) : M (option Py.str) :=
  try_except
    (t <- now env ;;
     duplicate <- check_duplicate_event env name t ;;
     if duplicate then ret (Some DUPLICATE)
     else
       specialist <- route env symptoms ;;
       t' <- now env ;;
       appointment_time <- dt_add t' (hours 3) ;;
       get_calendar_service env ;;;
       end_time <- dt_add appointment_time (minutes 30) ;;
       let event :=
         mkEvent (Py.u "Прием: " +++ name +++ Py.u ", " +++ specialist)
                 (Py.u "Симптомы: " +++ symptoms)
                 appointment_time end_time (Py.u "Europe/Moscow") true in
       created_event_id <- CalendarService.events_insert env event ;;
       send_webhook_confirmation env created_event_id ;;;
       ret (Some (PENDING specialist appointment_time)))
    (fun e =>
       if is_HttpError e
       then Some (logger (LogError (Py.u "Google API error") e) ;;;
                  ret (Some CONNECTION_ERROR))
       else Some (logger (LogError (Py.u "Общая ошибка") e) ;;; ret None)).

(** The condition that opens the intake dialogue:
    ["запись" in message.lower() or "симптом" in message.lower()]. *)
Definition mentions_booking (message : Py.str) : bool :=
  Py.contains (Py.u "запись") (Py.lower message)
  || Py.contains (Py.u "симптом") (Py.lower message).

Definition ASK_DETAILS : Py.str :=
  Py.u "Пожалуйста, укажите ваше полное имя и опишите симптомы (через запятую).".
Definition BAD_FORMAT : Py.str :=
  Py.u "Неверный формат. Пожалуйста, укажите имя и симптомы через запятую.".
Definition APOLOGY : Py.str :=
  Py.u "Извините, произошла ошибка обработки запроса.".
Definition INTERNAL_ERROR : Py.str :=
  Py.u "Произошла внутренняя ошибка. Пожалуйста, повторите запрос.".

Definition step_is (n : Z) (w : World) : bool :=
  match step w with
  | Some v => v =? n
  | None => false
  end.

(** [if not hasattr(generate_response, "step"): generate_response.step = 0] *)
Definition init_step (w : World) : World :=
  match step w with
  | None => set_step (Some 0) w
  | Some _ => w
  end.

(** What the body of a generator leaves behind: the values yielded so far
    and either the value of its [return] or the exception it raised. *)
Definition Body : Type := World -> (list Py.str * (exn + option Py.str)) * World.

(** The text-generation path: the prompt, the stream, the loop of yields. *)
Definition stream_reply (env : Env) (prompt : Py.str) : Body :=
  fun w =>
    let w := set_prompts (prompts w ++ [prompt]) w in
    match text_generation env prompt with
    | inl e => (([], inl e), w)
    | inr (tokens, failure) =>
        ((stream_yields [] tokens,
          match failure with
          | Some e => inl e
          | None => inr None
          end), w)
    end.

Definition prompt_of (env : Env) (message : Py.str) (history : list (Py.str * Py.str)) : Py.str :=
  SYSTEM_PROMPT env +++ Py.u "

Диалог:
" +++ repr_history env history +++ Py.u "
Пользователь: " +++ message +++ Py.u "
Помощник:".

(** The [try] block of [generate_response]. *)
Definition generate_response_try (env : Env) (message : Py.str)
    (history : list (Py.str * Py.str)) : Body :=
  fun w =>
    if mentions_booking message then
      let w := init_step w in
      if step_is 0 w then
        (([], inr (Some ASK_DETAILS)), set_step (Some 1) w)
      else if step_is 1 w then
        let w := set_step (Some 0) w in
        let parts := Py.split1 Py.comma message in
        if Nat.ltb (List.length parts) 2 then
          (([], inr (Some BAD_FORMAT)), w)
        else
          let name := Py.strip (nth 0 parts []) in
          let symptoms := Py.strip (nth 1 parts []) in
          match schedule_appointment env name symptoms w with
          | (inr response, w') => (([], inr (Some (or_else response APOLOGY))), w')
          | (inl e, w') => (([], inl e), w')
          end
      else stream_reply env (prompt_of env message history) w
    else stream_reply env (prompt_of env message history) w.

(** [generate_response(message, history)], run to exhaustion: the handler
    has a [yield] in its body, so it is a generator function. *)
Definition generate_response (env : Env) (message : Py.str)
    (history : list (Py.str * Py.str)) : World -> Generated * World :=
  fun w =>
    match generate_response_try env message history w with
    | ((ys, inr r), w') => (mkGenerated ys r, w')
    | ((ys, inl e), w') =>
        (mkGenerated (ys ++ [INTERNAL_ERROR]) None,
         set_log (log w' ++ [LogError (Py.u "Ошибка генерации") e]) w')
    end.

End Webhook.

(** ** app-calendar.py *)

Module Calendar.

Definition get_calendar_service (env : Env) : M unit :=
  match credentials_fault env with
  | Some e => raise e
  | None => ret tt
  end.

Definition DEFAULT_PROMPT : Py.str :=
  Py.u "Вы — система записи к врачу. Строго следуйте инструкциям из prompt-doctor.txt".

Definition load_system_prompt (prompt_file : exn + Py.str) : M Py.str :=
  try_except
    (content <- lift prompt_file ;; ret (Py.strip content))
    (fun e => Some (logger (LogError (Py.u "Error loading prompt") e) ;;;
                    ret DEFAULT_PROMPT)).

Fixpoint format_history (history : list (Py.str * Py.str)) : Py.str :=
  match history with
  | [] => []
  | (user, assistant) :: rest =>
      Py.u "Пользователь: " +++ user +++ Py.u "
Помощник: " +++ assistant +++ Py.u "
" +++ format_history rest
  end.

Definition format_prompt (env : Env) (message : Py.str)
    (history : list (Py.str * Py.str)) : Py.str :=
  (SYSTEM_PROMPT env +++ Py.u "

") +++ format_history history +++ Py.u "Пользователь: " +++ message +++ Py.u "
Помощник: ".

Definition route (env : Env) (symptoms : Py.str) : M Py.str :=
  fun w => (define_specialist env symptoms, set_routed (routed w ++ [symptoms]) w).

Definition BOOKED (specialist : Py.str) (appointment_time : datetime) : Py.str :=
  Py.u "Запись к " +++ specialist +++ Py.u " на "
  +++ strftime_dmY_HM appointment_time +++ Py.u " оформлена.".
Definition BOOKING_ERROR : Py.str :=
  Py.u "Ошибка при создании записи. Пожалуйста, попробуйте позже.".

Definition schedule_appointment (env : Env) (name symptoms : Py.str) : M Py.str :=
  try_except
    (specialist <- route env symptoms ;;
     t <- now env ;;
     appointment_time <- dt_add t (hours 3) ;;
     get_calendar_service env ;;;
     end_time <- dt_add appointment_time (minutes 30) ;;
     let event :=
       mkEvent (Py.u "Прием: " +++ name +++ Py.u ", " +++ specialist)
               (Py.u "Симптомы: " +++ symptoms +++ Py.u ". Требует подтверждения.")
               appointment_time end_time (Py.u "Europe/Moscow") false in
     CalendarService.events_insert env event ;;;
     ret (BOOKED specialist appointment_time))
    (fun e => Some (logger (LogError (Py.u "Ошибка записи") e) ;;;
                    ret BOOKING_ERROR)).

(** ["симптом" in message.lower() or "запись" in message.lower()] *)
Definition mentions_booking (message : Py.str) : bool :=
  Py.contains (Py.u "симптом") (Py.lower message)
  || Py.contains (Py.u "запись") (Py.lower message).

Definition ASK_DETAILS : Py.str :=
  Py.u "Пожалуйста, укажите ваше полное имя и опишите симптомы.".
Definition GENERATION_ERROR : Py.str :=
  Py.u "Произошла ошибка. Пожалуйста, попробуйте еще раз.".

Definition step_is (n : Z) (w : World) : bool :=
  match step w with
  | Some v => v =? n
  | None => false
  end.

Definition init_step (w : World) : World :=
  match step w with
  | None => set_step (Some 0) w
  | Some _ => w
  end.

Definition Body : Type := World -> (list Py.str * (exn + option Py.str)) * World.

Definition stream_reply (env : Env) (prompt : Py.str) : Body :=
  fun w =>
    let w := set_prompts (prompts w ++ [prompt]) w in
    match text_generation env prompt with
    | inl e => (([], inl e), w)
    | inr (tokens, failure) =>
        ((stream_yields [] tokens,
          match failure with
          | Some e => inl e
          | None => inr None
          end), w)
    end.

(** The [try] block of [generate_response]. *)
Definition generate_response_try (env : Env) (message : Py.str)
    (history : list (Py.str * Py.str)) : Body :=
  fun w =>
    if mentions_booking message then
      let w := init_step w in
      if step_is 0 w then
        (([], inr (Some ASK_DETAILS)), set_step (Some 1) w)
      else if step_is 1 w then
        (* name, *symptoms = message.split(' ', 1) *)
        let parts := Py.split1 Py.space message in
        let name := hd [] parts in
        let symptoms := tl parts in
        (* symptoms = symptoms[0] if symptoms else "" *)
        let symptoms := match symptoms with [] => [] | s :: _ => s end in
        match schedule_appointment env (Py.strip name) (Py.strip symptoms) w with
        | (inr response, w') => (([], inr (Some response)), set_step (Some 0) w')
        | (inl e, w') => (([], inl e), w')
        end
      else stream_reply env (format_prompt env message history) w
    else stream_reply env (format_prompt env message history) w.

Definition generate_response (env : Env) (message : Py.str)
    (history : list (Py.str * Py.str)) : World -> Generated * World :=
  fun w =>
    match generate_response_try env message history w with
    | ((ys, inr r), w') => (mkGenerated ys r, w')
    | ((ys, inl e), w') =>
        (mkGenerated (ys ++ [GENERATION_ERROR]) None,
         set_log (log w' ++ [LogError (Py.u "Ошибка генерации") e]) w')
    end.

End Calendar.

(** ** Sessions *)

(** Gradio's [ChatInterface] calls [fn(message, history)] for every browser
    session of the process; the session is no argument of the handler.  The
    step that governs a session's next message is the one attribute
    [generate_response.step], whoever is speaking. *)
Module Sessions.

Definition Session : Type := nat.

Definition step_of (s : Session) (w : World) : option Z := step w.

Definition webhook_turn (env : Env) (s : Session) (message : Py.str)
    (history : list (Py.str * Py.str)) : World -> Generated * World :=
  Webhook.generate_response env message history.

Definition calendar_turn (env : Env) (s : Session) (message : Py.str)
    (history : list (Py.str * Py.str)) : World -> Generated * World :=
  Calendar.generate_response env message history.

End Sessions.

(** ** Vocabulary of the properties *)

(** [preserves f m]: running [m] does not change the observation [f] of
    the world, whether [m] returns or raises. *)
Definition preserves {A X : Type} (f : World -> X) (m : M A) : Prop :=
  forall w, f (snd (m w)) = f w.

(** A status code of the 2xx class. *)
Definition is_2xx (status_code : Z) : bool :=
  (200 <=? status_code) && (status_code <? 300).

(** The answers on which an attempt of [send_webhook_confirmation] raises:
    no answer, or a 4xx or 5xx status. *)
Definition attempt_fails (o : PostOutcome) : bool :=
  match o with
  | NetworkError => true
  | Response c => (400 <=? c) && (c <? 600)
  end.

(** The calendar holds an event between [timeMin] and [timeMax] that the
    query for [name] selects. *)
Definition reserved (env : Env) (name : Py.str) (timeMin timeMax : datetime)
    (w : World) : bool :=
  existsb (fun ie => CalendarService.overlaps timeMin timeMax (snd ie)
                     && q_matches env (Py.u "Прием: " +++ name) (snd ie))
          (events w).

(** The clock reading [t] leaves room for an appointment: [t], [t + 3h] and
    [t + 3h30] are all datetimes. *)
Definition bookable_at (t : datetime) : Prop :=
  0 <= t /\ t + hours 3 + minutes 30 <= MAX.

(** The payload of the confirmation request for an event. *)
Definition pending_confirmation (id : Z) : Payload :=
  mkPayload id (Py.u "pending_confirmation").

(** The event app-webhook.py files for a booking made at clock reading [t]. *)
Definition webhook_event (name specialist symptoms : Py.str) (t : datetime) : Event :=
  mkEvent (Py.u "Прием: " +++ name +++ Py.u ", " +++ specialist)
          (Py.u "Симптомы: " +++ symptoms)
          (t + hours 3) (t + hours 3 + minutes 30) (Py.u "Europe/Moscow") true.

(** The world after an attempt that failed. *)
Definition after_failed_attempt (id : Z) (w : World) : World :=
  set_log (log w ++ [LogError (Py.u "Ошибка вебхука") RequestException])
          (set_posts (posts w ++ [pending_confirmation id]) w).

(** The slot of an event, measured from the clock reading [t]. *)
Definition slot_from (t : datetime) (e : Event) : Prop :=
  start_dateTime e - t = hours 3
  /\ end_dateTime e - start_dateTime e = minutes 30.

(** [c in s] for one character. *)
Definition has (c : Z) (s : Py.str) : bool := existsb (Z.eqb c) s.

(** The string neither starts nor ends with white space. *)
Definition trimmed (s : Py.str) : bool :=
  match s with
  | [] => true
  | c :: _ => negb (Py.isspace c) && negb (Py.isspace (last s c))
  end.

(** The event app-calendar.py files for a booking made at clock reading [t]. *)
Definition calendar_event (name specialist symptoms : Py.str) (t : datetime) : Event :=
  mkEvent (Py.u "Прием: " +++ name +++ Py.u ", " +++ specialist)
          (Py.u "Симптомы: " +++ symptoms +++ Py.u ". Требует подтверждения.")
          (t + hours 3) (t + hours 3 + minutes 30) (Py.u "Europe/Moscow") false.

(** The values the handlers give the step: unset, 0 or 1. *)
Definition valid_step (w : World) : Prop :=
  step w = None \/ step w = Some 0 \/ step w = Some 1.

(** A conversation: the handler run on one message after the other, each
    generator exhausted before the next message comes. *)
Fixpoint webhook_dialogue (env : Env)
    (turns : list (Py.str * list (Py.str * Py.str))) (w : World) : World :=
  match turns with
  | [] => w
  | (message, history) :: rest =>
      webhook_dialogue env rest
        (snd (Webhook.generate_response env message history w))
  end.

Fixpoint calendar_dialogue (env : Env)
    (turns : list (Py.str * list (Py.str * Py.str))) (w : World) : World :=
  match turns with
  | [] => w
  | (message, history) :: rest =>
      calendar_dialogue env rest
        (snd (Calendar.generate_response env message history w))
  end.

(** The exception the calendar query of the duplicate check raises, if any:
    the service is built, the end of the window computed and the list call
    executed, in that order. *)
Definition raised_by_query (env : Env) (time : datetime) : option exn :=
  match credentials_fault env with
  | Some e => Some e
  | None =>
      match DateTime.add time (minutes 30) with
      | inl e => Some e
      | inr _ => list_fault env
      end
  end.

(** ** Sample environments *)

Module Samples.

(** 2024-01-15 10:30:00 *)
Definition t0 : datetime := 738899 * day + hours 10 + minutes 30.

(** A calendar whose free-text search looks the query up in the summary. *)
Definition summary_contains (q : Py.str) (e : Event) : bool :=
  Py.contains q (summary e).

(** Everything works: the endpoint answers 200, the clock stands still. *)
Definition env_ok : Env :=
  mkEnv (Some (Py.u "https://example.org/confirm"))
        (Py.u "Вы — система записи к врачу.")
        (fun _ => t0)
        (fun _ => inr (Py.u "терапевт"))
        None None None
        summary_contains
        (fun _ => Response 200)
        (fun _ => inr ([Py.u "Здрав"; Py.u "ствуйте"], None))
        (fun _ => Py.u "[]").

Definition with_endpoint (f : nat -> PostOutcome) (env : Env) : Env :=
  mkEnv (WEBHOOK_URL env) (SYSTEM_PROMPT env) (clock env) (define_specialist env)
        (credentials_fault env) (list_fault env) (insert_fault env)
        (q_matches env) f (text_generation env) (repr_history env).

Definition with_list_fault (e : option exn) (env : Env) : Env :=
  mkEnv (WEBHOOK_URL env) (SYSTEM_PROMPT env) (clock env) (define_specialist env)
        (credentials_fault env) e (insert_fault env)
        (q_matches env) (endpoint env) (text_generation env) (repr_history env).

(** The endpoint is down: every POST is answered 503. *)
Definition env_down : Env := with_endpoint (fun _ => Response 503) env_ok.

(** The endpoint answers every POST with 304 Not Modified. *)
Definition env_304 : Env := with_endpoint (fun _ => Response 304) env_ok.

(** The calendar read fails below HTTP (a timeout, say): not an HttpError. *)
Definition env_read_timeout : Env := with_list_fault (Some OtherException) env_ok.

(** The calendar read is answered with an HTTP error. *)
Definition env_read_http_error : Env := with_list_fault (Some HttpError) env_ok.

(** A fresh process: no step attribute yet, an empty calendar. *)
Definition fresh : World := mkWorld None 0 [] [] 0 [] [] [].

Definition idle : World := set_step (Some 0) fresh.
Definition awaiting : World := set_step (Some 1) fresh.

Definition ivan : Py.str := Py.u "Иван Петров".
Definition therapist : Py.str := Py.u "терапевт".
Definition sore_throat : Py.str := Py.u "болит горло и температура".
Definition details : Py.str := Py.u "Иван Петров, болит горло и температура".
Definition trigger : Py.str := Py.u "Нужна запись к врачу".
(** The details again, this time naming the symptoms as such. *)
Definition details_with_keyword : Py.str :=
  Py.u "Иван Петров, симптомы: болит горло и температура".


(** The event a booking of [ivan] at [t0] files. *)
Definition first_event : Event := webhook_event ivan therapist sore_throat t0.

(** A calendar in which [ivan] booked three hours before [t0]: the
    appointment is now. *)
Definition earlier_booking : World :=
  set_events [(0, webhook_event ivan therapist sore_throat (t0 - hours 3))] fresh.


Definition with_webhook_url (url : option Py.str) (env : Env) : Env :=
  mkEnv url (SYSTEM_PROMPT env) (clock env) (define_specialist env)
        (credentials_fault env) (list_fault env) (insert_fault env)
        (q_matches env) (endpoint env) (text_generation env) (repr_history env).

Definition with_insert_fault (e : option exn) (env : Env) : Env :=
  mkEnv (WEBHOOK_URL env) (SYSTEM_PROMPT env) (clock env) (define_specialist env)
        (credentials_fault env) (list_fault env) e
        (q_matches env) (endpoint env) (text_generation env) (repr_history env).

Definition with_router (f : Py.str -> exn + Py.str) (env : Env) : Env :=
  mkEnv (WEBHOOK_URL env) (SYSTEM_PROMPT env) (clock env) f
        (credentials_fault env) (list_fault env) (insert_fault env)
        (q_matches env) (endpoint env) (text_generation env) (repr_history env).

Definition with_text_generation
    (f : Py.str -> exn + (list Py.str * option exn)) (env : Env) : Env :=
  mkEnv (WEBHOOK_URL env) (SYSTEM_PROMPT env) (clock env) (define_specialist env)
        (credentials_fault env) (list_fault env) (insert_fault env)
        (q_matches env) (endpoint env) f (repr_history env).

(** CONFIRMATION_WEBHOOK_URL is not set. *)
Definition env_no_webhook : Env := with_webhook_url None env_ok.

(** The endpoint is down for the first two POSTs and answers 200 after. *)
Definition env_flaky : Env :=
  with_endpoint (fun n => if Nat.ltb n 2 then Response 503 else Response 200) env_ok.

(** The calendar refuses the insert with an HTTP error. *)
Definition env_insert_refused : Env := with_insert_fault (Some HttpError) env_ok.

(** The classifier raises. *)
Definition env_router_fails : Env := with_router (fun _ => inl OtherException) env_ok.

(** Text generation breaks after the first token. *)
Definition env_stream_breaks : Env :=
  with_text_generation (fun _ => inr ([Py.u "Здрав"], Some OtherException)) env_ok.

Definition with_credentials_fault (e : option exn) (env : Env) : Env :=
  mkEnv (WEBHOOK_URL env) (SYSTEM_PROMPT env) (clock env) (define_specialist env)
        e (list_fault env) (insert_fault env)
        (q_matches env) (endpoint env) (text_generation env) (repr_history env).

(** GOOGLE_CREDS is missing: building the service raises a KeyError. *)
Definition env_no_credentials : Env :=
  with_credentials_fault (Some OtherException) env_ok.

Definition greeting : Py.str := Py.u "Добрый день".
Definition no_comma_details : Py.str := Py.u "Иван Петров симптомы кашель".

End Samples.

(** * Properties *)

(** ** What a computation leaves untouched *)

Section Preservation.

Context {X : Type} (f : World -> X).

Lemma preserves_ret {A} (a : A) : preserves f (ret a).
Proof. intro w. reflexivity. Qed.

Lemma preserves_raise {A} (e : exn) : preserves f (@raise A e).
Proof. intro w. reflexivity. Qed.

Lemma preserves_lift {A} (r : exn + A) : preserves f (lift r).
Proof. intro w. reflexivity. Qed.

Lemma preserves_bind {A B} (m : M A) (k : A -> M B) :
  preserves f m -> (forall a, preserves f (k a)) -> preserves f (bind m k).
Proof.
  intros Hm Hk w. unfold bind.
  specialize (Hm w). destruct (m w) as [[e | a] w1]; simpl in *.
  - exact Hm.
  - rewrite Hk. exact Hm.
Qed.

Lemma preserves_try_except {A} (m : M A) (h : exn -> option (M A)) :
  preserves f m ->
  (forall e k, h e = Some k -> preserves f k) ->
  preserves f (try_except m h).
Proof.
  intros Hm Hh w. unfold try_except.
  specialize (Hm w). destruct (m w) as [[e | a] w1]; simpl in *.
  - destruct (h e) as [k |] eqn:E; simpl.
    + rewrite (Hh e k E). exact Hm.
    + exact Hm.
  - exact Hm.
Qed.

Lemma preserves_logger (r : LogRecord) :
  (forall l w, f (set_log l w) = f w) -> preserves f (logger r).
Proof. intros H w. unfold logger, modify. simpl. apply H. Qed.

Lemma preserves_now env :
  (forall n w, f (set_ticks n w) = f w) -> preserves f (now env).
Proof. intros H w. unfold now. simpl. apply H. Qed.

Lemma preserves_dt_add t d : preserves f (dt_add t d).
Proof. apply preserves_lift. Qed.

Lemma preserves_events_list env tmin tmax q n :
  preserves f (CalendarService.events_list env tmin tmax q n).
Proof.
  intro w. unfold CalendarService.events_list.
  destruct (list_fault env); reflexivity.
Qed.

Lemma preserves_events_insert env body :
  (forall l w, f (set_events l w) = f w) ->
  preserves f (CalendarService.events_insert env body).
Proof.
  intros H w. unfold CalendarService.events_insert.
  destruct (insert_fault env); simpl; [reflexivity | apply H].
Qed.

Lemma preserves_post env json :
  (forall l w, f (set_posts l w) = f w) -> preserves f (Requests.post env json).
Proof.
  intros H w. unfold Requests.post.
  destruct (endpoint env _); simpl; apply H.
Qed.

Lemma preserves_raise_for_status c : preserves f (Requests.raise_for_status c).
Proof.
  unfold Requests.raise_for_status.
  destruct ((400 <=? c) && (c <? 600)); [apply preserves_raise | apply preserves_ret].
Qed.

Lemma preserves_retrying {A} (k : nat) (wait : Z) (m : M A) :
  (forall s w, f (set_slept s w) = f w) ->
  preserves f m -> preserves f (Tenacity.retrying k wait m).
Proof.
  intros Hs Hm. induction k as [| k IH]; intro w; simpl;
    specialize (Hm w); destruct (m w) as [[e | a] w1]; simpl in *; try exact Hm.
  rewrite IH, Hs. exact Hm.
Qed.

End Preservation.

(** The calendar service object is obtained without touching the world. *)
Lemma preserves_service_webhook {X} (f : World -> X) env :
  preserves f (Webhook.get_calendar_service env).
Proof.
  unfold Webhook.get_calendar_service.
  destruct (credentials_fault env); [apply preserves_raise | apply preserves_ret].
Qed.

Lemma preserves_service_calendar {X} (f : World -> X) env :
  preserves f (Calendar.get_calendar_service env).
Proof.
  unfold Calendar.get_calendar_service.
  destruct (credentials_fault env); [apply preserves_raise | apply preserves_ret].
Qed.

(** Walks a computation down to its primitive calls; the side conditions
    left are that a setter of another field does not move the observation. *)
Ltac frame_step :=
  first
    [ apply preserves_ret
    | apply preserves_raise
    | apply preserves_dt_add
    | apply preserves_lift
    | apply preserves_service_webhook
    | apply preserves_service_calendar
    | apply preserves_events_list
    | apply preserves_raise_for_status
    | apply preserves_logger; intros; reflexivity
    | apply preserves_now; intros; reflexivity
    | apply preserves_events_insert; intros; reflexivity
    | apply preserves_post; intros; reflexivity
    | apply preserves_retrying; [ intros; reflexivity | ]
    | apply preserves_bind; [ | intro ]
    | apply preserves_try_except;
      [ | let e := fresh "e" in let k := fresh "k" in let H := fresh "H" in
          intros e k H; destruct e; simpl in H; inversion H; subst; clear H ] ].

Ltac frame := repeat frame_step.

Lemma attempt_preserves {X} (f : World -> X) env id :
  (forall l w, f (set_log l w) = f w) ->
  (forall l w, f (set_posts l w) = f w) ->
  preserves f (Webhook.send_webhook_confirmation_wrapped env id).
Proof.
  intros Hl Hp. unfold Webhook.send_webhook_confirmation_wrapped.
  destruct (Webhook.webhook_unset env).
  - apply preserves_logger. exact Hl.
  - apply preserves_try_except.
    + apply preserves_bind; [apply preserves_post; exact Hp | intro c].
      apply preserves_bind; [apply preserves_raise_for_status | intros _].
      apply preserves_logger. exact Hl.
    + intros e k H. inversion H; subst.
      apply preserves_bind; [apply preserves_logger; exact Hl | intros _].
      apply preserves_raise.
Qed.

Lemma send_webhook_preserves {X} (f : World -> X) env id :
  (forall l w, f (set_log l w) = f w) ->
  (forall l w, f (set_posts l w) = f w) ->
  (forall s w, f (set_slept s w) = f w) ->
  preserves f (Webhook.send_webhook_confirmation env id).
Proof.
  intros Hl Hp Hs. unfold Webhook.send_webhook_confirmation, Tenacity.retry.
  apply preserves_retrying; [exact Hs | apply attempt_preserves; assumption].
Qed.

Lemma check_duplicate_preserves {X} (f : World -> X) env name time :
  (forall l w, f (set_log l w) = f w) ->
  preserves f (Webhook.check_duplicate_event env name time).
Proof.
  intros Hl. unfold Webhook.check_duplicate_event.
  apply preserves_try_except.
  - frame.
  - intros e k H. destruct e; simpl in H; inversion H; subst.
    apply preserves_bind; [apply preserves_logger; exact Hl | intros _; apply preserves_ret].
Qed.

Lemma route_webhook_preserves {X} (f : World -> X) env symptoms :
  (forall l w, f (set_routed l w) = f w) ->
  preserves f (Webhook.route env symptoms).
Proof. intros H w. unfold Webhook.route. simpl. apply H. Qed.

Lemma route_calendar_preserves {X} (f : World -> X) env symptoms :
  (forall l w, f (set_routed l w) = f w) ->
  preserves f (Calendar.route env symptoms).
Proof. intros H w. unfold Calendar.route. simpl. apply H. Qed.

Ltac frame_call :=
  first
    [ apply send_webhook_preserves; intros; reflexivity
    | apply check_duplicate_preserves; intros; reflexivity
    | apply route_webhook_preserves; intros; reflexivity
    | apply route_calendar_preserves; intros; reflexivity
    | apply preserves_bind; [ | intro ]
    | frame_step ].

Ltac frame_all := repeat frame_call.

(** Booking never touches the step attribute. *)
Lemma schedule_webhook_preserves_step env name symptoms :
  preserves step (Webhook.schedule_appointment env name symptoms).
Proof.
  unfold Webhook.schedule_appointment.
  apply preserves_try_except.
  - apply preserves_bind; [frame_all | intro t].
    apply preserves_bind; [frame_all | intros [|]]; frame_all.
  - intros e k H. destruct e; simpl in H; inversion H; subst; frame_all.
Qed.

Lemma schedule_calendar_preserves_step env name symptoms :
  preserves step (Calendar.schedule_appointment env name symptoms).
Proof.
  unfold Calendar.schedule_appointment.
  apply preserves_try_except.
  - frame_all.
  - intros e k H. inversion H; subst. frame_all.
Qed.

(** ** The orchestrators always return *)

Lemma schedule_webhook_returns env name symptoms w :
  exists r w', Webhook.schedule_appointment env name symptoms w = (inr r, w').
Proof.
  unfold Webhook.schedule_appointment, try_except.
  match goal with
  | |- context [match ?b w with _ => _ end] => destruct (b w) as [[e | a] w1]
  end.
  - destruct e; cbv [is_HttpError bind logger modify ret]; eauto.
  - eauto.
Qed.

Lemma schedule_calendar_returns env name symptoms w :
  exists r w', Calendar.schedule_appointment env name symptoms w = (inr r, w').
Proof.
  unfold Calendar.schedule_appointment, try_except.
  match goal with
  | |- context [match ?b w with _ => _ end] => destruct (b w) as [[e | a] w1]
  end.
  - cbv [bind logger modify ret]; eauto.
  - eauto.
Qed.

Lemma mentions_booking_agree message :
  Calendar.mentions_booking message = Webhook.mentions_booking message.
Proof. unfold Calendar.mentions_booking, Webhook.mentions_booking. apply orb_comm. Qed.

(** ** Messages that do not mention a booking *)

Lemma bypass_webhook env message history w :
  Webhook.mentions_booking message = false ->
  Webhook.generate_response_try env message history w
  = Webhook.stream_reply env (Webhook.prompt_of env message history) w.
Proof. intro H. unfold Webhook.generate_response_try. rewrite H. reflexivity. Qed.

Lemma bypass_calendar env message history w :
  Calendar.mentions_booking message = false ->
  Calendar.generate_response_try env message history w
  = Calendar.stream_reply env (Calendar.format_prompt env message history) w.
Proof. intro H. unfold Calendar.generate_response_try. rewrite H. reflexivity. Qed.

(** The text-generation path reads nothing of the booking state and writes
    none of it. *)
Lemma stream_webhook_untouched env message history w :
  Webhook.mentions_booking message = false ->
  let r := Webhook.generate_response env message history w in
  step (snd r) = step w /\ ticks (snd r) = ticks w /\ routed (snd r) = routed w
  /\ events (snd r) = events w /\ posts (snd r) = posts w
  /\ returned (fst r) = None.
Proof.
  intro H. unfold Webhook.generate_response.
  rewrite (bypass_webhook env message history w H).
  unfold Webhook.stream_reply.
  destruct (text_generation env _) as [e | [tokens [e |]]]; simpl; repeat split.
Qed.

Lemma stream_calendar_untouched env message history w :
  Calendar.mentions_booking message = false ->
  let r := Calendar.generate_response env message history w in
  step (snd r) = step w /\ ticks (snd r) = ticks w /\ routed (snd r) = routed w
  /\ events (snd r) = events w /\ posts (snd r) = posts w
  /\ returned (fst r) = None.
Proof.
  intro H. unfold Calendar.generate_response.
  rewrite (bypass_calendar env message history w H).
  unfold Calendar.stream_reply.
  destruct (text_generation env _) as [e | [tokens [e |]]]; simpl; repeat split.
Qed.

Lemma details_lack_keyword : Webhook.mentions_booking Samples.details = false.
Proof. vm_compute. reflexivity. Qed.

Lemma trigger_has_keyword : Webhook.mentions_booking Samples.trigger = true.
Proof. vm_compute. reflexivity. Qed.

(** ** The intake dialogue *)

(** What a booking message does to the step, in app-webhook.py. *)
Lemma webhook_step_transition env message history w :
  Webhook.mentions_booking message = true ->
  let r := Webhook.generate_response env message history w in
  (step w = None \/ step w = Some 0 ->
     step (snd r) = Some 1 /\ fst r = mkGenerated [] (Some Webhook.ASK_DETAILS))
  /\ (step w = Some 1 ->
     step (snd r) = Some 0 /\ yielded (fst r) = []
     /\ exists s, returned (fst r) = Some s).
Proof.
  intro H. unfold Webhook.generate_response, Webhook.generate_response_try.
  rewrite H. split.
  - intros [Hs | Hs]; unfold Webhook.init_step, Webhook.step_is;
      destruct w; simpl in Hs; subst; simpl; split; reflexivity.
  - intro Hs. unfold Webhook.init_step, Webhook.step_is.
    destruct w; simpl in Hs; subst; simpl.
    destruct (Nat.ltb _ 2).
    + simpl. repeat split. eexists; reflexivity.
    + match goal with
      | |- context [Webhook.schedule_appointment env ?n ?s ?w0] =>
          destruct (schedule_webhook_returns env n s w0) as (r & w' & E);
          pose proof (schedule_webhook_preserves_step env n s w0) as P;
          rewrite E in *
      end.
      simpl in *. repeat split; [exact P | eexists; reflexivity].
Qed.

(** The same, in app-calendar.py. *)
Lemma calendar_step_transition env message history w :
  Calendar.mentions_booking message = true ->
  let r := Calendar.generate_response env message history w in
  (step w = None \/ step w = Some 0 ->
     step (snd r) = Some 1 /\ fst r = mkGenerated [] (Some Calendar.ASK_DETAILS))
  /\ (step w = Some 1 ->
     step (snd r) = Some 0 /\ yielded (fst r) = []
     /\ exists s, returned (fst r) = Some s).
Proof.
  intro H. unfold Calendar.generate_response, Calendar.generate_response_try.
  rewrite H. split.
  - intros [Hs | Hs]; unfold Calendar.init_step, Calendar.step_is;
      destruct w; simpl in Hs; subst; simpl; split; reflexivity.
  - intro Hs. unfold Calendar.init_step, Calendar.step_is.
    destruct w; simpl in Hs; subst; simpl.
    match goal with
    | |- context [Calendar.schedule_appointment env ?n ?s ?w0] =>
        destruct (schedule_calendar_returns env n s w0) as (r & w' & E);
        rewrite E
    end.
    simpl. repeat split. eexists; reflexivity.
Qed.

(** ** Sessions share the step *)

(** C1, as stated, fails: session 1 sends a booking message while the step
    is 0; the step that session 2 will meet on its next message moves from
    0 to 1 as well, in both applications. *)
Lemma session_isolation_fails :
  1%nat <> 2%nat
  /\ Sessions.step_of 1%nat Samples.idle = Some 0
  /\ Sessions.step_of 2%nat Samples.idle = Some 0
  /\ Sessions.step_of 1%nat
       (snd (Sessions.webhook_turn Samples.env_ok 1%nat Samples.trigger []
               Samples.idle)) = Some 1
  /\ Sessions.step_of 2%nat
       (snd (Sessions.webhook_turn Samples.env_ok 1%nat Samples.trigger []
               Samples.idle)) <> Sessions.step_of 2%nat Samples.idle
  /\ Sessions.step_of 1%nat
       (snd (Sessions.calendar_turn Samples.env_ok 1%nat Samples.trigger []
               Samples.idle)) = Some 1
  /\ Sessions.step_of 2%nat
       (snd (Sessions.calendar_turn Samples.env_ok 1%nat Samples.trigger []
               Samples.idle)) <> Sessions.step_of 2%nat Samples.idle.
Proof. vm_compute. repeat split; congruence. Qed.

(** C1, amended: the step is one attribute of the handler function, shared
    by every session of the process.  A booking message processed in
    session A moves the step that any session B meets next: from idle (the
    attribute unset, or 0) to awaiting details (1), and from awaiting
    details back to idle, in both applications. *)
Theorem step_is_shared_by_all_sessions :
  forall env (A B : Sessions.Session) message history w,
    Webhook.mentions_booking message = true ->
    let ww := snd (Sessions.webhook_turn env A message history w) in
    let wc := snd (Sessions.calendar_turn env A message history w) in
    (Sessions.step_of A w = None \/ Sessions.step_of A w = Some 0 ->
       Sessions.step_of B ww = Some 1 /\ Sessions.step_of B wc = Some 1)
    /\ (Sessions.step_of A w = Some 1 ->
       Sessions.step_of B ww = Some 0 /\ Sessions.step_of B wc = Some 0).
Proof.
  intros env A B message history w H.
  assert (Hc : Calendar.mentions_booking message = true)
    by (rewrite mentions_booking_agree; exact H).
  destruct (webhook_step_transition env message history w H) as [W0 W1].
  destruct (calendar_step_transition env message history w Hc) as [C0 C1].
  unfold Sessions.step_of, Sessions.webhook_turn, Sessions.calendar_turn.
  split; intro Hs.
  - split; [apply (W0 Hs) | apply (C0 Hs)].
  - split; [apply (W1 Hs) | apply (C1 Hs)].
Qed.

Lemma step_is_shared_witness :
  Webhook.mentions_booking Samples.trigger = true
  /\ Sessions.step_of 1%nat Samples.fresh = None
  /\ Sessions.step_of 2%nat
       (snd (Sessions.webhook_turn Samples.env_ok 1%nat Samples.trigger []
               Samples.fresh)) = Some 1.
Proof.
  assert (H : Webhook.mentions_booking Samples.trigger = true)
    by (vm_compute; reflexivity).
  split; [exact H |].
  split; [reflexivity |].
  destruct (step_is_shared_by_all_sessions Samples.env_ok 1%nat 2%nat
              Samples.trigger [] Samples.fresh H) as [Idle _].
  destruct (Idle (or_introl eq_refl)) as [E _].
  exact E.
Defined.

(** ** Details that do not repeat the keyword *)

(** C3, at the failing input: the step is 1 and the user answers the prompt
    with "Иван Петров, болит горло и температура".  The message names
    neither "запись" nor "симптом", so both handlers pass it to text
    generation: the step stays 1, the clock is not read, the router is not
    called, the calendar is not written, and nothing is returned. *)
Theorem details_without_keyword_leave_step_waiting :
  forall env history w,
    let w1 := set_step (Some 1) w in
    let rw := Webhook.generate_response env Samples.details history w1 in
    let rc := Calendar.generate_response env Samples.details history w1 in
    (step (snd rw) = Some 1 /\ ticks (snd rw) = ticks w
     /\ routed (snd rw) = routed w /\ events (snd rw) = events w
     /\ returned (fst rw) = None)
    /\ (step (snd rc) = Some 1 /\ ticks (snd rc) = ticks w
     /\ routed (snd rc) = routed w /\ events (snd rc) = events w
     /\ returned (fst rc) = None).
Proof.
  intros env history w w1 rw rc.
  pose proof details_lack_keyword as H.
  assert (Hc : Calendar.mentions_booking Samples.details = false)
    by (rewrite mentions_booking_agree; exact H).
  destruct (stream_webhook_untouched env Samples.details history w1 H)
    as (a1 & a2 & a3 & a4 & _ & a6).
  destruct (stream_calendar_untouched env Samples.details history w1 Hc)
    as (b1 & b2 & b3 & b4 & _ & b6).
  subst rw rc. rewrite a1, a2, a3, a4, a6, b1, b2, b3, b4, b6.
  repeat split.
Qed.

(** C9, at the failing input: for the message "Иван Петров, болит горло и
    температура" received at step 1, both handlers are exactly their
    text-generation path, so no event is created and the router is not
    asked.  In app-calendar.py a details message that does carry the keyword
    is split at its first space: the event is filed under "Иван", and the
    summary does not contain "Иван Петров". *)
Theorem sample_details_create_no_event :
  (forall env history w,
     let w1 := set_step (Some 1) w in
     Webhook.generate_response_try env Samples.details history w1
     = Webhook.stream_reply env (Webhook.prompt_of env Samples.details history) w1
     /\ Calendar.generate_response_try env Samples.details history w1
        = Calendar.stream_reply env
            (Calendar.format_prompt env Samples.details history) w1
     /\ events (snd (Webhook.generate_response env Samples.details history w1))
        = events w
     /\ events (snd (Calendar.generate_response env Samples.details history w1))
        = events w)
  /\ (let w1 := set_step (Some 1) Samples.fresh in
      let rc := Calendar.generate_response Samples.env_ok
                  Samples.details_with_keyword [] w1 in
      map (fun ie => summary (snd ie)) (events (snd rc))
      = [Py.u "Прием: Иван, терапевт"]
      /\ forallb (fun ie => negb (Py.contains Samples.ivan (summary (snd ie))))
           (events (snd rc)) = true).
Proof.
  split.
  - intros env history w w1.
    pose proof details_lack_keyword as H.
    assert (Hc : Calendar.mentions_booking Samples.details = false)
      by (rewrite mentions_booking_agree; exact H).
    split; [apply bypass_webhook; exact H |].
    split; [apply bypass_calendar; exact Hc |].
    split.
    + apply (stream_webhook_untouched env Samples.details history w1 H).
    + apply (stream_calendar_untouched env Samples.details history w1 Hc).
  - vm_compute. split; reflexivity.
Qed.

(** ** The handler is a generator *)

(** C10: on a booking message, with the step idle (unset or 0) or awaiting
    details (1), the generator yields nothing in either application: the
    prompt, the format error and the booking result are values of [return]
    statements, which end the generator without being produced. *)
Theorem booking_paths_yield_nothing :
  forall env message history w,
    Webhook.mentions_booking message = true ->
    step w = None \/ step w = Some 0 \/ step w = Some 1 ->
    let rw := fst (Webhook.generate_response env message history w) in
    let rc := fst (Calendar.generate_response env message history w) in
    (yielded rw = [] /\ exists s, returned rw = Some s)
    /\ (yielded rc = [] /\ exists s, returned rc = Some s).
Proof.
  intros env message history w H Hs.
  assert (Hc : Calendar.mentions_booking message = true)
    by (rewrite mentions_booking_agree; exact H).
  destruct (webhook_step_transition env message history w H) as [W0 W1].
  destruct (calendar_step_transition env message history w Hc) as [C0 C1].
  simpl. destruct Hs as [Hs | [Hs | Hs]].
  - destruct (W0 (or_introl Hs)) as [_ Ew]. destruct (C0 (or_introl Hs)) as [_ Ec].
    rewrite Ew, Ec. simpl. repeat split; eexists; reflexivity.
  - destruct (W0 (or_intror Hs)) as [_ Ew]. destruct (C0 (or_intror Hs)) as [_ Ec].
    rewrite Ew, Ec. simpl. repeat split; eexists; reflexivity.
  - destruct (W1 Hs) as (_ & Yw & Rw). destruct (C1 Hs) as (_ & Yc & Rc).
    repeat split; assumption.
Qed.

Lemma booking_paths_yield_nothing_witness :
  Webhook.mentions_booking Samples.details_with_keyword = true
  /\ step Samples.awaiting = Some 1
  /\ yielded (fst (Webhook.generate_response Samples.env_ok
                     Samples.details_with_keyword [] Samples.awaiting)) = [].
Proof.
  assert (H : Webhook.mentions_booking Samples.details_with_keyword = true)
    by (vm_compute; reflexivity).
  split; [exact H |].
  split; [reflexivity |].
  destruct (booking_paths_yield_nothing Samples.env_ok
              Samples.details_with_keyword [] Samples.awaiting
              H (or_intror (or_intror eq_refl))) as [[E _] _].
  exact E.
Defined.

(** ** Running a computation step by step *)

Lemma bind_inr {A B} (m : M A) (k : A -> M B) w a w' :
  m w = (inr a, w') -> bind m k w = k a w'.
Proof. intro H. unfold bind. rewrite H. reflexivity. Qed.

Lemma bind_inl {A B} (m : M A) (k : A -> M B) w e w' :
  m w = (inl e, w') -> bind m k w = (inl e, w').
Proof. intro H. unfold bind. rewrite H. reflexivity. Qed.

Lemma add_in_range t d :
  0 <= t + d <= MAX -> DateTime.add t d = inr (t + d).
Proof.
  intros [H0 H1]. unfold DateTime.add.
  destruct (Z.leb_spec 0 (t + d)); [| lia].
  destruct (Z.leb_spec (t + d) MAX); [| lia].
  reflexivity.
Qed.

Lemma offsets_positive : 0 < minutes 30 /\ 0 < hours 3.
Proof. split; reflexivity. Qed.

Lemma bookable_add_30 t :
  bookable_at t -> DateTime.add t (minutes 30) = inr (t + minutes 30).
Proof.
  intros [H0 H1]. apply add_in_range.
  pose proof offsets_positive as [Hm Hh]. lia.
Qed.

Lemma bookable_add_3h t :
  bookable_at t -> DateTime.add t (hours 3) = inr (t + hours 3).
Proof.
  intros [H0 H1]. apply add_in_range.
  pose proof offsets_positive as [Hm Hh]. lia.
Qed.

Lemma bookable_add_end t :
  bookable_at t ->
  DateTime.add (t + hours 3) (minutes 30) = inr (t + hours 3 + minutes 30).
Proof.
  intros [H0 H1]. apply add_in_range.
  pose proof offsets_positive as [Hm Hh]. lia.
Qed.

(** ** The duplicate check *)

Lemma some_item_iff_exists {A} (p : A -> bool) (l : list A) :
  Nat.ltb 0 (List.length (firstn 1 (filter p l))) = existsb p l.
Proof.
  induction l as [| x l IH]; simpl; [reflexivity |].
  destruct (p x); simpl; [reflexivity | exact IH].
Qed.

(** The whole of [check_duplicate_event], case by case: the service object,
    the end of the window, the query. *)
Lemma check_duplicate_event_cases env name time w :
  Webhook.check_duplicate_event env name time w =
  let caught e :=
    if is_HttpError e
    then (inr false,
          set_log (log w ++ [LogError (Py.u "Ошибка проверки дубликатов") e]) w)
    else (inl e, w) in
  match credentials_fault env with
  | Some e => caught e
  | None =>
      match DateTime.add time (minutes 30) with
      | inl e => caught e
      | inr timeMax =>
          match list_fault env with
          | Some e => caught e
          | None => (inr (reserved env name time timeMax w), w)
          end
      end
  end.
Proof.
  unfold Webhook.check_duplicate_event, try_except, bind,
    Webhook.get_calendar_service, dt_add, lift, raise, ret,
    CalendarService.events_list, reserved.
  destruct (credentials_fault env) as [e |].
  - destruct e; reflexivity.
  - destruct (DateTime.add time (minutes 30)) as [e | timeMax].
    + destruct e; reflexivity.
    + destruct (list_fault env) as [e |].
      * destruct e; reflexivity.
      * rewrite some_item_iff_exists. reflexivity.
Qed.

(** With the service reachable, the check answers whether the calendar
    holds a matching event in the half hour that starts at [time]. *)
Lemma check_duplicate_event_reports env name time w :
  credentials_fault env = None -> list_fault env = None ->
  bookable_at time ->
  Webhook.check_duplicate_event env name time w
  = (inr (reserved env name time (time + minutes 30) w), w).
Proof.
  intros Hc Hl Ht. rewrite check_duplicate_event_cases.
  rewrite Hc, (bookable_add_30 time Ht), Hl. reflexivity.
Qed.

(** ** The confirmation webhook *)

Lemma failed_attempt env id w :
  Webhook.webhook_unset env = false ->
  attempt_fails (endpoint env (List.length (posts w))) = true ->
  Webhook.send_webhook_confirmation_wrapped env id w
  = (inl RequestException, after_failed_attempt id w).
Proof.
  intros Hu Hf. unfold Webhook.send_webhook_confirmation_wrapped.
  rewrite Hu. unfold try_except, bind, Requests.post.
  destruct (endpoint env (List.length (posts w))) as [| c]; simpl in Hf.
  - reflexivity.
  - unfold Requests.raise_for_status. rewrite Hf. reflexivity.
Qed.

Lemma delivered_attempt env id w c :
  Webhook.webhook_unset env = false ->
  endpoint env (List.length (posts w)) = Response c ->
  attempt_fails (Response c) = false ->
  Webhook.send_webhook_confirmation_wrapped env id w
  = (inr tt,
     set_log (log w ++ [LogInfo (Py.u "Webhook отправлен успешно для события")])
             (set_posts (posts w ++ [pending_confirmation id]) w)).
Proof.
  intros Hu He Hf. unfold Webhook.send_webhook_confirmation_wrapped.
  rewrite Hu. unfold try_except, bind, Requests.post. rewrite He.
  unfold Requests.raise_for_status. simpl in Hf. rewrite Hf. reflexivity.
Qed.

(** Against an endpoint that fails every time, [k] retries after the first
    attempt make [k + 1] POSTs and [k] sleeps, and end in [RetryError]. *)
Lemma retrying_exhausted env id wait :
  Webhook.webhook_unset env = false ->
  (forall n, attempt_fails (endpoint env n) = true) ->
  forall k w,
    exists w',
      Tenacity.retrying k wait (Webhook.send_webhook_confirmation_wrapped env id) w
      = (inl RetryError, w')
      /\ posts w' = posts w ++ repeat (pending_confirmation id) (S k)
      /\ slept w' = slept w + Z.of_nat k * wait
      /\ events w' = events w /\ step w' = step w /\ routed w' = routed w
      /\ ticks w' = ticks w.
Proof.
  intros Hu Hf. induction k as [| k IH]; intro w; simpl Tenacity.retrying;
    rewrite (failed_attempt env id w Hu (Hf _)).
  - exists (after_failed_attempt id w). simpl. repeat split. lia.
  - destruct (IH (set_slept (slept (after_failed_attempt id w) + wait)
                    (after_failed_attempt id w)))
      as (w' & E & Hp & Hs & He & Hst & Hr & Ht).
    exists w'. split; [exact E |].
    rewrite Hp, Hs, He, Hst, Hr, Ht. repeat split.
    + simpl posts. rewrite <- app_assoc. reflexivity.
    + rewrite Nat2Z.inj_succ. simpl slept. lia.
Qed.

Lemma send_webhook_exhausted env id w :
  Webhook.webhook_unset env = false ->
  (forall n, attempt_fails (endpoint env n) = true) ->
  exists w',
    Webhook.send_webhook_confirmation env id w = (inl RetryError, w')
    /\ posts w' = posts w ++ repeat (pending_confirmation id) 3
    /\ slept w' = slept w + 4
    /\ events w' = events w /\ step w' = step w /\ routed w' = routed w
    /\ ticks w' = ticks w.
Proof.
  intros Hu Hf.
  destruct (retrying_exhausted env id 2 Hu Hf 2%nat w)
    as (w' & E & Hp & Hs & He & Hst & Hr & Ht).
  exists w'. unfold Webhook.send_webhook_confirmation, Tenacity.retry.
  repeat split; assumption.
Qed.

(** ** Booking against a dead confirmation endpoint *)

Lemma schedule_with_dead_endpoint env name symptoms specialist w :
  credentials_fault env = None -> list_fault env = None ->
  insert_fault env = None ->
  bookable_at (clock env (ticks w)) ->
  bookable_at (clock env (S (ticks w))) ->
  reserved env name (clock env (ticks w)) (clock env (ticks w) + minutes 30) w
  = false ->
  define_specialist env symptoms = inr specialist ->
  Webhook.webhook_unset env = false ->
  (forall n, attempt_fails (endpoint env n) = true) ->
  let r := Webhook.schedule_appointment env name symptoms w in
  let id := Z.of_nat (List.length (events w)) in
  fst r = inr None
  /\ events (snd r)
     = events w ++ [(id, webhook_event name specialist symptoms
                           (clock env (S (ticks w))))]
  /\ posts (snd r) = posts w ++ repeat (pending_confirmation id) 3
  /\ step (snd r) = step w.
Proof.
  intros Hc Hl Hi Ht Ht' Hfree Hsp Hu Hdown.
  unfold Webhook.schedule_appointment, try_except.
  rewrite (bind_inr (now env) _ w _ _ eq_refl).
  rewrite (bind_inr _ _ _ _ _
             (check_duplicate_event_reports env name _ _ Hc Hl Ht)).
  change (reserved env name (clock env (ticks w))
            (clock env (ticks w) + minutes 30) (set_ticks (S (ticks w)) w))
    with (reserved env name (clock env (ticks w))
            (clock env (ticks w) + minutes 30) w).
  rewrite Hfree.
  erewrite bind_inr by (unfold Webhook.route; rewrite Hsp; reflexivity).
  erewrite bind_inr by reflexivity.
  erewrite bind_inr
    by (unfold dt_add, lift; simpl ticks; rewrite (bookable_add_3h _ Ht'); reflexivity).
  erewrite bind_inr
    by (unfold Webhook.get_calendar_service; rewrite Hc; reflexivity).
  erewrite bind_inr
    by (unfold dt_add, lift; rewrite (bookable_add_end _ Ht'); reflexivity).
  erewrite bind_inr
    by (unfold CalendarService.events_insert; rewrite Hi; reflexivity).
  match goal with
  | |- context [bind (Webhook.send_webhook_confirmation env ?i) _ ?w0] =>
      destruct (send_webhook_exhausted env i w0 Hu Hdown)
        as (w' & E & Hp & _ & He & Hst & _ & _)
  end.
  erewrite bind_inl by exact E.
  cbv [is_HttpError bind logger modify ret]. simpl fst. simpl snd.
  simpl events. simpl posts. simpl step.
  rewrite He, Hp, Hst. repeat split.
Qed.

(** C4, as stated, fails: the endpoint answers 503 to every POST.  The
    event is in the calendar, flagged as requiring confirmation, after three
    failed POSTs; [schedule_appointment] returns [None] and the reply is the
    apology, not the pending-confirmation string. *)
Lemma failed_dispatch_reported_as_error :
  map (fun ie => requiresConfirmation (snd ie))
      (events (snd (Webhook.generate_response Samples.env_down
                      Samples.details_with_keyword [] Samples.awaiting)))
  = [true]
  /\ List.length
       (posts (snd (Webhook.generate_response Samples.env_down
                      Samples.details_with_keyword [] Samples.awaiting)))
     = 3%nat
  /\ fst (Webhook.schedule_appointment Samples.env_down Samples.ivan
            Samples.sore_throat Samples.fresh) = inr None
  /\ returned (fst (Webhook.generate_response Samples.env_down
                      Samples.details_with_keyword [] Samples.awaiting))
     = Some Webhook.APOLOGY
  /\ returned (fst (Webhook.generate_response Samples.env_down
                      Samples.details_with_keyword [] Samples.awaiting))
     <> Some (Webhook.PENDING Samples.therapist (Samples.t0 + hours 3)).
Proof. vm_compute. repeat split. discriminate. Qed.

(** C4, amended: when the event has been created and every attempt of the
    confirmation dispatch fails, the event stays in the calendar, flagged as
    requiring confirmation, but the booking does not end as pending
    confirmation: [schedule_appointment] returns [None] and the handler
    returns the apology "Извините, произошла ошибка обработки запроса.". *)
Theorem failed_dispatch_keeps_event_reports_error :
  forall env message history name_part symptoms_part specialist w,
    Webhook.mentions_booking message = true ->
    step w = Some 1 ->
    Py.split1 Py.comma message = [name_part; symptoms_part] ->
    credentials_fault env = None -> list_fault env = None ->
    insert_fault env = None ->
    bookable_at (clock env (ticks w)) ->
    bookable_at (clock env (S (ticks w))) ->
    reserved env (Py.strip name_part) (clock env (ticks w))
      (clock env (ticks w) + minutes 30) w = false ->
    define_specialist env (Py.strip symptoms_part) = inr specialist ->
    Webhook.webhook_unset env = false ->
    (forall n, attempt_fails (endpoint env n) = true) ->
    let r := Webhook.generate_response env message history w in
    let id := Z.of_nat (List.length (events w)) in
    let event := webhook_event (Py.strip name_part) specialist
                   (Py.strip symptoms_part) (clock env (S (ticks w))) in
    events (snd r) = events w ++ [(id, event)]
    /\ requiresConfirmation event = true
    /\ posts (snd r) = posts w ++ repeat (pending_confirmation id) 3
    /\ fst r = mkGenerated [] (Some Webhook.APOLOGY).
Proof.
  intros env message history name_part symptoms_part specialist w
    Hm Hs Hsplit Hc Hl Hi Ht Ht' Hfree Hsp Hu Hdown.
  unfold Webhook.generate_response, Webhook.generate_response_try.
  rewrite Hm, Hsplit.
  unfold Webhook.init_step, Webhook.step_is.
  destruct w as [st tk ev ps sl rt pr lg]. simpl in Hs. subst st.
  unfold set_step.
  cbn [step ticks events posts slept routed prompts log
       Z.eqb Pos.eqb List.length Nat.ltb Nat.leb nth] in *.
  pose proof (schedule_with_dead_endpoint env (Py.strip name_part)
                (Py.strip symptoms_part) specialist
                (mkWorld (Some 0) tk ev ps sl rt pr lg)
                Hc Hl Hi Ht Ht' Hfree Hsp Hu Hdown) as K.
  cbn [step ticks events posts] in K.
  destruct (Webhook.schedule_appointment env (Py.strip name_part)
              (Py.strip symptoms_part) (mkWorld (Some 0) tk ev ps sl rt pr lg))
    as [[e | response] w'].
  - destruct K as (K & _). discriminate K.
  - destruct K as (K & Ke & Kp & _). cbn [fst snd] in *.
    injection K as ->. repeat split; try assumption; reflexivity.
Qed.

Lemma failed_dispatch_witness :
  fst (Webhook.generate_response Samples.env_down Samples.details_with_keyword
         [] Samples.awaiting)
  = mkGenerated [] (Some Webhook.APOLOGY)
  /\ List.length
       (events (snd (Webhook.generate_response Samples.env_down
                       Samples.details_with_keyword [] Samples.awaiting)))
     = 1%nat.
Proof.
  assert (B : bookable_at Samples.t0) by (split; vm_compute; discriminate).
  destruct (failed_dispatch_keeps_event_reports_error Samples.env_down
              Samples.details_with_keyword []
              (Py.u "Иван Петров") (Py.u " симптомы: болит горло и температура")
              Samples.therapist Samples.awaiting) as (E & _ & _ & R).
  - vm_compute; reflexivity.
  - reflexivity.
  - vm_compute; reflexivity.
  - reflexivity.
  - reflexivity.
  - reflexivity.
  - exact B.
  - exact B.
  - vm_compute; reflexivity.
  - vm_compute; reflexivity.
  - vm_compute; reflexivity.
  - intro n; vm_compute; reflexivity.
  - split; [exact R |]. rewrite E. reflexivity.
Defined.

(** ** The retry policy *)

(** C5, as stated, fails: the endpoint answers every POST with 304, which
    is not a 2xx status; [raise_for_status] lets it pass, so the first
    attempt counts as delivered: one POST, no error raised. *)
Lemma redirect_class_answer_counts_as_delivered :
  (forall n, endpoint Samples.env_304 n = Response 304)
  /\ is_2xx 304 = false
  /\ fst (Webhook.send_webhook_confirmation Samples.env_304 0 Samples.fresh)
     = inr tt
  /\ posts (snd (Webhook.send_webhook_confirmation Samples.env_304 0 Samples.fresh))
     = [pending_confirmation 0].
Proof. vm_compute. repeat split. Qed.

(** C5, amended: against an endpoint that fails persistently, where a
    failure is a network error or a 4xx or 5xx status, the dispatch makes
    exactly 3 POSTs, sleeps 2 seconds after the first and after the second,
    then raises [RetryError]; the calendar is as it was before the dispatch. *)
Theorem notify_gives_up_after_three_attempts :
  forall env id w,
    Webhook.webhook_unset env = false ->
    (forall n, attempt_fails (endpoint env n) = true) ->
    let r := Webhook.send_webhook_confirmation env id w in
    fst r = inl RetryError
    /\ posts (snd r)
       = posts w ++ [pending_confirmation id; pending_confirmation id;
                     pending_confirmation id]
    /\ slept (snd r) = slept w + 4
    /\ events (snd r) = events w.
Proof.
  intros env id w Hu Hdown.
  destruct (send_webhook_exhausted env id w Hu Hdown)
    as (w' & E & Hp & Hs & He & _).
  rewrite E. cbn [fst snd]. repeat split; assumption.
Qed.

Lemma notify_gives_up_witness :
  fst (Webhook.send_webhook_confirmation Samples.env_down 7 Samples.fresh)
  = inl RetryError
  /\ List.length
       (posts (snd (Webhook.send_webhook_confirmation Samples.env_down 7
                      Samples.fresh))) = 3%nat.
Proof.
  destruct (notify_gives_up_after_three_attempts Samples.env_down 7 Samples.fresh)
    as (R & P & _).
  - vm_compute; reflexivity.
  - intro n; vm_compute; reflexivity.
  - split; [exact R |]. rewrite P. reflexivity.
Defined.

(** ** Reading the calendar *)

Lemma bind_unfold {A B} (m : M A) (k : A -> M B) w :
  bind m k w
  = match m w with
    | (inr a, w') => k a w'
    | (inl e, w') => (inl e, w')
    end.
Proof. reflexivity. Qed.

(** A handler that only logs leaves an observation where the body left it. *)
Lemma try_except_frame {A X} (f : World -> X) (m : M A) h w :
  (forall e k, h e = Some k -> preserves f k) ->
  f (snd (try_except m h w)) = f (snd (m w)).
Proof.
  intro Hh. unfold try_except.
  destruct (m w) as [[e | a] w1]; [| reflexivity].
  destruct (h e) as [k |] eqn:E; [| reflexivity].
  simpl. apply (Hh e k E).
Qed.

Lemma schedule_webhook_handler_frame {X} (f : World -> X) :
  (forall l w, f (set_log l w) = f w) ->
  forall (e : exn) (k : M (option Py.str)),
    (if is_HttpError e
     then Some (logger (LogError (Py.u "Google API error") e) ;;;
                ret (Some Webhook.CONNECTION_ERROR))
     else Some (logger (LogError (Py.u "Общая ошибка") e) ;;; ret None))
    = Some k -> preserves f k.
Proof.
  intros Hl e k H. destruct e; simpl in H; inversion H; subst;
    (apply preserves_bind; [apply preserves_logger; exact Hl | intros _; apply preserves_ret]).
Qed.

Lemma check_result_ignores_ticks env name time n w :
  fst (Webhook.check_duplicate_event env name time (set_ticks n w))
  = fst (Webhook.check_duplicate_event env name time w).
Proof.
  rewrite !check_duplicate_event_cases. cbv zeta.
  destruct (credentials_fault env) as [e |].
  - destruct e; reflexivity.
  - destruct (DateTime.add time (minutes 30)) as [e | timeMax].
    + destruct e; reflexivity.
    + destruct (list_fault env) as [e |]; [destruct e |]; reflexivity.
Qed.

(** C6, as stated, fails: the read of the calendar times out, which is not
    an [HttpError].  The error leaves [check_duplicate_event]; the booking
    is abandoned before the router is asked, nothing is written, and the
    user is given the apology. *)
Lemma read_failure_blocks_booking :
  list_fault Samples.env_read_timeout = Some OtherException
  /\ fst (Webhook.check_duplicate_event Samples.env_read_timeout Samples.ivan
            Samples.t0 Samples.fresh) = inl OtherException
  /\ Webhook.schedule_appointment Samples.env_read_timeout Samples.ivan
       Samples.sore_throat Samples.fresh
     = (inr None,
        set_log [LogError (Py.u "Общая ошибка") OtherException]
                (set_ticks 1 Samples.fresh))
  /\ returned (fst (Webhook.generate_response Samples.env_read_timeout
                      Samples.details_with_keyword [] Samples.awaiting))
     = Some Webhook.APOLOGY
  /\ events (snd (Webhook.generate_response Samples.env_read_timeout
                     Samples.details_with_keyword [] Samples.awaiting)) = [].
Proof. vm_compute. repeat split. Qed.

(** C6, amended: if the calendar query inside the duplicate check raises an
    [HttpError], the check logs it and returns false instead of raising, for
    every name and time, and the booking goes on to ask the router.  An
    exception of any other class leaves the check: the booking ends there
    with [None], before the router is asked and with nothing written. *)
Theorem duplicate_check_fails_open_on_HttpError :
  forall env name symptoms time w e,
    credentials_fault env = None ->
    list_fault env = Some e ->
    bookable_at time ->
    Webhook.check_duplicate_event env name time w
    = (if is_HttpError e
       then (inr false,
             set_log (log w ++ [LogError (Py.u "Ошибка проверки дубликатов") e]) w)
       else (inl e, w))
    /\ (is_HttpError e = true -> time = clock env (ticks w) ->
        routed (snd (Webhook.schedule_appointment env name symptoms w))
        = routed w ++ [symptoms])
    /\ (is_HttpError e = false -> time = clock env (ticks w) ->
        fst (Webhook.schedule_appointment env name symptoms w) = inr None
        /\ routed (snd (Webhook.schedule_appointment env name symptoms w))
           = routed w
        /\ events (snd (Webhook.schedule_appointment env name symptoms w))
           = events w).
Proof.
  intros env name symptoms time w e Hc Hl Ht.
  assert (E : forall w0,
             Webhook.check_duplicate_event env name time w0
             = (if is_HttpError e
                then (inr false,
                      set_log (log w0 ++ [LogError (Py.u "Ошибка проверки дубликатов")
                                            e]) w0)
                else (inl e, w0))).
  { intro w0. rewrite check_duplicate_event_cases.
    rewrite Hc, (bookable_add_30 time Ht), Hl. reflexivity. }
  split; [apply E |].
  split; intros He Htime; subst time.
  - unfold Webhook.schedule_appointment.
    rewrite try_except_frame
      by (apply schedule_webhook_handler_frame; intros; reflexivity).
    rewrite (bind_inr (now env) _ w _ _ eq_refl).
    rewrite bind_unfold, E, He.
    rewrite bind_unfold. unfold Webhook.route at 1.
    destruct (define_specialist env symptoms) as [e' | specialist].
    + reflexivity.
    + match goal with
      | |- routed (snd (?X ?w0)) = _ =>
          assert (P : preserves routed X) by frame_all; rewrite (P w0)
      end.
      reflexivity.
  - unfold Webhook.schedule_appointment, try_except.
    rewrite (bind_inr (now env) _ w _ _ eq_refl).
    rewrite bind_unfold, E, He. rewrite He.
    cbv [bind logger modify ret]. repeat split.
Qed.

Lemma duplicate_check_fails_open_witness :
  fst (Webhook.check_duplicate_event Samples.env_read_http_error Samples.ivan
         Samples.t0 Samples.fresh) = inr false
  /\ routed (snd (Webhook.schedule_appointment Samples.env_read_http_error
                    Samples.ivan Samples.sore_throat Samples.fresh))
     = [Samples.sore_throat].
Proof.
  assert (B : bookable_at Samples.t0) by (split; vm_compute; discriminate).
  destruct (duplicate_check_fails_open_on_HttpError Samples.env_read_http_error
              Samples.ivan Samples.sore_throat Samples.t0 Samples.fresh
              HttpError eq_refl eq_refl B) as (E & R & _).
  split.
  - rewrite E. reflexivity.
  - exact (R eq_refl eq_refl).
Defined.

(** ** A duplicate ends the booking *)

(** X26: whenever the duplicate check reports a reservation, the booking
    ends with the duplicate message before any write: the router is not
    called, no event is inserted, nothing is posted. *)
Theorem duplicate_aborts_before_any_write :
  forall env name symptoms w,
    fst (Webhook.check_duplicate_event env name (clock env (ticks w)) w)
    = inr true ->
    let r := Webhook.schedule_appointment env name symptoms w in
    fst r = inr (Some Webhook.DUPLICATE)
    /\ events (snd r) = events w
    /\ routed (snd r) = routed w
    /\ posts (snd r) = posts w.
Proof.
  intros env name symptoms w H.
  rewrite <- (check_result_ignores_ticks env name _ (S (ticks w)) w) in H.
  pose proof (check_duplicate_preserves events env name (clock env (ticks w))
                (fun _ _ => eq_refl) (set_ticks (S (ticks w)) w)) as Pe.
  pose proof (check_duplicate_preserves routed env name (clock env (ticks w))
                (fun _ _ => eq_refl) (set_ticks (S (ticks w)) w)) as Pr.
  pose proof (check_duplicate_preserves posts env name (clock env (ticks w))
                (fun _ _ => eq_refl) (set_ticks (S (ticks w)) w)) as Pp.
  unfold Webhook.schedule_appointment, try_except.
  rewrite (bind_inr (now env) _ w _ _ eq_refl).
  rewrite bind_unfold.
  destruct (Webhook.check_duplicate_event env name (clock env (ticks w))
              (set_ticks (S (ticks w)) w)) as [[e | duplicate] w1].
  - discriminate H.
  - cbn [fst snd] in *. injection H as ->.
    cbn [ret fst snd]. repeat split; assumption.
Qed.

Lemma duplicate_aborts_witness :
  fst (Webhook.check_duplicate_event Samples.env_ok Samples.ivan Samples.t0
         Samples.earlier_booking) = inr true
  /\ fst (Webhook.schedule_appointment Samples.env_ok Samples.ivan
            Samples.sore_throat Samples.earlier_booking)
     = inr (Some Webhook.DUPLICATE)
  /\ List.length
       (events (snd (Webhook.schedule_appointment Samples.env_ok Samples.ivan
                       Samples.sore_throat Samples.earlier_booking))) = 1%nat.
Proof.
  assert (H : fst (Webhook.check_duplicate_event Samples.env_ok Samples.ivan
                     (clock Samples.env_ok (ticks Samples.earlier_booking))
                     Samples.earlier_booking) = inr true)
    by (vm_compute; reflexivity).
  destruct (duplicate_aborts_before_any_write Samples.env_ok Samples.ivan
              Samples.sore_throat Samples.earlier_booking H) as (R & E & _).
  split; [exact H |].
  split; [exact R |].
  rewrite E. reflexivity.
Defined.

(** ** The appointment slot *)

Lemma add_value t d a : DateTime.add t d = inr a -> a = t + d.
Proof.
  unfold DateTime.add.
  destruct ((0 <=? t + d) && (t + d <=? MAX)); intro H; inversion H; reflexivity.
Qed.

(** A booking by app-webhook.py leaves the calendar as it was or adds one
    event, whose slot is counted from the second reading of the clock. *)
Lemma schedule_webhook_events env name symptoms w :
  let w' := snd (Webhook.schedule_appointment env name symptoms w) in
  events w' = events w
  \/ exists id e,
       events w' = events w ++ [(id, e)]
       /\ slot_from (clock env (S (ticks w))) e.
Proof.
  cbv zeta.
  remember (events (snd (Webhook.schedule_appointment env name symptoms w)))
    as evs eqn:Ev.
  revert Ev. unfold Webhook.schedule_appointment.
  rewrite try_except_frame
    by (apply schedule_webhook_handler_frame; intros; reflexivity).
  rewrite (bind_inr (now env) _ w _ _ eq_refl).
  pose proof (check_duplicate_preserves events env name (clock env (ticks w))
                (fun _ _ => eq_refl) (set_ticks (S (ticks w)) w)) as Pe.
  pose proof (check_duplicate_preserves ticks env name (clock env (ticks w))
                (fun _ _ => eq_refl) (set_ticks (S (ticks w)) w)) as Pt.
  rewrite bind_unfold.
  destruct (Webhook.check_duplicate_event env name (clock env (ticks w))
              (set_ticks (S (ticks w)) w)) as [[e | [|]] w1];
    unfold set_ticks in Pe, Pt; cbn [fst snd events ticks] in Pe, Pt;
    [intros ->; left; exact Pe | intros ->; left; exact Pe |].
  rewrite bind_unfold. unfold Webhook.route at 1.
  destruct (define_specialist env symptoms) as [e | specialist];
    [intros ->; left; exact Pe |].
  rewrite (bind_inr (now env) _ _ _ _ eq_refl).
  unfold set_routed, set_ticks; cbn [ticks].
  rewrite bind_unfold. unfold dt_add at 1, lift.
  destruct (DateTime.add (clock env (ticks w1)) (hours 3))
    as [e | appointment_time] eqn:Ea; [intros ->; left; exact Pe |].
  apply add_value in Ea.
  rewrite bind_unfold. unfold Webhook.get_calendar_service at 1.
  destruct (credentials_fault env) as [e |]; [intros ->; left; exact Pe |].
  cbn [ret]. rewrite bind_unfold. unfold dt_add at 1, lift.
  destruct (DateTime.add appointment_time (minutes 30))
    as [e | end_time] eqn:Ee; [intros ->; left; exact Pe |].
  apply add_value in Ee.
  rewrite bind_unfold. unfold CalendarService.events_insert at 1.
  destruct (insert_fault env) as [e |]; [intros ->; left; exact Pe |].
  match goal with
  | |- context [bind (Webhook.send_webhook_confirmation env ?i) ?k ?w0] =>
      assert (P : preserves events
                    (bind (Webhook.send_webhook_confirmation env i) k))
        by frame_all;
      rewrite (P w0)
  end.
  intros ->. right. unfold set_events, set_routed, set_ticks; cbn [events].
  eexists; eexists. split.
  - rewrite Pe. reflexivity.
  - unfold slot_from. cbn [start_dateTime end_dateTime].
    rewrite Pt in Ea. lia.
Qed.

(** The same for app-calendar.py, which reads the clock once. *)
Lemma schedule_calendar_events env name symptoms w :
  let w' := snd (Calendar.schedule_appointment env name symptoms w) in
  events w' = events w
  \/ exists id e,
       events w' = events w ++ [(id, e)]
       /\ slot_from (clock env (ticks w)) e.
Proof.
  cbv zeta.
  remember (events (snd (Calendar.schedule_appointment env name symptoms w)))
    as evs eqn:Ev.
  revert Ev. unfold Calendar.schedule_appointment.
  rewrite try_except_frame.
  2:{ intros e k H. inversion H; subst.
      apply preserves_bind;
        [apply preserves_logger; intros; reflexivity | intros _; apply preserves_ret]. }
  rewrite bind_unfold. unfold Calendar.route at 1.
  destruct (define_specialist env symptoms) as [e | specialist];
    [intros ->; left; reflexivity |].
  rewrite (bind_inr (now env) _ _ _ _ eq_refl).
  unfold set_routed, set_ticks; cbn [ticks].
  rewrite bind_unfold. unfold dt_add at 1, lift.
  destruct (DateTime.add (clock env (ticks w)) (hours 3))
    as [e | appointment_time] eqn:Ea; [intros ->; left; reflexivity |].
  apply add_value in Ea.
  rewrite bind_unfold. unfold Calendar.get_calendar_service at 1.
  destruct (credentials_fault env) as [e |]; [intros ->; left; reflexivity |].
  cbn [ret]. rewrite bind_unfold. unfold dt_add at 1, lift.
  destruct (DateTime.add appointment_time (minutes 30))
    as [e | end_time] eqn:Ee; [intros ->; left; reflexivity |].
  apply add_value in Ee.
  rewrite bind_unfold. unfold CalendarService.events_insert at 1.
  destruct (insert_fault env) as [e |]; [intros ->; left; reflexivity |].
  intros ->. right. unfold set_events, set_routed, set_ticks, ret; cbn [snd events].
  eexists; eexists. split.
  - reflexivity.
  - unfold slot_from. cbn [start_dateTime end_dateTime]. lia.
Qed.

(** C7: every event a booking adds to the calendar starts exactly 3 hours
    after the clock reading taken for the appointment and ends exactly 30
    minutes after it starts.  In app-webhook.py that reading is the second
    of the booking (the first goes to the duplicate check); in
    app-calendar.py it is the only one. *)
Theorem slot_is_three_hours_ahead_and_thirty_minutes_long :
  forall env name symptoms w id e,
    (In (id, e) (events (snd (Webhook.schedule_appointment env name symptoms w))) ->
     ~ In (id, e) (events w) ->
     start_dateTime e - clock env (S (ticks w)) = hours 3
     /\ end_dateTime e - start_dateTime e = minutes 30)
    /\ (In (id, e) (events (snd (Calendar.schedule_appointment env name symptoms w))) ->
     ~ In (id, e) (events w) ->
     start_dateTime e - clock env (ticks w) = hours 3
     /\ end_dateTime e - start_dateTime e = minutes 30).
Proof.
  intros env name symptoms w id e. split; intros Hin Hnew.
  - destruct (schedule_webhook_events env name symptoms w)
      as [E | (id' & e' & E & S)]; rewrite E in Hin.
    + contradiction.
    + apply in_app_or in Hin. destruct Hin as [Hin | [Hin | []]];
        [contradiction |].
      inversion Hin; subst. exact S.
  - destruct (schedule_calendar_events env name symptoms w)
      as [E | (id' & e' & E & S)]; rewrite E in Hin.
    + contradiction.
    + apply in_app_or in Hin. destruct Hin as [Hin | [Hin | []]];
        [contradiction |].
      inversion Hin; subst. exact S.
Qed.

Lemma slot_witness :
  In (0, Samples.first_event)
     (events (snd (Webhook.schedule_appointment Samples.env_ok Samples.ivan
                     Samples.sore_throat Samples.fresh)))
  /\ ~ In (0, Samples.first_event) (events Samples.fresh)
  /\ start_dateTime Samples.first_event - Samples.t0 = hours 3
  /\ end_dateTime Samples.first_event - start_dateTime Samples.first_event
     = minutes 30.
Proof.
  assert (Hin : In (0, Samples.first_event)
                  (events (snd (Webhook.schedule_appointment Samples.env_ok
                                  Samples.ivan Samples.sore_throat Samples.fresh))))
    by (vm_compute; left; reflexivity).
  assert (Hnew : ~ In (0, Samples.first_event) (events Samples.fresh))
    by (intros []).
  destruct (slot_is_three_hours_ahead_and_thirty_minutes_long Samples.env_ok
              Samples.ivan Samples.sore_throat Samples.fresh 0
              Samples.first_event) as [W _].
  destruct (W Hin Hnew) as [S L].
  repeat split; assumption.
Defined.

(** ** The window of the duplicate check *)

(** What decides whether a booking is filed is the half hour that starts at
    the request: with nothing found there, the event is inserted, whatever
    the appointment's own slot already holds and whatever becomes of the
    confirmation. *)
Lemma booking_checks_the_request_time env name symptoms specialist w :
  credentials_fault env = None -> list_fault env = None ->
  insert_fault env = None ->
  bookable_at (clock env (ticks w)) ->
  bookable_at (clock env (S (ticks w))) ->
  reserved env name (clock env (ticks w)) (clock env (ticks w) + minutes 30) w
  = false ->
  define_specialist env symptoms = inr specialist ->
  events (snd (Webhook.schedule_appointment env name symptoms w))
  = events w ++ [(Z.of_nat (List.length (events w)),
                  webhook_event name specialist symptoms
                    (clock env (S (ticks w))))].
Proof.
  intros Hc Hl Hi Ht Ht' Hfree Hsp.
  unfold Webhook.schedule_appointment.
  rewrite try_except_frame
    by (apply schedule_webhook_handler_frame; intros; reflexivity).
  rewrite (bind_inr (now env) _ w _ _ eq_refl).
  rewrite (bind_inr _ _ _ _ _
             (check_duplicate_event_reports env name _ _ Hc Hl Ht)).
  change (reserved env name (clock env (ticks w))
            (clock env (ticks w) + minutes 30) (set_ticks (S (ticks w)) w))
    with (reserved env name (clock env (ticks w))
            (clock env (ticks w) + minutes 30) w).
  rewrite Hfree.
  erewrite bind_inr by (unfold Webhook.route; rewrite Hsp; reflexivity).
  erewrite bind_inr by reflexivity.
  erewrite bind_inr
    by (unfold dt_add, lift; simpl ticks; rewrite (bookable_add_3h _ Ht'); reflexivity).
  erewrite bind_inr
    by (unfold Webhook.get_calendar_service; rewrite Hc; reflexivity).
  erewrite bind_inr
    by (unfold dt_add, lift; rewrite (bookable_add_end _ Ht'); reflexivity).
  erewrite bind_inr
    by (unfold CalendarService.events_insert; rewrite Hi; reflexivity).
  match goal with
  | |- events (snd (?X ?w0)) = _ =>
      assert (P : preserves events X) by frame_all; rewrite (P w0)
  end.
  reflexivity.
Qed.

(** C2, at the failing input: a first booking for "Иван Петров" files an
    event in the slot that starts 3 hours after the request.  Asked again at
    the same instant, [schedule_appointment] hands the check the request
    time itself, so the check looks at the half hour that starts now: the
    event in the appointment's own slot is not seen, the check returns
    false, and a second event is filed in the same slot. *)
Theorem duplicate_check_misses_the_booked_slot :
  let env := Samples.env_ok in
  let slot_start := Samples.t0 + hours 3 in
  let slot_end := slot_start + minutes 30 in
  let w1 := snd (Webhook.schedule_appointment env Samples.ivan
                   Samples.sore_throat Samples.fresh) in
  let r2 := Webhook.schedule_appointment env Samples.ivan Samples.sore_throat w1 in
  map (fun ie => (summary (snd ie), start_dateTime (snd ie), end_dateTime (snd ie)))
      (events w1)
  = [(Py.u "Прием: Иван Петров, терапевт", slot_start, slot_end)]
  /\ reserved env Samples.ivan slot_start slot_end w1 = true
  /\ clock env (ticks w1) = Samples.t0
  /\ fst (Webhook.check_duplicate_event env Samples.ivan Samples.t0 w1) = inr false
  /\ fst (Webhook.check_duplicate_event env Samples.ivan slot_start w1) = inr true
  /\ fst r2 = inr (Some (Webhook.PENDING (Py.u "терапевт") slot_start))
  /\ map (fun ie => (summary (snd ie), start_dateTime (snd ie), end_dateTime (snd ie)))
         (events (snd r2))
     = [(Py.u "Прием: Иван Петров, терапевт", slot_start, slot_end);
        (Py.u "Прием: Иван Петров, терапевт", slot_start, slot_end)].
Proof. vm_compute. repeat split. Qed.

(** ** The model at work *)

Example strftime_sample :
  strftime_dmY_HM (738899 * day + hours 10 + minutes 30) = Py.u "15.01.2024 10:30".
Proof. vm_compute. reflexivity. Qed.

Example lower_sample : Py.lower (Py.u "Нужна ЗАПИСЬ") = Py.u "нужна запись".
Proof. vm_compute. reflexivity. Qed.

Example split_sample :
  Py.split1 Py.comma (Py.u "Иван Петров, болит горло, температура")
  = [Py.u "Иван Петров"; Py.u " болит горло, температура"].
Proof. vm_compute. reflexivity. Qed.

Example strip_sample : Py.strip (Py.u "  болит горло ") = Py.u "болит горло".
Proof. vm_compute. reflexivity. Qed.

(** The phrase of the sample dialogue does not contain either keyword:
    "записаться" is not "запись". *)
Example enrol_phrase_lacks_keyword :
  Webhook.mentions_booking (Py.u "Записаться к врачу") = false.
Proof. vm_compute. reflexivity. Qed.

(** A details message that names the symptoms as such is booked by
    app-webhook.py under the full name, three hours ahead. *)
Example webhook_books_details_with_keyword :
  let r := Webhook.generate_response Samples.env_ok Samples.details_with_keyword
             [] (set_step (Some 1) Samples.fresh) in
  fst r = mkGenerated []
            (Some (Py.u "Предварительная запись к терапевт на 15.01.2024 13:30 создана. Ожидайте подтверждения."))
  /\ map (fun ie => summary (snd ie)) (events (snd r))
     = [Py.u "Прием: Иван Петров, терапевт"]
  /\ routed (snd r) = [Py.u "симптомы: болит горло и температура"]
  /\ posts (snd r) = [pending_confirmation 0]
  /\ step (snd r) = Some 0.
Proof. vm_compute. repeat split. Qed.

(** * Further properties of the code *)

(** ** The confirmation dispatch, whatever the endpoint does *)

Lemma attempt_outcome env id w :
  let r := Webhook.send_webhook_confirmation_wrapped env id w in
  (fst r = inr tt \/ fst r = inl RequestException)
  /\ (exists n, (n <= 1)%nat
        /\ posts (snd r) = posts w ++ repeat (pending_confirmation id) n
        /\ (Webhook.webhook_unset env = false -> n = 1%nat))
  /\ slept (snd r) = slept w /\ events (snd r) = events w.
Proof.
  cbv zeta. unfold Webhook.send_webhook_confirmation_wrapped.
  destruct (Webhook.webhook_unset env) eqn:Hu.
  - cbv [logger modify]. cbn [fst snd]. split; [left; reflexivity |].
    split; [| split; reflexivity].
    exists 0%nat. cbn [repeat]. rewrite app_nil_r.
    repeat split; [lia | discriminate].
  - unfold try_except, bind, Requests.post.
    destruct (endpoint env (List.length (posts w))) as [| c].
    + cbv [logger modify raise]. cbn [fst snd]. split; [right; reflexivity |].
      split; [| split; reflexivity].
      exists 1%nat. repeat split; lia.
    + unfold Requests.raise_for_status.
      destruct ((400 <=? c) && (c <? 600));
        cbv [logger modify raise ret]; cbn [fst snd];
        (split; [first [left; reflexivity | right; reflexivity] |]);
        (split; [| split; reflexivity]);
        exists 1%nat; repeat split; lia.
Qed.

Lemma retrying_outcome env id wait :
  0 <= wait ->
  forall k w,
    let r := Tenacity.retrying k wait
               (Webhook.send_webhook_confirmation_wrapped env id) w in
    (fst r = inr tt \/ fst r = inl RetryError)
    /\ (exists n, (n <= S k)%nat
          /\ posts (snd r) = posts w ++ repeat (pending_confirmation id) n
          /\ (Webhook.webhook_unset env = false -> (1 <= n)%nat))
    /\ slept w <= slept (snd r) <= slept w + Z.of_nat k * wait
    /\ events (snd r) = events w.
Proof.
  intros Hwait. induction k as [| k IH]; intro w; cbv zeta;
    destruct (attempt_outcome env id w) as (Hr & (n & Hn & Hp & Hn1) & Hs & He);
    cbn [Tenacity.retrying];
    destruct (Webhook.send_webhook_confirmation_wrapped env id w)
      as [[e | []] w1]; cbn [fst snd] in *.
  - split; [right; reflexivity |].
    split; [exists n; repeat split; [lia | exact Hp | intro H; rewrite (Hn1 H); lia] |].
    split; [lia | exact He].
  - split; [left; reflexivity |].
    split; [exists n; repeat split; [lia | exact Hp | intro H; rewrite (Hn1 H); lia] |].
    split; [lia | exact He].
  - remember (set_slept (slept w1 + wait) w1) as w2 eqn:E2.
    assert (F : posts w2 = posts w1 /\ slept w2 = slept w1 + wait
                /\ events w2 = events w1) by (subst w2; repeat split).
    destruct F as (P2 & S2 & V2).
    destruct (IH w2) as (Hr' & (m & Hm & Hp' & Hm1) & Hs' & He').
    rewrite P2 in Hp'. rewrite S2 in Hs'. rewrite V2 in He'.
    split; [exact Hr' |].
    split.
    + exists (n + m)%nat. split; [lia |]. split.
      * rewrite Hp', Hp, repeat_app, app_assoc. reflexivity.
      * intro H. specialize (Hn1 H). lia.
    + split; [| rewrite He'; exact He].
      rewrite Nat2Z.inj_succ. lia.
  - split; [left; reflexivity |].
    split; [exists n; repeat split; [lia | exact Hp | intro H; rewrite (Hn1 H); lia] |].
    split; [| exact He].
    rewrite Nat2Z.inj_succ. nia.
Qed.

(** X1: an endpoint of any behaviour never gets more than 3 POSTs for one
    dispatch, and at least one when the URL is configured; every POST carries
    the id of this event with the status "pending_confirmation"; the dispatch
    sleeps 4 seconds at most, never touches the calendar, and either returns
    or raises [RetryError]: the error of a single attempt never escapes. *)
Theorem dispatch_is_bounded :
  forall env id w,
    let r := Webhook.send_webhook_confirmation env id w in
    (fst r = inr tt \/ fst r = inl RetryError)
    /\ (exists n, (n <= 3)%nat
          /\ posts (snd r) = posts w ++ repeat (mkPayload id (Py.u "pending_confirmation")) n
          /\ (Webhook.webhook_unset env = false -> (1 <= n)%nat))
    /\ slept w <= slept (snd r) <= slept w + 4
    /\ events (snd r) = events w.
Proof.
  intros env id w.
  assert (H2 : 0 <= 2) by lia.
  exact (retrying_outcome env id 2 H2 2%nat w).
Qed.

(** X2: with no webhook URL configured (the variable unset or empty) the
    dispatch succeeds at once: nothing is posted, nothing is retried, no
    sleep; a warning is the only trace. *)
Theorem dispatch_skipped_without_url :
  forall env id w,
    Webhook.webhook_unset env = true ->
    Webhook.send_webhook_confirmation env id w
    = (inr tt,
       set_log (log w ++ [LogWarning
                            (Py.u "WEBHOOK_URL не настроен, пропускаем подтверждение")])
               w).
Proof.
  intros env id w H.
  unfold Webhook.send_webhook_confirmation, Tenacity.retry, Webhook.MAX_RETRIES.
  cbn [Nat.sub Tenacity.retrying].
  unfold Webhook.send_webhook_confirmation_wrapped. rewrite H. reflexivity.
Qed.

Lemma dispatch_skipped_witness :
  Webhook.webhook_unset Samples.env_no_webhook = true
  /\ fst (Webhook.send_webhook_confirmation Samples.env_no_webhook 0 Samples.fresh)
     = inr tt
  /\ posts (snd (Webhook.send_webhook_confirmation Samples.env_no_webhook 0
                   Samples.fresh)) = [].
Proof.
  assert (H : Webhook.webhook_unset Samples.env_no_webhook = true) by reflexivity.
  split; [exact H |].
  rewrite (dispatch_skipped_without_url Samples.env_no_webhook 0 Samples.fresh H).
  split; reflexivity.
Defined.

Lemma retrying_delivers env id wait :
  Webhook.webhook_unset env = false ->
  forall j k w,
    (j <= k)%nat ->
    (forall i, (i < j)%nat ->
       attempt_fails (endpoint env (List.length (posts w) + i)) = true) ->
    attempt_fails (endpoint env (List.length (posts w) + j)) = false ->
    exists w',
      Tenacity.retrying k wait (Webhook.send_webhook_confirmation_wrapped env id) w
      = (inr tt, w')
      /\ posts w' = posts w ++ repeat (pending_confirmation id) (S j)
      /\ slept w' = slept w + Z.of_nat j * wait
      /\ events w' = events w.
Proof.
  intros Hu. induction j as [| j IH]; intros k w Hjk Hfail Hok.
  - rewrite Nat.add_0_r in Hok.
    destruct (endpoint env (List.length (posts w))) as [| c] eqn:Ee;
      [discriminate Hok |].
    pose proof (delivered_attempt env id w c Hu Ee Hok) as D.
    eexists. split.
    + destruct k; cbn [Tenacity.retrying]; rewrite D; reflexivity.
    + cbn [posts slept events set_log set_posts]. unfold set_log, set_posts.
      cbn [posts slept events]. repeat split. lia.
  - destruct k as [| k]; [lia |].
    assert (F0 : attempt_fails (endpoint env (List.length (posts w))) = true).
    { specialize (Hfail 0%nat). rewrite Nat.add_0_r in Hfail. apply Hfail. lia. }
    cbn [Tenacity.retrying]. rewrite (failed_attempt env id w Hu F0).
    destruct (IH k (set_slept (slept (after_failed_attempt id w) + wait)
                      (after_failed_attempt id w))) as (w' & E & Hp & Hs & He).
    + lia.
    + intros i Hi. cbn. rewrite length_app. cbn [List.length].
      replace (List.length (posts w) + 1 + i)%nat
        with (List.length (posts w) + S i)%nat by lia.
      apply Hfail. lia.
    + cbn. rewrite length_app. cbn [List.length].
      replace (List.length (posts w) + 1 + j)%nat
        with (List.length (posts w) + S j)%nat by lia.
      exact Hok.
    + exists w'. split; [exact E |].
      rewrite Hp, Hs, He. cbn [posts slept events after_failed_attempt set_slept].
      unfold after_failed_attempt, set_slept, set_log, set_posts.
      cbn [posts slept events]. repeat split.
      * rewrite <- app_assoc. reflexivity.
      * rewrite Nat2Z.inj_succ. lia.
Qed.

(** X3: the first delivered attempt ends the dispatch.  If the endpoint
    fails the first [j] attempts (a network error or a 4xx/5xx status), with
    [j] at most 2, and accepts the next, the dispatch returns normally after
    exactly [j + 1] POSTs and [2 j] seconds of sleep. *)
Theorem dispatch_stops_at_first_delivery :
  forall env id w j,
    Webhook.webhook_unset env = false ->
    (j <= 2)%nat ->
    (forall i, (i < j)%nat ->
       attempt_fails (endpoint env (List.length (posts w) + i)) = true) ->
    attempt_fails (endpoint env (List.length (posts w) + j)) = false ->
    let r := Webhook.send_webhook_confirmation env id w in
    fst r = inr tt
    /\ posts (snd r) = posts w ++ repeat (pending_confirmation id) (S j)
    /\ slept (snd r) = slept w + 2 * Z.of_nat j
    /\ events (snd r) = events w.
Proof.
  intros env id w j Hu Hj Hfail Hok.
  destruct (retrying_delivers env id 2 Hu j 2%nat w Hj Hfail Hok)
    as (w' & E & Hp & Hs & He).
  unfold Webhook.send_webhook_confirmation, Tenacity.retry, Webhook.MAX_RETRIES.
  cbn [Nat.sub]. cbv zeta. rewrite E. cbn [fst snd].
  repeat split; [exact Hp | lia | exact He].
Qed.

Lemma dispatch_stops_witness :
  fst (Webhook.send_webhook_confirmation Samples.env_flaky 0 Samples.fresh) = inr tt
  /\ List.length
       (posts (snd (Webhook.send_webhook_confirmation Samples.env_flaky 0
                      Samples.fresh))) = 3%nat
  /\ slept (snd (Webhook.send_webhook_confirmation Samples.env_flaky 0 Samples.fresh))
     = 4.
Proof.
  destruct (dispatch_stops_at_first_delivery Samples.env_flaky 0 Samples.fresh 2%nat)
    as (R & P & S & _).
  - reflexivity.
  - lia.
  - intros i Hi. destruct i as [| [| i]]; [reflexivity | reflexivity | lia].
  - reflexivity.
  - split; [exact R |]. split; [rewrite P; reflexivity | rewrite S; reflexivity].
Defined.

(** ** The duplicate check, read off the calendar *)

(** X4: with the calendar reachable, the duplicate check answers true
    exactly when the calendar holds an event that ends after [time], starts
    before [time + 30 min] and is selected by the query "Прием: <name>";
    however many such events there are, and the world is left as it was. *)
Theorem duplicate_check_finds_overlapping_event :
  forall env name time w,
    credentials_fault env = None ->
    list_fault env = None ->
    bookable_at time ->
    snd (Webhook.check_duplicate_event env name time w) = w
    /\ (fst (Webhook.check_duplicate_event env name time w) = inr true
        <-> exists id e,
              In (id, e) (events w)
              /\ time < end_dateTime e
              /\ start_dateTime e < time + minutes 30
              /\ q_matches env (Py.u "Прием: " +++ name) e = true)
    /\ (fst (Webhook.check_duplicate_event env name time w) = inr true
        \/ fst (Webhook.check_duplicate_event env name time w) = inr false).
Proof.
  intros env name time w Hc Hl Ht.
  rewrite (check_duplicate_event_reports env name time w Hc Hl Ht).
  cbn [fst snd]. split; [reflexivity |]. split.
  - unfold reserved. split.
    + intro H. injection H as H. apply existsb_exists in H.
      destruct H as ([id e] & Hin & Hb). cbn [snd] in Hb.
      apply andb_prop in Hb. destruct Hb as [Ho Hq].
      unfold CalendarService.overlaps in Ho.
      apply andb_prop in Ho. destruct Ho as [H1 H2].
      apply Z.ltb_lt in H1. apply Z.ltb_lt in H2.
      exists id, e. repeat split; assumption.
    + intros (id & e & Hin & H1 & H2 & Hq).
      f_equal. apply existsb_exists. exists (id, e). split; [exact Hin |].
      cbn [snd]. unfold CalendarService.overlaps.
      apply Z.ltb_lt in H1. apply Z.ltb_lt in H2.
      rewrite H1, H2, Hq. reflexivity.
  - destruct (reserved env name time (time + minutes 30) w);
      [left | right]; reflexivity.
Qed.

Lemma duplicate_check_finds_witness :
  fst (Webhook.check_duplicate_event Samples.env_ok Samples.ivan Samples.t0
         Samples.earlier_booking) = inr true.
Proof.
  assert (B : bookable_at Samples.t0) by (split; vm_compute; discriminate).
  destruct (duplicate_check_finds_overlapping_event Samples.env_ok Samples.ivan
              Samples.t0 Samples.earlier_booking eq_refl eq_refl B)
    as (_ & [_ Found] & _).
  apply Found.
  exists 0, (webhook_event Samples.ivan Samples.therapist Samples.sore_throat
               (Samples.t0 - hours 3)).
  split; [left; reflexivity |].
  repeat split; vm_compute; reflexivity.
Defined.

(** X5: the duplicate check is a read that logs what it swallows.  When
    the query raises an [HttpError] the check returns false and appends
    exactly one error record to the log; when it raises anything else the
    exception leaves the check with the world as it was; when it raises
    nothing the world is as it was and the answer is true or false.  In
    every case the step, the clock, the calendar, the posts, the router's
    record and the sleep are untouched. *)
Theorem duplicate_check_only_reads :
  forall env name time w,
    let r := Webhook.check_duplicate_event env name time w in
    let logged :=
      set_log (log w ++ [LogError (Py.u "Ошибка проверки дубликатов") HttpError]) w in
    (raised_by_query env time = Some HttpError -> r = (inr false, logged))
    /\ (forall e, raised_by_query env time = Some e -> is_HttpError e = false ->
          r = (inl e, w))
    /\ (raised_by_query env time = None ->
        snd r = w /\ (fst r = inr true \/ fst r = inr false))
    /\ (step (snd r) = step w /\ ticks (snd r) = ticks w
        /\ events (snd r) = events w /\ posts (snd r) = posts w
        /\ routed (snd r) = routed w /\ slept (snd r) = slept w).
Proof.
  intros env name time w. cbv zeta.
  rewrite check_duplicate_event_cases. cbv zeta. unfold raised_by_query.
  destruct (credentials_fault env) as [e |].
  - split; [intro H; injection H as ->; reflexivity |].
    split; [intros e' H He; injection H as ->; rewrite He; reflexivity |].
    split; [intro H; discriminate H |].
    destruct e; repeat split.
  - destruct (DateTime.add time (minutes 30)) as [e | timeMax].
    + split; [intro H; injection H as ->; reflexivity |].
      split; [intros e' H He; injection H as ->; rewrite He; reflexivity |].
      split; [intro H; discriminate H |].
      destruct e; repeat split.
    + destruct (list_fault env) as [e |].
      * split; [intro H; injection H as ->; reflexivity |].
        split; [intros e' H He; injection H as ->; rewrite He; reflexivity |].
        split; [intro H; discriminate H |].
        destruct e; repeat split.
      * split; [intro H; discriminate H |].
        split; [intros e' H; discriminate H |].
        split; [| repeat split].
        intros _. split; [reflexivity |].
        destruct (reserved env name time timeMax w); [left | right]; reflexivity.
Qed.

Lemma duplicate_check_only_reads_witness :
  raised_by_query Samples.env_read_http_error Samples.t0 = Some HttpError
  /\ log (snd (Webhook.check_duplicate_event Samples.env_read_http_error
                 Samples.ivan Samples.t0 Samples.fresh))
     = [LogError (Py.u "Ошибка проверки дубликатов") HttpError].
Proof.
  assert (H : raised_by_query Samples.env_read_http_error Samples.t0
              = Some HttpError) by (vm_compute; reflexivity).
  destruct (duplicate_check_only_reads Samples.env_read_http_error Samples.ivan
              Samples.t0 Samples.fresh) as (Swallowed & _).
  split; [exact H |]. rewrite (Swallowed H). reflexivity.
Defined.

(** ** Every way a booking can end, in app-webhook.py *)

Ltac pick_reply :=
  match goal with
  | |- ?x = ?x => reflexivity
  | |- ?x = ?x \/ _ => left; reflexivity
  | |- _ \/ ?x = ?x => right; reflexivity
  | |- _ \/ ?x = ?x \/ _ => right; left; reflexivity
  | |- _ \/ _ \/ ?x = ?x => right; right; reflexivity
  end.

Ltac nothing_written Pe Pp :=
  split; [exact Pe | split; [exact Pp | pick_reply]].

Ltac settle_leaf Ew :=
  cbv beta iota in Ew;
  cbv [is_HttpError bind logger modify ret raise] in Ew;
  rewrite Ew;
  unfold set_log, set_routed, set_ticks, set_events;
  cbn [fst snd events posts routed ticks step].

Lemma schedule_webhook_outcomes env name symptoms w :
  let r := Webhook.schedule_appointment env name symptoms w in
  let t' := clock env (S (ticks w)) in
  let id := Z.of_nat (List.length (events w)) in
  (events (snd r) = events w /\ posts (snd r) = posts w
   /\ (fst r = inr (Some Webhook.DUPLICATE)
       \/ fst r = inr (Some Webhook.CONNECTION_ERROR)
       \/ fst r = inr None))
  \/ (exists specialist,
        define_specialist env symptoms = inr specialist
        /\ events (snd r)
           = events w ++ [(id, webhook_event name specialist symptoms t')]
        /\ (exists n, (n <= 3)%nat
              /\ posts (snd r) = posts w ++ repeat (pending_confirmation id) n
              /\ (Webhook.webhook_unset env = false -> (1 <= n)%nat))
        /\ (fst r = inr (Some (Webhook.PENDING specialist (t' + hours 3)))
            \/ fst r = inr None)).
Proof.
  cbv zeta.
  remember (Webhook.schedule_appointment env name symptoms w) as rw eqn:Ew.
  unfold Webhook.schedule_appointment, try_except in Ew.
  rewrite (bind_inr (now env) _ w _ _ eq_refl) in Ew.
  pose proof (check_duplicate_preserves events env name (clock env (ticks w))
                (fun _ _ => eq_refl) (set_ticks (S (ticks w)) w)) as Pe.
  pose proof (check_duplicate_preserves posts env name (clock env (ticks w))
                (fun _ _ => eq_refl) (set_ticks (S (ticks w)) w)) as Pp.
  pose proof (check_duplicate_preserves ticks env name (clock env (ticks w))
                (fun _ _ => eq_refl) (set_ticks (S (ticks w)) w)) as Pt.
  rewrite bind_unfold in Ew.
  destruct (Webhook.check_duplicate_event env name (clock env (ticks w))
              (set_ticks (S (ticks w)) w)) as [[e | [|]] w1];
    unfold set_ticks in Pe, Pp, Pt; cbn [fst snd events posts ticks] in Pe, Pp, Pt.
  - left. destruct e; settle_leaf Ew; nothing_written Pe Pp.
  - left. settle_leaf Ew. nothing_written Pe Pp.
  - rewrite bind_unfold in Ew. unfold Webhook.route at 1 in Ew.
    destruct (define_specialist env symptoms) as [e | specialist].
    { left. destruct e; settle_leaf Ew; nothing_written Pe Pp. }
    rewrite (bind_inr (now env) _ _ _ _ eq_refl) in Ew.
    unfold set_routed, set_ticks in Ew; cbn [ticks] in Ew.
    rewrite bind_unfold in Ew. unfold dt_add at 1, lift in Ew.
    destruct (DateTime.add (clock env (ticks w1)) (hours 3))
      as [e | appointment_time] eqn:Ea.
    { left. destruct e; settle_leaf Ew; nothing_written Pe Pp. }
    apply add_value in Ea. rewrite Pt in Ea.
    rewrite bind_unfold in Ew. unfold Webhook.get_calendar_service at 1 in Ew.
    destruct (credentials_fault env) as [e |].
    { left. destruct e; settle_leaf Ew; nothing_written Pe Pp. }
    cbn [ret] in Ew. rewrite bind_unfold in Ew. unfold dt_add at 1, lift in Ew.
    destruct (DateTime.add appointment_time (minutes 30)) as [e | end_time] eqn:Ee.
    { left. destruct e; settle_leaf Ew; nothing_written Pe Pp. }
    apply add_value in Ee.
    rewrite bind_unfold in Ew. unfold CalendarService.events_insert at 1 in Ew.
    destruct (insert_fault env) as [e |].
    { left. destruct e; settle_leaf Ew; nothing_written Pe Pp. }
    unfold set_events in Ew; cbn [events] in Ew.
    rewrite bind_unfold in Ew.
    match type of Ew with
    | context [Webhook.send_webhook_confirmation env ?i ?w0] =>
        pose proof (retrying_outcome env i 2 ltac:(lia) 2%nat w0)
          as (Hr & (n & Hn & Hp & Hn1) & _ & Hev);
        change (Tenacity.retrying 2 2 (Webhook.send_webhook_confirmation_wrapped env i) w0)
          with (Webhook.send_webhook_confirmation env i w0) in Hr, Hp, Hev;
        destruct (Webhook.send_webhook_confirmation env i w0) as [[e | []] w4]
    end; cbn [fst snd events posts] in Hr, Hp, Hev.
    + right. exists specialist. split; [reflexivity |].
      destruct Hr as [Hr | Hr]; [discriminate Hr |]. injection Hr as ->.
      settle_leaf Ew. rewrite Hev, Hp, Pe, Pp. subst appointment_time end_time.
      split; [reflexivity |].
      split; [exists n; repeat split; assumption |].
      pick_reply.
    + right. exists specialist. split; [reflexivity |].
      settle_leaf Ew. rewrite Hev, Hp, Pe, Pp. subst appointment_time end_time.
      split; [reflexivity |].
      split; [exists n; repeat split; assumption |].
      pick_reply.
Qed.

Lemma pending_starts_differently specialist t :
  Webhook.PENDING specialist t <> Webhook.DUPLICATE
  /\ Webhook.PENDING specialist t <> Webhook.CONNECTION_ERROR.
Proof.
  assert (H : hd 0 (Webhook.PENDING specialist t) = 1055) by reflexivity.
  split; intro E; rewrite E in H; vm_compute in H; discriminate H.
Qed.

(** X6: [schedule_appointment] of app-webhook.py never raises, and its
    reply can be trusted in this much: after the duplicate reply or the
    connection-error reply nothing was written to the calendar and nothing
    was posted; any other reply string is the pending-confirmation message
    for the specialist the router named and the time 3 hours after the
    clock reading, and exactly the event it announces was added. *)
Theorem webhook_reply_tells_what_was_written :
  forall env name symptoms w,
    let r := Webhook.schedule_appointment env name symptoms w in
    (exists reply, fst r = inr reply)
    /\ (fst r = inr (Some Webhook.DUPLICATE)
        \/ fst r = inr (Some Webhook.CONNECTION_ERROR) ->
        events (snd r) = events w /\ posts (snd r) = posts w)
    /\ (forall reply,
          fst r = inr (Some reply) ->
          reply <> Webhook.DUPLICATE -> reply <> Webhook.CONNECTION_ERROR ->
          exists specialist,
            define_specialist env symptoms = inr specialist
            /\ reply = Webhook.PENDING specialist
                         (clock env (S (ticks w)) + hours 3)
            /\ events (snd r)
               = events w ++ [(Z.of_nat (List.length (events w)),
                               webhook_event name specialist symptoms
                                 (clock env (S (ticks w))))]).
Proof.
  intros env name symptoms w. cbv zeta.
  destruct (schedule_webhook_outcomes env name symptoms w)
    as [(He & Hp & Hr) | (sp & Hsp & He & _ & Hr)].
  - split; [destruct Hr as [Hr | [Hr | Hr]]; eexists; exact Hr |].
    split; [intros _; split; assumption |].
    intros reply E Hd Hc. exfalso.
    destruct Hr as [Hr | [Hr | Hr]]; rewrite Hr in E; inversion E; subst;
      [apply Hd | apply Hc]; reflexivity.
  - destruct (pending_starts_differently sp (clock env (S (ticks w)) + hours 3))
      as [Nd Nc].
    split; [destruct Hr as [Hr | Hr]; eexists; exact Hr |].
    split.
    + intros [E | E]; exfalso; destruct Hr as [Hr | Hr]; rewrite Hr in E;
        inversion E as [E']; first [apply Nd; exact E' | apply Nc; exact E'].
    + intros reply E _ _. exists sp. split; [exact Hsp |].
      destruct Hr as [Hr | Hr]; rewrite Hr in E; inversion E; subst.
      split; [reflexivity | exact He].
Qed.

Lemma webhook_reply_witness :
  fst (Webhook.schedule_appointment Samples.env_ok Samples.ivan Samples.sore_throat
         Samples.fresh)
  = inr (Some (Webhook.PENDING Samples.therapist (Samples.t0 + hours 3)))
  /\ events (snd (Webhook.schedule_appointment Samples.env_ok Samples.ivan
                    Samples.sore_throat Samples.fresh))
     = [(0, Samples.first_event)]
  /\ (fst (Webhook.schedule_appointment Samples.env_ok Samples.ivan
             Samples.sore_throat Samples.earlier_booking)
      = inr (Some Webhook.DUPLICATE)
      /\ events (snd (Webhook.schedule_appointment Samples.env_ok Samples.ivan
                        Samples.sore_throat Samples.earlier_booking))
         = events Samples.earlier_booking).
Proof.
  assert (R : fst (Webhook.schedule_appointment Samples.env_ok Samples.ivan
                     Samples.sore_throat Samples.fresh)
              = inr (Some (Webhook.PENDING Samples.therapist
                             (Samples.t0 + hours 3))))
    by (vm_compute; reflexivity).
  assert (D : fst (Webhook.schedule_appointment Samples.env_ok Samples.ivan
                     Samples.sore_throat Samples.earlier_booking)
              = inr (Some Webhook.DUPLICATE))
    by (vm_compute; reflexivity).
  destruct (webhook_reply_tells_what_was_written Samples.env_ok Samples.ivan
              Samples.sore_throat Samples.fresh) as (_ & _ & P).
  destruct (webhook_reply_tells_what_was_written Samples.env_ok Samples.ivan
              Samples.sore_throat Samples.earlier_booking) as (_ & Q & _).
  destruct (P _ R) as (sp & Hsp & _ & He).
  - vm_compute; discriminate.
  - vm_compute; discriminate.
  - split; [exact R |]. split.
    + rewrite He. injection Hsp as <-. reflexivity.
    + split; [exact D |]. apply (Q (or_introl D)).
Defined.

(** X7: no confirmation is requested for an event that was not created.
    Every POST a booking adds carries the id the calendar gave to the event
    inserted by this very booking, with the status "pending_confirmation",
    and there are at most 3 of them. *)
Theorem posts_follow_an_insert :
  forall env name symptoms w p,
    let r := Webhook.schedule_appointment env name symptoms w in
    In p (posts (snd r)) ->
    ~ In p (posts w) ->
    p = mkPayload (Z.of_nat (List.length (events w))) (Py.u "pending_confirmation")
    /\ List.length (events (snd r)) = S (List.length (events w))
    /\ (List.length (posts (snd r)) <= List.length (posts w) + 3)%nat.
Proof.
  intros env name symptoms w p. cbv zeta. intros Hin Hnew.
  destruct (schedule_webhook_outcomes env name symptoms w)
    as [(_ & Hp & _) | (sp & _ & He & (n & Hn & Hp & _) & _)];
    rewrite Hp in Hin.
  - contradiction.
  - apply in_app_or in Hin. destruct Hin as [Hin | Hin]; [contradiction |].
    apply repeat_spec in Hin. split; [exact Hin |].
    rewrite He, Hp, !length_app, repeat_length. cbn [List.length]. lia.
Qed.

Lemma posts_follow_witness :
  In (pending_confirmation 0)
     (posts (snd (Webhook.schedule_appointment Samples.env_ok Samples.ivan
                    Samples.sore_throat Samples.fresh)))
  /\ List.length
       (events (snd (Webhook.schedule_appointment Samples.env_ok Samples.ivan
                       Samples.sore_throat Samples.fresh))) = 1%nat.
Proof.
  assert (Hin : In (pending_confirmation 0)
                  (posts (snd (Webhook.schedule_appointment Samples.env_ok
                                 Samples.ivan Samples.sore_throat Samples.fresh))))
    by (vm_compute; left; reflexivity).
  assert (Hnew : ~ In (pending_confirmation 0) (posts Samples.fresh))
    by (intros []).
  destruct (posts_follow_an_insert Samples.env_ok Samples.ivan Samples.sore_throat
              Samples.fresh (pending_confirmation 0) Hin Hnew) as (_ & L & _).
  split; [exact Hin | exact L].
Defined.

(** ** Failures and success along one booking *)

(** A check that answers false hands the booking a world in which only the
    log may have grown. *)
Lemma check_clear_run env name time n w :
  fst (Webhook.check_duplicate_event env name time w) = inr false ->
  exists w1,
    Webhook.check_duplicate_event env name time (set_ticks n w) = (inr false, w1)
    /\ events w1 = events w /\ posts w1 = posts w /\ routed w1 = routed w
    /\ ticks w1 = n /\ step w1 = step w /\ slept w1 = slept w.
Proof.
  intro H. rewrite <- (check_result_ignores_ticks env name time n w) in H.
  pose proof (check_duplicate_preserves events env name time
                (fun _ _ => eq_refl) (set_ticks n w)) as P1.
  pose proof (check_duplicate_preserves posts env name time
                (fun _ _ => eq_refl) (set_ticks n w)) as P2.
  pose proof (check_duplicate_preserves routed env name time
                (fun _ _ => eq_refl) (set_ticks n w)) as P3.
  pose proof (check_duplicate_preserves ticks env name time
                (fun _ _ => eq_refl) (set_ticks n w)) as P4.
  pose proof (check_duplicate_preserves step env name time
                (fun _ _ => eq_refl) (set_ticks n w)) as P5.
  pose proof (check_duplicate_preserves slept env name time
                (fun _ _ => eq_refl) (set_ticks n w)) as P6.
  destruct (Webhook.check_duplicate_event env name time (set_ticks n w))
    as [r w1]. cbn [fst snd] in *. subst r.
  exists w1. repeat split; assumption.
Qed.

(** X8: when the classifier raises, the booking ends before anything is
    written: no event, no POST, the clock read once.  The reply is the
    connection-error message if the exception is an [HttpError] and no reply
    at all ([None]) otherwise. *)
Theorem router_failure_writes_nothing :
  forall env name symptoms w e,
    fst (Webhook.check_duplicate_event env name (clock env (ticks w)) w)
    = inr false ->
    define_specialist env symptoms = inl e ->
    let r := Webhook.schedule_appointment env name symptoms w in
    fst r = inr (if is_HttpError e then Some Webhook.CONNECTION_ERROR else None)
    /\ events (snd r) = events w
    /\ posts (snd r) = posts w
    /\ routed (snd r) = routed w ++ [symptoms]
    /\ ticks (snd r) = S (ticks w).
Proof.
  intros env name symptoms w e Hcheck Hsp. cbv zeta.
  destruct (check_clear_run env name (clock env (ticks w)) (S (ticks w)) w Hcheck)
    as (w1 & Ec & He & Hp & Hr & Ht & _).
  unfold Webhook.schedule_appointment, try_except.
  rewrite (bind_inr (now env) _ w _ _ eq_refl).
  rewrite (bind_inr _ _ _ _ _ Ec).
  erewrite bind_inl by (unfold Webhook.route; rewrite Hsp; reflexivity).
  destruct e; cbv [is_HttpError bind logger modify ret];
    unfold set_log, set_routed; cbn [fst snd events posts routed ticks];
    rewrite He, Hp, Hr, Ht; repeat split.
Qed.

Lemma router_failure_witness :
  fst (Webhook.schedule_appointment Samples.env_router_fails Samples.ivan
         Samples.sore_throat Samples.fresh) = inr None
  /\ events (snd (Webhook.schedule_appointment Samples.env_router_fails Samples.ivan
                    Samples.sore_throat Samples.fresh)) = [].
Proof.
  destruct (router_failure_writes_nothing Samples.env_router_fails Samples.ivan
              Samples.sore_throat Samples.fresh OtherException)
    as (R & E & _).
  - vm_compute; reflexivity.
  - reflexivity.
  - split; [exact R | exact E].
Defined.

(** X9: when the calendar refuses the insert, no confirmation is
    dispatched and the calendar is as before; the user is told of a
    connection error if the refusal is an [HttpError], and gets no reply
    ([None]) for any other exception. *)
Theorem insert_failure_dispatches_nothing :
  forall env name symptoms specialist w e,
    fst (Webhook.check_duplicate_event env name (clock env (ticks w)) w)
    = inr false ->
    define_specialist env symptoms = inr specialist ->
    bookable_at (clock env (S (ticks w))) ->
    credentials_fault env = None ->
    insert_fault env = Some e ->
    let r := Webhook.schedule_appointment env name symptoms w in
    fst r = inr (if is_HttpError e then Some Webhook.CONNECTION_ERROR else None)
    /\ events (snd r) = events w
    /\ posts (snd r) = posts w
    /\ slept (snd r) = slept w.
Proof.
  intros env name symptoms specialist w e Hcheck Hsp Ht' Hc Hi. cbv zeta.
  destruct (check_clear_run env name (clock env (ticks w)) (S (ticks w)) w Hcheck)
    as (w1 & Ec & He & Hp & Hr & Ht & _ & Hs).
  unfold Webhook.schedule_appointment, try_except.
  rewrite (bind_inr (now env) _ w _ _ eq_refl).
  rewrite (bind_inr _ _ _ _ _ Ec).
  erewrite bind_inr by (unfold Webhook.route; rewrite Hsp; reflexivity).
  erewrite bind_inr by reflexivity.
  erewrite bind_inr
    by (unfold dt_add, lift, set_routed; cbn [ticks]; rewrite Ht;
        rewrite (bookable_add_3h _ Ht'); reflexivity).
  erewrite bind_inr
    by (unfold Webhook.get_calendar_service; rewrite Hc; reflexivity).
  erewrite bind_inr
    by (unfold dt_add, lift; rewrite (bookable_add_end _ Ht'); reflexivity).
  erewrite bind_inl
    by (unfold CalendarService.events_insert; rewrite Hi; reflexivity).
  destruct e; cbv [is_HttpError bind logger modify ret];
    unfold set_log, set_routed, set_ticks;
    cbn [fst snd events posts routed ticks slept];
    rewrite He, Hp, Hs; repeat split.
Qed.

Lemma insert_failure_witness :
  fst (Webhook.schedule_appointment Samples.env_insert_refused Samples.ivan
         Samples.sore_throat Samples.fresh) = inr (Some Webhook.CONNECTION_ERROR)
  /\ posts (snd (Webhook.schedule_appointment Samples.env_insert_refused
                   Samples.ivan Samples.sore_throat Samples.fresh)) = [].
Proof.
  assert (B : bookable_at Samples.t0) by (split; vm_compute; discriminate).
  destruct (insert_failure_dispatches_nothing Samples.env_insert_refused
              Samples.ivan Samples.sore_throat Samples.therapist Samples.fresh
              HttpError) as (R & _ & P & _).
  - vm_compute; reflexivity.
  - reflexivity.
  - exact B.
  - reflexivity.
  - reflexivity.
  - split; [exact R | exact P].
Defined.

(** What the dispatch does when it is skipped or delivered at once. *)
Lemma dispatch_at_once env id w :
  Webhook.webhook_unset env = true
  \/ attempt_fails (endpoint env (List.length (posts w))) = false ->
  exists w',
    Webhook.send_webhook_confirmation env id w = (inr tt, w')
    /\ events w' = events w /\ step w' = step w
    /\ posts w' = posts w ++ (if Webhook.webhook_unset env then []
                              else [pending_confirmation id]).
Proof.
  intros H. destruct (Webhook.webhook_unset env) eqn:Hu.
  - eexists. split.
    + unfold Webhook.send_webhook_confirmation, Tenacity.retry, Webhook.MAX_RETRIES.
      cbn [Nat.sub Tenacity.retrying].
      unfold Webhook.send_webhook_confirmation_wrapped. rewrite Hu. reflexivity.
    + unfold set_log. cbn [events step posts]. rewrite app_nil_r. repeat split.
  - destruct H as [H | H]; [discriminate H |].
    destruct (retrying_delivers env id 2 Hu 0%nat 2%nat w) as (w' & E & Hp & _ & He).
    + lia.
    + intros i Hi. lia.
    + rewrite Nat.add_0_r. exact H.
    + pose proof (send_webhook_preserves step env id
                    (fun _ _ => eq_refl) (fun _ _ => eq_refl) (fun _ _ => eq_refl) w)
        as Ps.
      exists w'. split; [exact E |].
      unfold Webhook.send_webhook_confirmation, Tenacity.retry, Webhook.MAX_RETRIES in Ps.
      cbn [Nat.sub] in Ps. rewrite E in Ps. cbn [snd] in Ps.
      repeat split; assumption.
Qed.

Lemma schedule_webhook_happy :
  forall env name symptoms specialist w,
    fst (Webhook.check_duplicate_event env name (clock env (ticks w)) w)
    = inr false ->
    define_specialist env symptoms = inr specialist ->
    bookable_at (clock env (S (ticks w))) ->
    credentials_fault env = None ->
    insert_fault env = None ->
    Webhook.webhook_unset env = true
    \/ attempt_fails (endpoint env (List.length (posts w))) = false ->
    let r := Webhook.schedule_appointment env name symptoms w in
    let id := Z.of_nat (List.length (events w)) in
    fst r = inr (Some (Webhook.PENDING specialist
                         (clock env (S (ticks w)) + hours 3)))
    /\ events (snd r)
       = events w ++ [(id, webhook_event name specialist symptoms
                             (clock env (S (ticks w))))]
    /\ posts (snd r)
       = posts w ++ (if Webhook.webhook_unset env then []
                     else [pending_confirmation id])
    /\ step (snd r) = step w.
Proof.
  intros env name symptoms specialist w Hcheck Hsp Ht' Hc Hi Hd. cbv zeta.
  destruct (check_clear_run env name (clock env (ticks w)) (S (ticks w)) w Hcheck)
    as (w1 & Ec & He & Hp & Hr & Ht & Hst & _).
  unfold Webhook.schedule_appointment, try_except.
  rewrite (bind_inr (now env) _ w _ _ eq_refl).
  rewrite (bind_inr _ _ _ _ _ Ec).
  erewrite bind_inr by (unfold Webhook.route; rewrite Hsp; reflexivity).
  erewrite bind_inr by reflexivity.
  erewrite bind_inr
    by (unfold dt_add, lift, set_routed; cbn [ticks]; rewrite Ht;
        rewrite (bookable_add_3h _ Ht'); reflexivity).
  erewrite bind_inr
    by (unfold Webhook.get_calendar_service; rewrite Hc; reflexivity).
  erewrite bind_inr
    by (unfold dt_add, lift; rewrite (bookable_add_end _ Ht'); reflexivity).
  erewrite bind_inr
    by (unfold CalendarService.events_insert; rewrite Hi; reflexivity).
  match goal with
  | |- context [bind (Webhook.send_webhook_confirmation env ?i) _ ?w0] =>
      destruct (dispatch_at_once env i w0) as (w' & E & Hev & Hstep & Hposts)
  end.
  { destruct Hd as [Hd | Hd]; [left; exact Hd | right].
    unfold set_events, set_ticks, set_routed. cbn [posts]. rewrite Hp. exact Hd. }
  erewrite bind_inr by exact E.
  unfold set_events, set_ticks, set_routed in Hev, Hstep, Hposts.
  cbn [events posts step] in Hev, Hstep, Hposts.
  cbv [ret]. cbn [fst snd].
  rewrite Hev, Hposts, Hstep, He, Hp, Hst. repeat split.
Qed.

(** X10: the booking that goes well.  With no duplicate found, the
    classifier answering, the calendar reachable and the confirmation either
    not configured or accepted at the first attempt, the reply is the
    pending-confirmation message for that specialist and the time 3 hours
    after the clock reading; the calendar gains exactly the event for this
    name, specialist and symptoms; one POST is made, or none without a URL;
    the step is not touched. *)
Theorem booking_succeeds :
  forall env name symptoms specialist w,
    fst (Webhook.check_duplicate_event env name (clock env (ticks w)) w)
    = inr false ->
    define_specialist env symptoms = inr specialist ->
    bookable_at (clock env (S (ticks w))) ->
    credentials_fault env = None ->
    insert_fault env = None ->
    Webhook.webhook_unset env = true
    \/ attempt_fails (endpoint env (List.length (posts w))) = false ->
    let r := Webhook.schedule_appointment env name symptoms w in
    let id := Z.of_nat (List.length (events w)) in
    fst r = inr (Some (Webhook.PENDING specialist
                         (clock env (S (ticks w)) + hours 3)))
    /\ events (snd r)
       = events w ++ [(id, webhook_event name specialist symptoms
                             (clock env (S (ticks w))))]
    /\ posts (snd r)
       = posts w ++ (if Webhook.webhook_unset env then []
                     else [pending_confirmation id])
    /\ step (snd r) = step w.
Proof.
  intros env name symptoms specialist w Hcheck Hsp Ht' Hc Hi Hd.
  exact (schedule_webhook_happy env name symptoms specialist w
           Hcheck Hsp Ht' Hc Hi Hd).
Qed.

Lemma booking_succeeds_witness :
  fst (Webhook.schedule_appointment Samples.env_no_webhook Samples.ivan
         Samples.sore_throat Samples.fresh)
  = inr (Some (Webhook.PENDING Samples.therapist (Samples.t0 + hours 3)))
  /\ posts (snd (Webhook.schedule_appointment Samples.env_no_webhook Samples.ivan
                   Samples.sore_throat Samples.fresh)) = [].
Proof.
  assert (B : bookable_at Samples.t0) by (split; vm_compute; discriminate).
  destruct (booking_succeeds Samples.env_no_webhook Samples.ivan Samples.sore_throat
              Samples.therapist Samples.fresh) as (R & _ & P & _).
  - vm_compute; reflexivity.
  - reflexivity.
  - exact B.
  - reflexivity.
  - reflexivity.
  - left; reflexivity.
  - split; [exact R | exact P].
Defined.

(** ** Parsing the details *)

Lemma split1_absent sep s : has sep s = false -> Py.split1 sep s = [s].
Proof.
  induction s as [| c s IH]; intro H; [reflexivity |].
  unfold has in H. cbn [existsb] in H. apply orb_false_elim in H.
  destruct H as [Hc Hs]. cbn [Py.split1].
  rewrite Z.eqb_sym, Hc. rewrite (IH Hs). reflexivity.
Qed.

Lemma split1_present sep s :
  has sep s = true ->
  exists a b, Py.split1 sep s = [a; b] /\ s = a ++ sep :: b /\ has sep a = false.
Proof.
  induction s as [| c s IH]; intro H; [discriminate H |].
  unfold has in H. cbn [existsb] in H. cbn [Py.split1].
  destruct (Z.eqb_spec c sep) as [-> | Hne].
  - exists [], s. repeat split.
  - rewrite Z.eqb_sym in H. apply Z.eqb_neq in Hne. rewrite Hne in H.
    cbn [orb] in H. destruct (IH H) as (a & b & E & -> & Ha).
    exists (c :: a), b. rewrite E. repeat split.
    unfold has. cbn [existsb]. rewrite Z.eqb_sym, Hne. exact Ha.
Qed.

Lemma webhook_idle_turn env message history w :
  Webhook.mentions_booking message = true ->
  step w = None \/ step w = Some 0 ->
  Webhook.generate_response env message history w
  = (mkGenerated [] (Some Webhook.ASK_DETAILS), set_step (Some 1) w).
Proof.
  intros H Hs. unfold Webhook.generate_response, Webhook.generate_response_try.
  rewrite H. unfold Webhook.init_step, Webhook.step_is.
  destruct w as [st tk ev ps sl rt pr lg]. cbn [step] in Hs.
  destruct Hs as [-> | ->]; reflexivity.
Qed.

Lemma webhook_details_turn env message history w :
  Webhook.mentions_booking message = true ->
  step w = Some 1 ->
  Webhook.generate_response env message history w
  = match Py.split1 Py.comma message with
    | a :: b :: _ =>
        let r := Webhook.schedule_appointment env (Py.strip a) (Py.strip b)
                   (set_step (Some 0) w) in
        match fst r with
        | inr response =>
            (mkGenerated [] (Some (or_else response Webhook.APOLOGY)), snd r)
        | inl e =>
            (mkGenerated [Webhook.INTERNAL_ERROR] None,
             set_log (log (snd r) ++ [LogError (Py.u "Ошибка генерации") e]) (snd r))
        end
    | _ => (mkGenerated [] (Some Webhook.BAD_FORMAT), set_step (Some 0) w)
    end.
Proof.
  intros H Hs. unfold Webhook.generate_response, Webhook.generate_response_try.
  rewrite H. unfold Webhook.init_step, Webhook.step_is.
  destruct w as [st tk ev ps sl rt pr lg]. cbn [step] in Hs. subst st.
  unfold set_step. cbn [step ticks events posts slept routed prompts log Z.eqb Pos.eqb].
  destruct (Py.split1 Py.comma message) as [| a [| b rest]];
    cbn [List.length Nat.ltb Nat.leb nth]; try reflexivity.
  cbv zeta.
  destruct (Webhook.schedule_appointment env (Py.strip a) (Py.strip b)
              (mkWorld (Some 0) tk ev ps sl rt pr lg)) as [[e | response] w'];
    reflexivity.
Qed.

(** X11: a details message without a comma is refused, not booked.  At
    step 1, a message that mentions a booking but has no comma gets the
    format-error string; the step goes back to 0 all the same, and nothing
    else changes: the clock is not read, the router and the calendar are
    not called. *)
Theorem details_without_comma_are_refused :
  forall env message history w,
    Webhook.mentions_booking message = true ->
    step w = Some 1 ->
    has Py.comma message = false ->
    Webhook.generate_response env message history w
    = (mkGenerated [] (Some Webhook.BAD_FORMAT), set_step (Some 0) w).
Proof.
  intros env message history w H Hs Hc.
  rewrite (webhook_details_turn env message history w H Hs).
  rewrite (split1_absent Py.comma message Hc). reflexivity.
Qed.

Lemma details_without_comma_witness :
  Webhook.generate_response Samples.env_ok Samples.no_comma_details []
    Samples.awaiting
  = (mkGenerated [] (Some Webhook.BAD_FORMAT), Samples.idle).
Proof.
  rewrite (details_without_comma_are_refused Samples.env_ok
             Samples.no_comma_details [] Samples.awaiting).
  - reflexivity.
  - vm_compute; reflexivity.
  - reflexivity.
  - vm_compute; reflexivity.
Defined.

(** X12: the details are cut at the first comma.  At step 1, a message that
    mentions a booking and has a comma is booked under the text before its
    first comma as the name and all the text after it as the symptoms (later
    commas stay in the symptoms), both stripped; the step is 0 when the
    booking starts, and the value returned is the booking's reply, or the
    apology when the booking gives none. *)
Theorem details_are_cut_at_first_comma :
  forall env message history w,
    Webhook.mentions_booking message = true ->
    step w = Some 1 ->
    has Py.comma message = true ->
    exists name_part symptoms_part response,
      message = name_part ++ Py.comma :: symptoms_part
      /\ has Py.comma name_part = false
      /\ fst (Webhook.schedule_appointment env (Py.strip name_part)
                (Py.strip symptoms_part) (set_step (Some 0) w)) = inr response
      /\ Webhook.generate_response env message history w
         = (mkGenerated [] (Some (or_else response Webhook.APOLOGY)),
            snd (Webhook.schedule_appointment env (Py.strip name_part)
                   (Py.strip symptoms_part) (set_step (Some 0) w))).
Proof.
  intros env message history w H Hs Hc.
  destruct (split1_present Py.comma message Hc) as (a & b & E & Em & Ha).
  destruct (schedule_webhook_returns env (Py.strip a) (Py.strip b)
              (set_step (Some 0) w)) as (response & w' & Er).
  exists a, b, response.
  rewrite (webhook_details_turn env message history w H Hs), E.
  cbv zeta. rewrite Er. cbn [fst snd]. repeat split; assumption.
Qed.

Lemma details_cut_witness :
  exists name_part symptoms_part,
    Py.u "Иван Петров, симптомы: кашель, жар" = name_part ++ Py.comma :: symptoms_part
    /\ has Py.comma name_part = false.
Proof.
  destruct (details_are_cut_at_first_comma Samples.env_ok
              (Py.u "Иван Петров, симптомы: кашель, жар") [] Samples.awaiting)
    as (a & b & _ & E & Ha & _).
  - vm_compute; reflexivity.
  - reflexivity.
  - vm_compute; reflexivity.
  - exists a, b. split; assumption.
Defined.

(** ** The step over a whole conversation *)

Lemma webhook_turn_keeps_step_valid env message history w :
  valid_step w ->
  valid_step (snd (Webhook.generate_response env message history w)).
Proof.
  intro Hv. unfold valid_step in *.
  destruct (Webhook.mentions_booking message) eqn:H.
  - destruct (webhook_step_transition env message history w H) as [T0 T1].
    destruct Hv as [Hs | [Hs | Hs]].
    + right; right. apply (T0 (or_introl Hs)).
    + right; right. apply (T0 (or_intror Hs)).
    + right; left. apply (T1 Hs).
  - destruct (stream_webhook_untouched env message history w H) as (E & _).
    rewrite E. exact Hv.
Qed.

Lemma calendar_turn_keeps_step_valid env message history w :
  valid_step w ->
  valid_step (snd (Calendar.generate_response env message history w)).
Proof.
  intro Hv. unfold valid_step in *.
  destruct (Calendar.mentions_booking message) eqn:H.
  - destruct (calendar_step_transition env message history w H) as [T0 T1].
    destruct Hv as [Hs | [Hs | Hs]].
    + right; right. apply (T0 (or_introl Hs)).
    + right; right. apply (T0 (or_intror Hs)).
    + right; left. apply (T1 Hs).
  - destruct (stream_calendar_untouched env message history w H) as (E & _).
    rewrite E. exact Hv.
Qed.

(** X13: over any conversation, with any messages and any behaviour of the
    services, the step only ever holds the values the handlers know: it is
    unset, 0 or 1 after every turn if it was so before the first, in both
    applications.  The branch that falls through to text generation with
    another step value is never taken. *)
Theorem step_stays_valid :
  forall env turns w,
    valid_step w ->
    valid_step (webhook_dialogue env turns w)
    /\ valid_step (calendar_dialogue env turns w).
Proof.
  intros env turns w Hv. split.
  - revert w Hv. induction turns as [| [message history] rest IH]; intros w Hv.
    + exact Hv.
    + cbn [webhook_dialogue]. apply IH.
      apply webhook_turn_keeps_step_valid. exact Hv.
  - revert w Hv. induction turns as [| [message history] rest IH]; intros w Hv.
    + exact Hv.
    + cbn [calendar_dialogue]. apply IH.
      apply calendar_turn_keeps_step_valid. exact Hv.
Qed.

Lemma step_stays_valid_witness :
  valid_step (webhook_dialogue Samples.env_ok
                [(Samples.trigger, []); (Samples.details, []);
                 (Samples.details_with_keyword, [])] Samples.fresh).
Proof.
  destruct (step_stays_valid Samples.env_ok
              [(Samples.trigger, []); (Samples.details, []);
               (Samples.details_with_keyword, [])] Samples.fresh
              (or_introl eq_refl)) as [H _].
  exact H.
Defined.

(** ** A whole booking conversation *)

Lemma check_result_depends_on_events env name time w1 w2 :
  events w1 = events w2 ->
  fst (Webhook.check_duplicate_event env name time w1)
  = fst (Webhook.check_duplicate_event env name time w2).
Proof.
  intro E. rewrite !check_duplicate_event_cases. cbv zeta.
  destruct (credentials_fault env) as [e |].
  - destruct e; reflexivity.
  - destruct (DateTime.add time (minutes 30)) as [e | timeMax].
    + destruct e; reflexivity.
    + destruct (list_fault env) as [e |]; [destruct e; reflexivity |].
      unfold reserved. rewrite E. reflexivity.
Qed.

Lemma or_else_pending specialist t default :
  or_else (Some (Webhook.PENDING specialist t)) default
  = Webhook.PENDING specialist t.
Proof.
  unfold or_else, Webhook.PENDING.
  destruct (Py.u "Предварительная запись к ") eqn:E;
    [vm_compute in E; discriminate E | reflexivity].
Qed.

(** X14: the two turns of a booking compose.  From an idle step, a message
    that mentions a booking is answered with the request for details and
    nothing else happens; a second such message with a comma, when the
    booking goes well, returns the pending-confirmation message for the name
    before the comma and the symptoms after it, adds that one event, and
    leaves the step at 0, ready for the next booking. *)
Theorem two_turns_make_one_booking :
  forall env m1 h1 m2 h2 name_part symptoms_part specialist w,
    Webhook.mentions_booking m1 = true ->
    Webhook.mentions_booking m2 = true ->
    step w = None \/ step w = Some 0 ->
    Py.split1 Py.comma m2 = [name_part; symptoms_part] ->
    fst (Webhook.check_duplicate_event env (Py.strip name_part)
           (clock env (ticks w)) w) = inr false ->
    define_specialist env (Py.strip symptoms_part) = inr specialist ->
    bookable_at (clock env (S (ticks w))) ->
    credentials_fault env = None ->
    insert_fault env = None ->
    Webhook.webhook_unset env = true
    \/ attempt_fails (endpoint env (List.length (posts w))) = false ->
    let turn1 := Webhook.generate_response env m1 h1 w in
    let turn2 := Webhook.generate_response env m2 h2 (snd turn1) in
    fst turn1 = mkGenerated [] (Some Webhook.ASK_DETAILS)
    /\ events (snd turn1) = events w /\ posts (snd turn1) = posts w
    /\ fst turn2
       = mkGenerated []
           (Some (Webhook.PENDING specialist (clock env (S (ticks w)) + hours 3)))
    /\ webhook_dialogue env [(m1, h1); (m2, h2)] w = snd turn2
    /\ step (snd turn2) = Some 0
    /\ events (snd turn2)
       = events w ++ [(Z.of_nat (List.length (events w)),
                       webhook_event (Py.strip name_part) specialist
                         (Py.strip symptoms_part) (clock env (S (ticks w))))].
Proof.
  intros env m1 h1 m2 h2 a b sp w H1 H2 Hs Hsplit Hcheck Hsp Ht' Hc Hi Hd.
  cbv zeta. cbn [webhook_dialogue].
  rewrite (webhook_idle_turn env m1 h1 w H1 Hs). cbn [fst snd].
  split; [reflexivity |]. split; [reflexivity |]. split; [reflexivity |].
  rewrite (webhook_details_turn env m2 h2 (set_step (Some 1) w) H2 eq_refl).
  rewrite Hsplit. cbv zeta.
  assert (Hcheck' : fst (Webhook.check_duplicate_event env (Py.strip a)
                           (clock env (ticks (set_step (Some 0) (set_step (Some 1) w))))
                           (set_step (Some 0) (set_step (Some 1) w))) = inr false).
  { rewrite <- Hcheck. apply check_result_depends_on_events. reflexivity. }
  destruct (schedule_webhook_happy env (Py.strip a) (Py.strip b) sp
              (set_step (Some 0) (set_step (Some 1) w)) Hcheck' Hsp Ht' Hc Hi Hd)
    as (R & E & _ & S).
  rewrite R. cbn [fst snd]. rewrite or_else_pending.
  split; [reflexivity |]. split; [reflexivity |].
  split; [rewrite S; reflexivity | exact E].
Qed.

Lemma two_turns_witness :
  step (webhook_dialogue Samples.env_ok
          [(Samples.trigger, []); (Samples.details_with_keyword, [])]
          Samples.fresh) = Some 0
  /\ List.length
       (events (webhook_dialogue Samples.env_ok
                  [(Samples.trigger, []); (Samples.details_with_keyword, [])]
                  Samples.fresh)) = 1%nat.
Proof.
  assert (B : bookable_at Samples.t0) by (split; vm_compute; discriminate).
  destruct (two_turns_make_one_booking Samples.env_ok Samples.trigger []
              Samples.details_with_keyword []
              (Py.u "Иван Петров") (Py.u " симптомы: болит горло и температура")
              Samples.therapist Samples.fresh)
    as (_ & _ & _ & _ & D & S & E).
  - vm_compute; reflexivity.
  - vm_compute; reflexivity.
  - left; reflexivity.
  - vm_compute; reflexivity.
  - vm_compute; reflexivity.
  - vm_compute; reflexivity.
  - exact B.
  - reflexivity.
  - reflexivity.
  - right; reflexivity.
  - rewrite D. split; [exact S |]. rewrite E. reflexivity.
Defined.

(** ** The streamed reply *)

Lemma stream_yields_length acc tokens :
  List.length (stream_yields acc tokens) = List.length tokens.
Proof.
  revert acc. induction tokens as [| t rest IH]; intro acc; cbn; [reflexivity |].
  rewrite IH. reflexivity.
Qed.

Lemma stream_yields_nth tokens :
  forall acc i,
    (i < List.length tokens)%nat ->
    nth i (stream_yields acc tokens) [] = acc +++ concat (firstn (S i) tokens).
Proof.
  induction tokens as [| t rest IH]; intros acc i Hi; cbn [List.length] in Hi;
    [lia |].
  cbn [stream_yields]. destruct i as [| i].
  - cbn [nth firstn concat]. rewrite app_nil_r. reflexivity.
  - cbn [nth]. rewrite IH by lia.
    cbn [firstn concat]. rewrite <- app_assoc. reflexivity.
Qed.

(** X15: the text-generation path produces a growing text.  For a message
    that does not mention a booking, when the stream delivers its tokens
    without failing, both handlers yield once per token, the i-th value
    being the first i tokens joined; the last value is the whole reply, and
    the generator returns nothing. *)
Theorem streamed_reply_grows_token_by_token :
  forall env message history tokens w,
    Webhook.mentions_booking message = false ->
    (text_generation env (Webhook.prompt_of env message history)
     = inr (tokens, None) ->
     let g := fst (Webhook.generate_response env message history w) in
     List.length (yielded g) = List.length tokens
     /\ (forall i, (i < List.length tokens)%nat ->
           nth i (yielded g) [] = concat (firstn (S i) tokens))
     /\ returned g = None)
    /\ (text_generation env (Calendar.format_prompt env message history)
        = inr (tokens, None) ->
        let g := fst (Calendar.generate_response env message history w) in
        List.length (yielded g) = List.length tokens
        /\ (forall i, (i < List.length tokens)%nat ->
              nth i (yielded g) [] = concat (firstn (S i) tokens))
        /\ returned g = None).
Proof.
  intros env message history tokens w H.
  assert (Hc : Calendar.mentions_booking message = false)
    by (rewrite mentions_booking_agree; exact H).
  split; intro Ht; cbv zeta.
  - unfold Webhook.generate_response.
    rewrite (bypass_webhook env message history w H).
    unfold Webhook.stream_reply. rewrite Ht. cbn [fst yielded returned].
    split; [apply stream_yields_length |].
    split; [| reflexivity].
    intros i Hi. rewrite (stream_yields_nth tokens [] i Hi). reflexivity.
  - unfold Calendar.generate_response.
    rewrite (bypass_calendar env message history w Hc).
    unfold Calendar.stream_reply. rewrite Ht. cbn [fst yielded returned].
    split; [apply stream_yields_length |].
    split; [| reflexivity].
    intros i Hi. rewrite (stream_yields_nth tokens [] i Hi). reflexivity.
Qed.

Lemma streamed_reply_witness :
  yielded (fst (Webhook.generate_response Samples.env_ok Samples.greeting []
                  Samples.fresh))
  = [Py.u "Здрав"; Py.u "Здравствуйте"].
Proof.
  destruct (streamed_reply_grows_token_by_token Samples.env_ok Samples.greeting []
              [Py.u "Здрав"; Py.u "ствуйте"] Samples.fresh) as [W _].
  - vm_compute; reflexivity.
  - destruct (W eq_refl) as (L & N & _).
    pose proof (N 0%nat ltac:(cbn; lia)) as N0.
    pose proof (N 1%nat ltac:(cbn; lia)) as N1.
    destruct (yielded (fst (Webhook.generate_response Samples.env_ok
                              Samples.greeting [] Samples.fresh)))
      as [| y0 [| y1 [| y2 rest]]]; try discriminate L.
    cbn [nth] in N0, N1. rewrite N0, N1. vm_compute. reflexivity.
Defined.

(** X16: a failure of text generation never leaves the handler.  If the
    client raises at once, the fixed error message is the only value
    yielded; if the stream breaks after some tokens, the values yielded for
    those tokens stay, each the tokens so far joined, and the error message
    is yielded after them.  In both cases the generator returns nothing, the
    exception is appended to the log, and the step and the calendar are
    untouched; this holds in both applications, each with its own message. *)
Theorem generation_failure_ends_with_error_message :
  forall env message history partial e w,
    Webhook.mentions_booking message = false ->
    (let r := Webhook.generate_response env message history w in
     let prompt := Webhook.prompt_of env message history in
     (text_generation env prompt = inl e ->
      yielded (fst r) = [Webhook.INTERNAL_ERROR])
     /\ (text_generation env prompt = inr (partial, Some e) ->
         yielded (fst r) = stream_yields [] partial ++ [Webhook.INTERNAL_ERROR]
         /\ List.length (yielded (fst r)) = S (List.length partial)
         /\ forall i, (i < List.length partial)%nat ->
              nth i (yielded (fst r)) [] = concat (firstn (S i) partial))
     /\ (text_generation env prompt = inl e
         \/ text_generation env prompt = inr (partial, Some e) ->
         returned (fst r) = None
         /\ log (snd r) = log w ++ [LogError (Py.u "Ошибка генерации") e]
         /\ step (snd r) = step w /\ events (snd r) = events w))
    /\ (let r := Calendar.generate_response env message history w in
        let prompt := Calendar.format_prompt env message history in
        (text_generation env prompt = inl e ->
         yielded (fst r) = [Calendar.GENERATION_ERROR])
        /\ (text_generation env prompt = inr (partial, Some e) ->
            yielded (fst r) = stream_yields [] partial ++ [Calendar.GENERATION_ERROR]
            /\ List.length (yielded (fst r)) = S (List.length partial)
            /\ forall i, (i < List.length partial)%nat ->
                 nth i (yielded (fst r)) [] = concat (firstn (S i) partial))
        /\ (text_generation env prompt = inl e
            \/ text_generation env prompt = inr (partial, Some e) ->
            returned (fst r) = None
            /\ log (snd r) = log w ++ [LogError (Py.u "Ошибка генерации") e]
            /\ step (snd r) = step w /\ events (snd r) = events w)).
Proof.
  intros env message history partial e w H.
  assert (Hc : Calendar.mentions_booking message = false)
    by (rewrite mentions_booking_agree; exact H).
  split; cbv zeta.
  - unfold Webhook.generate_response.
    rewrite (bypass_webhook env message history w H).
    unfold Webhook.stream_reply. split; [| split].
    + intro Ht. rewrite Ht. reflexivity.
    + intro Ht. rewrite Ht. cbn [fst yielded].
      split; [reflexivity |]. split.
      * rewrite length_app, stream_yields_length. cbn [List.length]. lia.
      * intros i Hi. rewrite app_nth1 by (rewrite stream_yields_length; exact Hi).
        rewrite (stream_yields_nth partial [] i Hi). reflexivity.
    + intros [Ht | Ht]; rewrite Ht; repeat split.
  - unfold Calendar.generate_response.
    rewrite (bypass_calendar env message history w Hc).
    unfold Calendar.stream_reply. split; [| split].
    + intro Ht. rewrite Ht. reflexivity.
    + intro Ht. rewrite Ht. cbn [fst yielded].
      split; [reflexivity |]. split.
      * rewrite length_app, stream_yields_length. cbn [List.length]. lia.
      * intros i Hi. rewrite app_nth1 by (rewrite stream_yields_length; exact Hi).
        rewrite (stream_yields_nth partial [] i Hi). reflexivity.
    + intros [Ht | Ht]; rewrite Ht; repeat split.
Qed.

Lemma generation_failure_witness :
  yielded (fst (Webhook.generate_response Samples.env_stream_breaks
                  Samples.greeting [] Samples.fresh))
  = [Py.u "Здрав"; Webhook.INTERNAL_ERROR].
Proof.
  destruct (generation_failure_ends_with_error_message Samples.env_stream_breaks
              Samples.greeting [] [Py.u "Здрав"] OtherException Samples.fresh)
    as [(_ & Broken & _) _].
  - vm_compute; reflexivity.
  - destruct (Broken eq_refl) as (Y & _). rewrite Y. reflexivity.
Defined.

(** ** app-calendar.py: what a booking does *)

Lemma schedule_calendar_outcomes env name symptoms w :
  let r := Calendar.schedule_appointment env name symptoms w in
  let t := clock env (ticks w) in
  (fst r = inr Calendar.BOOKING_ERROR /\ events (snd r) = events w)
  \/ (exists specialist,
        define_specialist env symptoms = inr specialist
        /\ fst r = inr (Calendar.BOOKED specialist (t + hours 3))
        /\ events (snd r)
           = events w ++ [(Z.of_nat (List.length (events w)),
                           calendar_event name specialist symptoms t)]
        /\ ticks (snd r) = S (ticks w)).
Proof.
  cbv zeta.
  remember (Calendar.schedule_appointment env name symptoms w) as rw eqn:Ew.
  unfold Calendar.schedule_appointment, try_except in Ew.
  rewrite bind_unfold in Ew. unfold Calendar.route at 1 in Ew.
  destruct (define_specialist env symptoms) as [e | specialist].
  { left. settle_leaf Ew. split; reflexivity. }
  rewrite (bind_inr (now env) _ _ _ _ eq_refl) in Ew.
  unfold set_routed, set_ticks in Ew; cbn [ticks] in Ew.
  rewrite bind_unfold in Ew. unfold dt_add at 1, lift in Ew.
  destruct (DateTime.add (clock env (ticks w)) (hours 3))
    as [e | appointment_time] eqn:Ea.
  { left. settle_leaf Ew. split; reflexivity. }
  apply add_value in Ea.
  rewrite bind_unfold in Ew. unfold Calendar.get_calendar_service at 1 in Ew.
  destruct (credentials_fault env) as [e |].
  { left. settle_leaf Ew. split; reflexivity. }
  cbn [ret] in Ew. rewrite bind_unfold in Ew. unfold dt_add at 1, lift in Ew.
  destruct (DateTime.add appointment_time (minutes 30)) as [e | end_time] eqn:Ee.
  { left. settle_leaf Ew. split; reflexivity. }
  apply add_value in Ee.
  rewrite bind_unfold in Ew. unfold CalendarService.events_insert at 1 in Ew.
  destruct (insert_fault env) as [e |].
  { left. settle_leaf Ew. split; reflexivity. }
  right. exists specialist. split; [reflexivity |].
  settle_leaf Ew. subst appointment_time end_time. repeat split.
Qed.

Lemma booked_is_not_the_error specialist t :
  Calendar.BOOKED specialist t <> Calendar.BOOKING_ERROR.
Proof.
  assert (H : hd 0 (Calendar.BOOKED specialist t) = 1047) by reflexivity.
  intro E. rewrite E in H. vm_compute in H. discriminate H.
Qed.

(** X17: in app-calendar.py the reply tells whether the event exists.
    [schedule_appointment] never raises and always returns a string; it
    returns the error message exactly when the calendar is left as it was,
    and otherwise returns the confirmation for the router's specialist and
    the time 3 hours after the clock reading, having added exactly that
    event. *)
Theorem calendar_reply_tells_what_was_written :
  forall env name symptoms w,
    let r := Calendar.schedule_appointment env name symptoms w in
    exists reply,
      fst r = inr reply
      /\ (reply = Calendar.BOOKING_ERROR <-> events (snd r) = events w)
      /\ (reply <> Calendar.BOOKING_ERROR ->
          exists specialist,
            define_specialist env symptoms = inr specialist
            /\ reply = Calendar.BOOKED specialist (clock env (ticks w) + hours 3)
            /\ events (snd r)
               = events w ++ [(Z.of_nat (List.length (events w)),
                               calendar_event name specialist symptoms
                                 (clock env (ticks w)))]).
Proof.
  intros env name symptoms w. cbv zeta.
  destruct (schedule_calendar_outcomes env name symptoms w)
    as [(Hr & He) | (sp & Hsp & Hr & He & _)].
  - exists Calendar.BOOKING_ERROR. split; [exact Hr |]. split.
    + split; intros _; [exact He | reflexivity].
    + intro N. exfalso. apply N. reflexivity.
  - exists (Calendar.BOOKED sp (clock env (ticks w) + hours 3)).
    split; [exact Hr |]. split.
    + split.
      * intro E. exfalso. exact (booked_is_not_the_error _ _ E).
      * intro E. exfalso. rewrite He in E.
        apply (f_equal (@List.length _)) in E.
        rewrite length_app in E. cbn [List.length] in E. lia.
    + intros _. exists sp. repeat split; assumption.
Qed.

Lemma schedule_calendar_happy env name symptoms specialist w :
  define_specialist env symptoms = inr specialist ->
  bookable_at (clock env (ticks w)) ->
  credentials_fault env = None ->
  insert_fault env = None ->
  let r := Calendar.schedule_appointment env name symptoms w in
  fst r = inr (Calendar.BOOKED specialist (clock env (ticks w) + hours 3))
  /\ events (snd r)
     = events w ++ [(Z.of_nat (List.length (events w)),
                     calendar_event name specialist symptoms (clock env (ticks w)))]
  /\ ticks (snd r) = S (ticks w)
  /\ step (snd r) = step w.
Proof.
  intros Hsp Ht Hc Hi. cbv zeta.
  unfold Calendar.schedule_appointment, try_except.
  erewrite bind_inr by (unfold Calendar.route; rewrite Hsp; reflexivity).
  erewrite bind_inr by reflexivity.
  erewrite bind_inr
    by (unfold dt_add, lift, set_routed; cbn [ticks];
        rewrite (bookable_add_3h _ Ht); reflexivity).
  erewrite bind_inr
    by (unfold Calendar.get_calendar_service; rewrite Hc; reflexivity).
  erewrite bind_inr
    by (unfold dt_add, lift; rewrite (bookable_add_end _ Ht); reflexivity).
  erewrite bind_inr
    by (unfold CalendarService.events_insert; rewrite Hi; reflexivity).
  cbv [ret]. repeat split.
Qed.

(** X18: app-calendar.py never looks at the calendar before it writes.
    Whatever the calendar already holds, a booking with the services working
    is filed; asked twice in a row for the same name and symptoms, it files
    two events with the same summary and description, one after the other. *)
Theorem calendar_books_the_same_request_twice :
  forall env name symptoms specialist w,
    define_specialist env symptoms = inr specialist ->
    bookable_at (clock env (ticks w)) ->
    bookable_at (clock env (S (ticks w))) ->
    credentials_fault env = None ->
    insert_fault env = None ->
    let first := Calendar.schedule_appointment env name symptoms w in
    let second := Calendar.schedule_appointment env name symptoms (snd first) in
    let id := Z.of_nat (List.length (events w)) in
    fst first = inr (Calendar.BOOKED specialist (clock env (ticks w) + hours 3))
    /\ fst second
       = inr (Calendar.BOOKED specialist (clock env (S (ticks w)) + hours 3))
    /\ events (snd second)
       = events w
         ++ [(id, calendar_event name specialist symptoms (clock env (ticks w)));
             (id + 1,
              calendar_event name specialist symptoms (clock env (S (ticks w))))].
Proof.
  intros env name symptoms sp w Hsp Ht Ht' Hc Hi. cbv zeta.
  destruct (schedule_calendar_happy env name symptoms sp w Hsp Ht Hc Hi)
    as (R1 & E1 & T1 & _).
  remember (snd (Calendar.schedule_appointment env name symptoms w)) as w1 eqn:Ew1.
  rewrite <- T1 in Ht'.
  destruct (schedule_calendar_happy env name symptoms sp w1 Hsp Ht' Hc Hi)
    as (R2 & E2 & _ & _).
  rewrite T1 in R2, E2.
  split; [exact R1 |]. split; [exact R2 |].
  rewrite E2, E1, length_app. cbn [List.length].
  rewrite <- app_assoc. cbn [app].
  replace (Z.of_nat (List.length (events w) + 1))
    with (Z.of_nat (List.length (events w)) + 1) by lia.
  reflexivity.
Qed.

Lemma calendar_books_twice_witness :
  List.length
    (events (snd (Calendar.schedule_appointment Samples.env_ok Samples.ivan
                    Samples.sore_throat
                    (snd (Calendar.schedule_appointment Samples.env_ok Samples.ivan
                            Samples.sore_throat Samples.fresh))))) = 2%nat.
Proof.
  assert (B : bookable_at Samples.t0) by (split; vm_compute; discriminate).
  destruct (calendar_books_the_same_request_twice Samples.env_ok Samples.ivan
              Samples.sore_throat Samples.therapist Samples.fresh
              eq_refl B B eq_refl eq_refl) as (_ & _ & E).
  rewrite E. reflexivity.
Defined.

Lemma calendar_details_turn env message history w :
  Calendar.mentions_booking message = true ->
  step w = Some 1 ->
  forall name_part symptoms_part,
    Py.split1 Py.space message = [name_part; symptoms_part]
    \/ (Py.split1 Py.space message = [name_part] /\ symptoms_part = []) ->
    exists response,
      fst (Calendar.schedule_appointment env (Py.strip name_part)
             (Py.strip symptoms_part) w) = inr response
      /\ Calendar.generate_response env message history w
         = (mkGenerated [] (Some response),
            set_step (Some 0)
              (snd (Calendar.schedule_appointment env (Py.strip name_part)
                      (Py.strip symptoms_part) w))).
Proof.
  intros H Hs a b Hsplit.
  destruct (schedule_calendar_returns env (Py.strip a) (Py.strip b) w)
    as (response & w' & E).
  exists response. rewrite E. split; [reflexivity |].
  unfold Calendar.generate_response, Calendar.generate_response_try.
  rewrite H. unfold Calendar.init_step, Calendar.step_is. rewrite Hs.
  cbn [Z.eqb Pos.eqb]. rewrite Hs. cbn [Z.eqb Pos.eqb].
  destruct Hsplit as [-> | [-> ->]]; cbn [hd tl]; rewrite E; reflexivity.
Qed.

(** X19: app-calendar.py cuts the details at the first space.  At step 1,
    a message that mentions a booking is always booked, never refused: the
    name is the text before the first space and the symptoms all the text
    after it, both stripped; a message of one word is booked under that word
    with empty symptoms.  The value returned is the booking's reply and the
    step is set back to 0 after the booking. *)
Theorem calendar_details_are_cut_at_first_space :
  forall env message history w,
    Calendar.mentions_booking message = true ->
    step w = Some 1 ->
    exists name_part symptoms_part response,
      (has Py.space message = true ->
       message = name_part ++ Py.space :: symptoms_part
       /\ has Py.space name_part = false)
      /\ (has Py.space message = false ->
          name_part = message /\ symptoms_part = [])
      /\ fst (Calendar.schedule_appointment env (Py.strip name_part)
                (Py.strip symptoms_part) w) = inr response
      /\ Calendar.generate_response env message history w
         = (mkGenerated [] (Some response),
            set_step (Some 0)
              (snd (Calendar.schedule_appointment env (Py.strip name_part)
                      (Py.strip symptoms_part) w))).
Proof.
  intros env message history w H Hs.
  destruct (has Py.space message) eqn:Hsp.
  - destruct (split1_present Py.space message Hsp) as (a & b & E & Em & Ha).
    destruct (calendar_details_turn env message history w H Hs a b (or_introl E))
      as (response & R & G).
    exists a, b, response. split; [intros _; split; assumption |].
    split; [discriminate |]. split; assumption.
  - pose proof (split1_absent Py.space message Hsp) as E.
    destruct (calendar_details_turn env message history w H Hs message []
                (or_intror (conj E eq_refl))) as (response & R & G).
    exists message, [], response. split; [discriminate |].
    split; [intros _; split; reflexivity |]. split; assumption.
Qed.

Lemma calendar_details_cut_witness :
  exists response,
    Calendar.generate_response Samples.env_ok (Py.u "запись") [] Samples.awaiting
    = (mkGenerated [] (Some response),
       set_step (Some 0)
         (snd (Calendar.schedule_appointment Samples.env_ok (Py.u "запись") []
                 Samples.awaiting))).
Proof.
  destruct (calendar_details_are_cut_at_first_space Samples.env_ok (Py.u "запись")
              [] Samples.awaiting) as (a & b & response & _ & One & _ & G).
  - vm_compute; reflexivity.
  - reflexivity.
  - destruct One as [-> ->]; [vm_compute; reflexivity |].
    exists response. exact G.
Defined.

(** ** The prompt of app-calendar.py *)

Lemma format_history_app h1 h2 :
  Calendar.format_history (h1 ++ h2)
  = Calendar.format_history h1 +++ Calendar.format_history h2.
Proof.
  induction h1 as [| [user assistant] rest IH]; [reflexivity |].
  cbn [app Calendar.format_history]. rewrite IH.
  repeat rewrite <- app_assoc. reflexivity.
Qed.

(** X20: prompts grow by appending.  The prompt built for the next turn,
    once the previous message and its answer have joined the history, is the
    previous prompt followed by that answer, a line break, and the new user
    line with the assistant cue; the system prompt and all earlier turns
    stay in place, in order. *)
Theorem prompt_extends_previous_prompt :
  forall env history message answer next_message,
    Calendar.format_prompt env next_message (history ++ [(message, answer)])
    = Calendar.format_prompt env message history
      +++ answer +++ [10]
      +++ Py.u "Пользователь: " +++ next_message +++ Py.u "
Помощник: ".
Proof.
  intros env history message answer next_message.
  unfold Calendar.format_prompt. rewrite format_history_app.
  cbn [Calendar.format_history].
  change (Py.u "
") with [10].
  rewrite app_nil_r. repeat rewrite <- app_assoc. reflexivity.
Qed.

(** ** Stripped strings *)

Lemma lstrip_app_nonspace l c :
  Py.isspace c = false -> Py.lstrip (l ++ [c]) = Py.lstrip l ++ [c].
Proof.
  intro Hc. induction l as [| x l IH]; cbn [app Py.lstrip].
  - rewrite Hc. reflexivity.
  - destruct (Py.isspace x); [exact IH | reflexivity].
Qed.

Lemma lstrip_head s :
  Py.lstrip s = [] \/ exists c r, Py.lstrip s = c :: r /\ Py.isspace c = false.
Proof.
  induction s as [| x s IH]; [left; reflexivity |].
  cbn [Py.lstrip]. destruct (Py.isspace x) eqn:E; [exact IH |].
  right. exists x, s. split; [reflexivity | exact E].
Qed.

Lemma strip_is_trimmed s : trimmed (Py.strip s) = true.
Proof.
  unfold Py.strip, Py.rstrip.
  destruct (lstrip_head s) as [E | (c & r & E & Hc)]; rewrite E.
  - reflexivity.
  - cbn [rev]. rewrite (lstrip_app_nonspace (rev r) c Hc), rev_app_distr.
    cbn [rev app]. unfold trimmed. rewrite Hc. cbn [negb andb].
    destruct (lstrip_head (rev r)) as [E' | (d & q & E' & Hd)]; rewrite E'.
    + cbn [rev last]. rewrite Hc. reflexivity.
    + cbn [rev].
      change (c :: rev q ++ [d]) with ((c :: rev q) ++ [d]).
      rewrite last_last, Hd. reflexivity.
Qed.

Lemma lstrip_trimmed s : trimmed s = true -> Py.lstrip s = s.
Proof.
  destruct s as [| c s]; [reflexivity |].
  unfold trimmed. intro H. apply andb_prop in H. destruct H as [H _].
  cbn [Py.lstrip]. destruct (Py.isspace c); [discriminate H | reflexivity].
Qed.

Lemma strip_trimmed s : trimmed s = true -> Py.strip s = s.
Proof.
  intro H. unfold Py.strip, Py.rstrip. rewrite (lstrip_trimmed s H).
  destruct s as [| c s]; [reflexivity |].
  unfold trimmed in H. apply andb_prop in H. destruct H as [_ H].
  destruct (exists_last (l := c :: s)) as (l' & d & E); [discriminate |].
  rewrite E in *. rewrite last_last in H.
  rewrite rev_app_distr. cbn [rev app Py.lstrip].
  destruct (Py.isspace d); [discriminate H |].
  cbn [rev]. rewrite rev_involutive. reflexivity.
Qed.

(** X21: [load_system_prompt] never fails and never returns a prompt with
    white space around it, in both applications: when the file is read the
    result is its content stripped (a content with no surrounding white
    space is returned as it is, and nothing is logged); when opening or
    reading raises, whatever the exception, the error is logged and the
    built-in default prompt is returned. *)
Theorem system_prompt_is_loaded_or_defaulted :
  forall prompt_file w,
    (exists prompt,
       fst (Webhook.load_system_prompt prompt_file w) = inr prompt
       /\ trimmed prompt = true
       /\ (forall content, prompt_file = inr content ->
             prompt = Py.strip content
             /\ snd (Webhook.load_system_prompt prompt_file w) = w
             /\ (trimmed content = true -> prompt = content))
       /\ (forall e, prompt_file = inl e ->
             prompt = Webhook.DEFAULT_PROMPT
             /\ log (snd (Webhook.load_system_prompt prompt_file w))
                = log w ++ [LogError (Py.u "Error loading prompt") e]))
    /\ (exists prompt,
          fst (Calendar.load_system_prompt prompt_file w) = inr prompt
          /\ trimmed prompt = true
          /\ (forall content, prompt_file = inr content ->
                prompt = Py.strip content
                /\ snd (Calendar.load_system_prompt prompt_file w) = w
                /\ (trimmed content = true -> prompt = content))
          /\ (forall e, prompt_file = inl e ->
                prompt = Calendar.DEFAULT_PROMPT
                /\ log (snd (Calendar.load_system_prompt prompt_file w))
                   = log w ++ [LogError (Py.u "Error loading prompt") e])).
Proof.
  intros prompt_file w. split.
  - destruct prompt_file as [e | content].
    + exists Webhook.DEFAULT_PROMPT. split; [reflexivity |].
      split; [vm_compute; reflexivity |].
      split; [intros c Hc; discriminate Hc |].
      intros e' He. injection He as <-. split; reflexivity.
    + exists (Py.strip content). split; [reflexivity |].
      split; [apply strip_is_trimmed |].
      split; [| intros e He; discriminate He].
      intros c Hc. injection Hc as <-.
      split; [reflexivity |]. split; [reflexivity |]. apply strip_trimmed.
  - destruct prompt_file as [e | content].
    + exists Calendar.DEFAULT_PROMPT. split; [reflexivity |].
      split; [vm_compute; reflexivity |].
      split; [intros c Hc; discriminate Hc |].
      intros e' He. injection He as <-. split; reflexivity.
    + exists (Py.strip content). split; [reflexivity |].
      split; [apply strip_is_trimmed |].
      split; [| intros e He; discriminate He].
      intros c Hc. injection Hc as <-.
      split; [reflexivity |]. split; [reflexivity |]. apply strip_trimmed.
Qed.

Lemma schedule_webhook_routed env name symptoms w :
  routed (snd (Webhook.schedule_appointment env name symptoms w)) = routed w
  \/ routed (snd (Webhook.schedule_appointment env name symptoms w))
     = routed w ++ [symptoms].
Proof.
  remember (routed (snd (Webhook.schedule_appointment env name symptoms w)))
    as rs eqn:Er.
  revert Er. unfold Webhook.schedule_appointment.
  rewrite try_except_frame
    by (apply schedule_webhook_handler_frame; intros; reflexivity).
  rewrite (bind_inr (now env) _ w _ _ eq_refl).
  pose proof (check_duplicate_preserves routed env name (clock env (ticks w))
                (fun _ _ => eq_refl) (set_ticks (S (ticks w)) w)) as Pr.
  rewrite bind_unfold.
  destruct (Webhook.check_duplicate_event env name (clock env (ticks w))
              (set_ticks (S (ticks w)) w)) as [[e | [|]] w1];
    unfold set_ticks in Pr; cbn [fst snd routed] in Pr;
    [intros ->; left; exact Pr | intros ->; left; exact Pr |].
  rewrite bind_unfold. unfold Webhook.route at 1.
  destruct (define_specialist env symptoms) as [e | specialist].
  - intros ->. right. unfold set_routed. cbn [snd routed]. rewrite Pr. reflexivity.
  - match goal with
    | |- _ = routed (snd (?X ?w0)) -> _ =>
        assert (P : preserves routed X) by frame_all; rewrite (P w0)
    end.
    intros ->. right. unfold set_routed. cbn [routed]. rewrite Pr. reflexivity.
Qed.

(** X22: what the handler of app-webhook.py hands to the booking is
    stripped.  In a details turn (step 1, a message that mentions a
    booking), every symptoms text the router is asked about and the name and
    symptoms written into any event the turn files are the texts before and
    after the first comma of the message with the white space at both ends
    removed: none of them starts or ends with white space. *)
Theorem booking_arguments_are_stripped :
  forall env message history w,
    Webhook.mentions_booking message = true ->
    step w = Some 1 ->
    let r := Webhook.generate_response env message history w in
    (forall asked,
       In asked (routed (snd r)) -> ~ In asked (routed w) ->
       trimmed asked = true
       /\ exists name_part symptoms_part,
            message = name_part ++ Py.comma :: symptoms_part
            /\ has Py.comma name_part = false
            /\ asked = Py.strip symptoms_part)
    /\ (forall id e,
          In (id, e) (events (snd r)) -> ~ In (id, e) (events w) ->
          exists name_part symptoms_part specialist,
            message = name_part ++ Py.comma :: symptoms_part
            /\ has Py.comma name_part = false
            /\ summary e
               = Py.u "Прием: " +++ Py.strip name_part +++ Py.u ", " +++ specialist
            /\ description e = Py.u "Симптомы: " +++ Py.strip symptoms_part
            /\ trimmed (Py.strip name_part) = true
            /\ trimmed (Py.strip symptoms_part) = true).
Proof.
  intros env message history w H Hs. cbv zeta.
  rewrite (webhook_details_turn env message history w H Hs).
  destruct (has Py.comma message) eqn:Hc.
  - destruct (split1_present Py.comma message Hc) as (a & b & E & Em & Ha).
    rewrite E. cbv zeta.
    destruct (schedule_webhook_returns env (Py.strip a) (Py.strip b)
                (set_step (Some 0) w)) as (response & w' & Er).
    pose proof (schedule_webhook_routed env (Py.strip a) (Py.strip b)
                  (set_step (Some 0) w)) as Hr.
    pose proof (schedule_webhook_outcomes env (Py.strip a) (Py.strip b)
                  (set_step (Some 0) w)) as Ho.
    cbv zeta in Ho. rewrite Er in *. cbn [fst snd] in *.
    change (routed (set_step (Some 0) w)) with (routed w) in Hr.
    change (events (set_step (Some 0) w)) with (events w) in Ho.
    split.
    + intros asked Hin Hnew.
      destruct Hr as [Hr | Hr]; rewrite Hr in Hin; [contradiction |].
      apply in_app_or in Hin. destruct Hin as [Hin | [<- | []]]; [contradiction |].
      split; [apply strip_is_trimmed |].
      exists a, b. repeat split; assumption.
    + intros id e Hin Hnew.
      destruct Ho as [(He & _) | (sp & _ & He & _)]; rewrite He in Hin;
        [contradiction |].
      apply in_app_or in Hin. destruct Hin as [Hin | [Hin | []]]; [contradiction |].
      injection Hin as _ <-.
      exists a, b, sp. split; [exact Em |]. split; [exact Ha |].
      split; [reflexivity |]. split; [reflexivity |].
      split; apply strip_is_trimmed.
  - rewrite (split1_absent Py.comma message Hc). cbn [snd].
    split; [intros asked Hin Hnew | intros id e Hin Hnew]; contradiction.
Qed.

Lemma booking_arguments_witness :
  In (Py.u "симптомы: болит горло и температура")
     (routed (snd (Webhook.generate_response Samples.env_ok
                     Samples.details_with_keyword [] Samples.awaiting)))
  /\ trimmed (Py.u "симптомы: болит горло и температура") = true.
Proof.
  assert (Hin : In (Py.u "симптомы: болит горло и температура")
                  (routed (snd (Webhook.generate_response Samples.env_ok
                                  Samples.details_with_keyword [] Samples.awaiting))))
    by (vm_compute; left; reflexivity).
  assert (Hk : Webhook.mentions_booking Samples.details_with_keyword = true)
    by (vm_compute; reflexivity).
  destruct (booking_arguments_are_stripped Samples.env_ok
              Samples.details_with_keyword [] Samples.awaiting Hk eq_refl)
    as [Asked _].
  destruct (Asked _ Hin (fun F : False => F)) as [T _].
  split; [exact Hin | exact T].
Defined.

(** ** What opens the intake dialogue *)

Lemma startswith_app sub b : Py.startswith sub (sub ++ b) = true.
Proof.
  induction sub as [| c sub IH]; [reflexivity |].
  cbn [app Py.startswith]. rewrite Z.eqb_refl. exact IH.
Qed.

Lemma startswith_split sub :
  forall s, Py.startswith sub s = true -> exists b, s = sub ++ b.
Proof.
  induction sub as [| c sub IH]; intros s H.
  - exists s. reflexivity.
  - destruct s as [| x s]; [discriminate H |].
    cbn [Py.startswith] in H. apply andb_prop in H. destruct H as [Hc Hs].
    apply Z.eqb_eq in Hc. subst x.
    destruct (IH s Hs) as (b & ->). exists b. reflexivity.
Qed.

Lemma contains_app sub a b : Py.contains sub (a ++ sub ++ b) = true.
Proof.
  induction a as [| x a IH].
  - cbn [app]. destruct (sub ++ b) as [| y rest] eqn:E.
    + apply app_eq_nil in E. destruct E as [-> _]. reflexivity.
    + cbn [Py.contains]. rewrite <- E, startswith_app. reflexivity.
  - cbn [app Py.contains]. rewrite IH. apply orb_true_r.
Qed.

Lemma contains_split sub :
  forall s, Py.contains sub s = true -> exists a b, s = a ++ sub ++ b.
Proof.
  induction s as [| x s IH]; intro H.
  - cbn [Py.contains] in H. destruct (startswith_split sub [] H) as (b & E).
    exists [], b. exact E.
  - cbn [Py.contains] in H. apply orb_prop in H. destruct H as [H | H].
    + destruct (startswith_split sub (x :: s) H) as (b & E).
      exists [], b. exact E.
    + destruct (IH H) as (a & b & ->). exists (x :: a), b. reflexivity.
Qed.

(** X23: the intake dialogue is entered exactly by the messages whose
    lower-cased text contains "запись" or "симптом" somewhere, in both
    applications alike; so a keyword in any letter case, anywhere in the
    message, enters it, and no other message does. *)
Theorem keyword_anywhere_in_any_case :
  forall message,
    (Webhook.mentions_booking message = true
     <-> exists before after,
           Py.lower message = before ++ Py.u "запись" ++ after
           \/ Py.lower message = before ++ Py.u "симптом" ++ after)
    /\ Calendar.mentions_booking message = Webhook.mentions_booking message
    /\ (forall before keyword after,
          message = before ++ keyword ++ after ->
          Py.lower keyword = Py.u "запись" \/ Py.lower keyword = Py.u "симптом" ->
          Webhook.mentions_booking message = true).
Proof.
  intro message. split; [| split; [apply mentions_booking_agree |]].
  - unfold Webhook.mentions_booking. split.
    + intro H. apply orb_prop in H. destruct H as [H | H];
        destruct (contains_split _ _ H) as (a & b & E); exists a, b;
        [left | right]; exact E.
    + intros (a & b & [E | E]); rewrite E, contains_app;
        [reflexivity | apply orb_true_r].
  - intros a k b -> Hk. unfold Webhook.mentions_booking, Py.lower.
    rewrite !map_app. fold (Py.lower k).
    destruct Hk as [-> | ->]; rewrite contains_app;
      [reflexivity | apply orb_true_r].
Qed.

Lemma keyword_witness :
  Webhook.mentions_booking (Py.u "Мне нужна ЗАПИСЬ на приём") = true.
Proof.
  destruct (keyword_anywhere_in_any_case (Py.u "Мне нужна ЗАПИСЬ на приём"))
    as (_ & _ & K).
  apply (K (Py.u "Мне нужна ") (Py.u "ЗАПИСЬ") (Py.u " на приём")).
  - vm_compute; reflexivity.
  - left; vm_compute; reflexivity.
Defined.

(** ** What the booking path returns *)

Lemma or_else_truthy x default :
  Py.truthy default = true -> Py.truthy (or_else x default) = true.
Proof.
  intro H. unfold or_else. destruct x as [s |]; [| exact H].
  destruct (Py.truthy s) eqn:E; [exact E | exact H].
Qed.

Lemma booked_truthy specialist t : Py.truthy (Calendar.BOOKED specialist t) = true.
Proof.
  unfold Calendar.BOOKED.
  destruct (Py.u "Запись к ") eqn:E; [vm_compute in E; discriminate E | reflexivity].
Qed.

(** X24: on the booking path the handlers always return a non-empty
    string.  For a message that mentions a booking, with the step unset, 0
    or 1, the generator's return value is never [None] and never empty, in
    both applications: a booking that ends without a reply is replaced by
    the apology in app-webhook.py, and app-calendar.py's booking always has
    a reply. *)
Theorem booking_path_returns_a_message :
  forall env message history w,
    Webhook.mentions_booking message = true ->
    valid_step w ->
    (exists s, returned (fst (Webhook.generate_response env message history w))
               = Some s /\ Py.truthy s = true)
    /\ (exists s, returned (fst (Calendar.generate_response env message history w))
                  = Some s /\ Py.truthy s = true).
Proof.
  intros env message history w H Hv.
  assert (Hc : Calendar.mentions_booking message = true)
    by (rewrite mentions_booking_agree; exact H).
  split.
  - destruct Hv as [Hs | [Hs | Hs]].
    + rewrite (webhook_idle_turn env message history w H (or_introl Hs)).
      eexists. split; [reflexivity | vm_compute; reflexivity].
    + rewrite (webhook_idle_turn env message history w H (or_intror Hs)).
      eexists. split; [reflexivity | vm_compute; reflexivity].
    + rewrite (webhook_details_turn env message history w H Hs).
      destruct (Py.split1 Py.comma message) as [| a [| b rest]];
        try (eexists; split; [reflexivity | vm_compute; reflexivity]).
      cbv zeta.
      destruct (schedule_webhook_returns env (Py.strip a) (Py.strip b)
                  (set_step (Some 0) w)) as (response & w' & E).
      rewrite E. cbn [fst snd returned]. eexists. split; [reflexivity |].
      apply or_else_truthy. vm_compute. reflexivity.
  - destruct Hv as [Hs | [Hs | Hs]].
    + destruct (calendar_step_transition env message history w Hc) as [T0 _].
      destruct (T0 (or_introl Hs)) as [_ E]. rewrite E.
      eexists. split; [reflexivity | vm_compute; reflexivity].
    + destruct (calendar_step_transition env message history w Hc) as [T0 _].
      destruct (T0 (or_intror Hs)) as [_ E]. rewrite E.
      eexists. split; [reflexivity | vm_compute; reflexivity].
    + assert (S : exists a b,
                 Py.split1 Py.space message = [a; b]
                 \/ (Py.split1 Py.space message = [a] /\ b = [])).
      { destruct (has Py.space message) eqn:Hsp.
        - destruct (split1_present Py.space message Hsp) as (a & b & E & _).
          exists a, b. left. exact E.
        - exists message, []. right.
          split; [apply split1_absent; exact Hsp | reflexivity]. }
      destruct S as (a & b & S).
      destruct (calendar_details_turn env message history w Hc Hs a b S)
        as (response & R & G).
      rewrite G. cbn [fst returned]. exists response. split; [reflexivity |].
      destruct (schedule_calendar_outcomes env (Py.strip a) (Py.strip b) w)
        as [(Hr & _) | (sp & _ & Hr & _)]; rewrite Hr in R; injection R as <-.
      * vm_compute. reflexivity.
      * apply booked_truthy.
Qed.

Lemma booking_path_returns_witness :
  exists s,
    returned (fst (Webhook.generate_response Samples.env_router_fails
                     Samples.details_with_keyword [] Samples.awaiting)) = Some s
    /\ Py.truthy s = true.
Proof.
  destruct (booking_path_returns_a_message Samples.env_router_fails
              Samples.details_with_keyword [] Samples.awaiting) as [W _].
  - vm_compute; reflexivity.
  - right; right; reflexivity.
  - exact W.
Defined.

(** ** Without credentials *)

(** X25: when the calendar service cannot be obtained for a reason other
    than an HTTP error (the credentials variable is missing or is not valid
    JSON), app-webhook.py gives up inside the duplicate check: the booking
    returns [None] with the clock read once, the router never asked, and
    nothing written or posted.  app-calendar.py asks the router first and
    then returns its error message, with nothing written. *)
Theorem missing_credentials_stop_the_booking :
  forall env name symptoms w e,
    credentials_fault env = Some e ->
    is_HttpError e = false ->
    (let r := Webhook.schedule_appointment env name symptoms w in
     fst r = inr None
     /\ routed (snd r) = routed w /\ events (snd r) = events w
     /\ posts (snd r) = posts w /\ ticks (snd r) = S (ticks w))
    /\ (let r := Calendar.schedule_appointment env name symptoms w in
        fst r = inr Calendar.BOOKING_ERROR
        /\ routed (snd r) = routed w ++ [symptoms]
        /\ events (snd r) = events w).
Proof.
  intros env name symptoms w e Hc He. split; cbv zeta.
  - unfold Webhook.schedule_appointment, try_except.
    rewrite (bind_inr (now env) _ w _ _ eq_refl).
    erewrite bind_inl
      by (rewrite check_duplicate_event_cases; rewrite Hc; cbv beta zeta;
          rewrite He; reflexivity).
    rewrite He. cbv [bind logger modify ret]. repeat split.
  - destruct (schedule_calendar_outcomes env name symptoms w)
      as [(Hr & Hev) | (sp & Hsp & Hr & Hev & _)].
    + split; [exact Hr |]. split; [| exact Hev].
      unfold Calendar.schedule_appointment.
      rewrite try_except_frame.
      2:{ intros e' k H. inversion H; subst.
          apply preserves_bind;
            [apply preserves_logger; intros; reflexivity
            | intros _; apply preserves_ret]. }
      rewrite bind_unfold. unfold Calendar.route at 1.
      destruct (define_specialist env symptoms) as [e' | sp]; [reflexivity |].
      match goal with
      | |- routed (snd (?X ?w0)) = _ =>
          assert (P : preserves routed X) by frame_all; rewrite (P w0)
      end.
      reflexivity.
    + exfalso.
      assert (Hno : events (snd (Calendar.schedule_appointment env name symptoms w))
                    = events w).
      { unfold Calendar.schedule_appointment.
        rewrite try_except_frame.
        2:{ intros e' k H. inversion H; subst.
            apply preserves_bind;
              [apply preserves_logger; intros; reflexivity
              | intros _; apply preserves_ret]. }
        rewrite bind_unfold. unfold Calendar.route at 1. rewrite Hsp.
        rewrite (bind_inr (now env) _ _ _ _ eq_refl).
        rewrite bind_unfold. unfold dt_add at 1, lift.
        destruct (DateTime.add _ (hours 3)) as [e' | t]; [reflexivity |].
        rewrite bind_unfold. unfold Calendar.get_calendar_service at 1.
        rewrite Hc. reflexivity. }
      rewrite Hev in Hno. apply (f_equal (@List.length _)) in Hno.
      rewrite length_app in Hno. cbn [List.length] in Hno. lia.
Qed.

Lemma missing_credentials_witness :
  fst (Webhook.schedule_appointment
         Samples.env_no_credentials Samples.ivan Samples.sore_throat Samples.fresh) = inr None.
Proof.
  destruct (missing_credentials_stop_the_booking
              Samples.env_no_credentials Samples.ivan Samples.sore_throat Samples.fresh OtherException
              eq_refl eq_refl) as [(R & _) _].
  exact R.
Defined.

Lemma calendar_reply_witness :
  events (snd (Calendar.schedule_appointment Samples.env_insert_refused Samples.ivan
                 Samples.sore_throat Samples.fresh)) = events Samples.fresh.
Proof.
  destruct (calendar_reply_tells_what_was_written Samples.env_insert_refused
              Samples.ivan Samples.sore_throat Samples.fresh)
    as (reply & R & [Unchanged _] & _).
  apply Unchanged.
  assert (E : fst (Calendar.schedule_appointment Samples.env_insert_refused
                     Samples.ivan Samples.sore_throat Samples.fresh)
              = inr Calendar.BOOKING_ERROR) by (vm_compute; reflexivity).
  rewrite E in R. injection R as <-. reflexivity.
Defined.

Lemma system_prompt_witness :
  fst (Webhook.load_system_prompt (inl OtherException) Samples.fresh)
  = inr Webhook.DEFAULT_PROMPT.
Proof.
  destruct (system_prompt_is_loaded_or_defaulted (inl OtherException) Samples.fresh)
    as [(prompt & R & _ & _ & D) _].
  destruct (D OtherException eq_refl) as [-> _]. exact R.
Defined.

(** ** The same request, twice in a row *)

Lemma reply_injective (a b : Py.str) :
  @inr exn (option Py.str) (Some a) = inr (Some b) -> a = b.
Proof. intro H. inversion H. reflexivity. Qed.

(** C8, at the failing input: the same name is submitted twice, the second
    time less than two and a half hours after the first, with the services
    working and no older booking in the way.  The duplicate check of the
    second submission looks at the half hour that starts at the second
    request, which ends before the slot of the first booking begins: it does
    not report the reservation, the reply is not the duplicate message, and
    a second event is filed for the same name.  Submitted at the same
    instant, the two events have the same slot. *)
Theorem second_identical_submission_is_booked_again :
  forall env name symptoms specialist w,
    credentials_fault env = None -> list_fault env = None ->
    insert_fault env = None ->
    define_specialist env symptoms = inr specialist ->
    bookable_at (clock env (ticks w)) ->
    bookable_at (clock env (S (ticks w))) ->
    bookable_at (clock env (S (S (ticks w)))) ->
    bookable_at (clock env (S (S (S (ticks w))))) ->
    reserved env name (clock env (ticks w)) (clock env (ticks w) + minutes 30) w
    = false ->
    reserved env name (clock env (S (S (ticks w))))
      (clock env (S (S (ticks w))) + minutes 30) w = false ->
    clock env (S (S (ticks w))) + minutes 30 <= clock env (S (ticks w)) + hours 3 ->
    let first := Webhook.schedule_appointment env name symptoms w in
    let second := Webhook.schedule_appointment env name symptoms (snd first) in
    let id := Z.of_nat (List.length (events w)) in
    fst (Webhook.check_duplicate_event env name (clock env (S (S (ticks w))))
           (snd first)) = inr false
    /\ fst second <> inr (Some Webhook.DUPLICATE)
    /\ events (snd second)
       = events w
         ++ [(id, webhook_event name specialist symptoms (clock env (S (ticks w))));
             (id + 1, webhook_event name specialist symptoms
                        (clock env (S (S (S (ticks w))))))].
Proof.
  intros env name symptoms sp w Hc Hl Hi Hsp T0 T1 T2 T3 Free0 Free2 Hgap.
  cbv zeta.
  pose proof (booking_checks_the_request_time env name symptoms sp w
                Hc Hl Hi T0 T1 Free0 Hsp) as E1.
  assert (Tk : ticks (snd (Webhook.schedule_appointment env name symptoms w))
               = S (S (ticks w))).
  { unfold Webhook.schedule_appointment.
    rewrite try_except_frame
      by (apply schedule_webhook_handler_frame; intros; reflexivity).
    rewrite (bind_inr (now env) _ w _ _ eq_refl).
    rewrite (bind_inr _ _ _ _ _
               (check_duplicate_event_reports env name _ _ Hc Hl T0)).
    change (reserved env name (clock env (ticks w))
              (clock env (ticks w) + minutes 30) (set_ticks (S (ticks w)) w))
      with (reserved env name (clock env (ticks w))
              (clock env (ticks w) + minutes 30) w).
    rewrite Free0.
    erewrite bind_inr by (unfold Webhook.route; rewrite Hsp; reflexivity).
    erewrite bind_inr by reflexivity.
    match goal with
    | |- ticks (snd (?X ?w0)) = _ =>
        assert (P : preserves ticks X) by frame_all; rewrite (P w0)
    end.
    reflexivity. }
  remember (snd (Webhook.schedule_appointment env name symptoms w)) as w1 eqn:Ew1.
  assert (Free1 : reserved env name (clock env (ticks w1))
                    (clock env (ticks w1) + minutes 30) w1 = false).
  { rewrite Tk. unfold reserved. rewrite E1, existsb_app.
    unfold reserved in Free2. rewrite Free2. cbn [existsb snd orb].
    unfold CalendarService.overlaps, webhook_event.
    cbn [start_dateTime end_dateTime].
    destruct (Z.ltb_spec (clock env (S (ticks w)) + hours 3)
                (clock env (S (S (ticks w))) + minutes 30)) as [Lt | _];
      [lia |].
    rewrite andb_false_r. reflexivity. }
  assert (T2' : bookable_at (clock env (ticks w1))) by (rewrite Tk; exact T2).
  assert (T3' : bookable_at (clock env (S (ticks w1)))) by (rewrite Tk; exact T3).
  pose proof (booking_checks_the_request_time env name symptoms sp w1
                Hc Hl Hi T2' T3' Free1 Hsp) as E2.
  rewrite Tk in Free1, E2.
  split.
  - rewrite (check_duplicate_event_reports env name _ w1 Hc Hl T2).
    cbn [fst]. rewrite Free1. reflexivity.
  - split.
    + intro D.
      destruct (schedule_webhook_outcomes env name symptoms w1)
        as [(He & _) | (sp' & _ & _ & _ & [Hr | Hr])].
      * rewrite E2 in He. apply (f_equal (@List.length _)) in He.
        rewrite length_app in He. cbn [List.length] in He. lia.
      * rewrite Hr in D. apply reply_injective in D.
        exact (proj1 (pending_starts_differently _ _) D).
      * rewrite Hr in D. discriminate D.
    + rewrite E2, E1, length_app. cbn [List.length].
      rewrite <- app_assoc. cbn [app].
      replace (Z.of_nat (List.length (events w) + 1))
        with (Z.of_nat (List.length (events w)) + 1) by lia.
      reflexivity.
Qed.

Lemma second_identical_submission_witness :
  fst (Webhook.check_duplicate_event Samples.env_ok Samples.ivan Samples.t0
         (snd (Webhook.schedule_appointment Samples.env_ok Samples.ivan
                 Samples.sore_throat Samples.fresh))) = inr false
  /\ events (snd (Webhook.schedule_appointment Samples.env_ok Samples.ivan
                    Samples.sore_throat
                    (snd (Webhook.schedule_appointment Samples.env_ok Samples.ivan
                            Samples.sore_throat Samples.fresh))))
     = [(0, Samples.first_event); (1, Samples.first_event)].
Proof.
  assert (B : bookable_at Samples.t0) by (split; vm_compute; discriminate).
  destruct (second_identical_submission_is_booked_again Samples.env_ok
              Samples.ivan Samples.sore_throat Samples.therapist Samples.fresh)
    as (Check & _ & Events).
  - reflexivity.
  - reflexivity.
  - reflexivity.
  - reflexivity.
  - exact B.
  - exact B.
  - exact B.
  - exact B.
  - vm_compute; reflexivity.
  - vm_compute; reflexivity.
  - vm_compute; discriminate.
  - split; [exact Check | exact Events].
Defined.
